(** * Ticker research: indicator library and score engine

    A shallow embedding of [agents/trader/stock_analysis/analyzer.py] and
    [agents/trader/scoring.py], and the properties the specification states
    about them; then the code around them: the rest of the indicator
    library, the indicator columns of [market_data.py], the profile handling
    of [config.py], the queries and the gathering loop of [search.py] and
    the scoring steps of [research.py], with the properties that code has.

    Numbers.  The program computes with IEEE binary64 values (Python [float],
    numpy [float64]).  The embedding keeps what the code branches on: the
    special values NaN, +inf and -inf, their propagation through arithmetic
    and the fact that every ordered comparison with NaN is false.  Finite
    values are computed exactly, as rationals; rounding, overflow and the sign
    of zero are not represented.  A pandas "undefined" entry is NaN, as in the
    program.

    Where a statement depends on the last bit of a computed float, the
    computation is also given with the IEEE binary64 operations themselves,
    in module [Binary64]: the symmetry of the Bollinger bands, the confidence
    of a recommendation, and the upper end of the range of %K.  A bound or a
    decimal value proved on the rationals is a statement about exact
    arithmetic; the theorems say so where binary64 differs. *)

From Stdlib Require Import QArith Qabs Qminmax Lqa ZArith Lia List Floats
  DecimalString.
From stdpp Require Import gmap strings list fin_maps.

(** ** Extended rationals: the model of a binary64 value *)

Module Num.

Local Open Scope Q_scope.

Inductive num : Type :=
| Fin (q : Q)
| PInf
| NInf
| NaN.

Definition Qlt_bool (a b : Q) : bool := negb (Qle_bool b a).

Definition of_Z (z : Z) : num := Fin (inject_Z z).

Definition neg (x : num) : num :=
  match x with
  | Fin q => Fin (- q)
  | PInf => NInf
  | NInf => PInf
  | NaN => NaN
  end.

Definition add (x y : num) : num :=
  match x, y with
  | NaN, _ | _, NaN => NaN
  | Fin a, Fin b => Fin (a + b)
  | PInf, NInf | NInf, PInf => NaN
  | PInf, _ | _, PInf => PInf
  | NInf, _ | _, NInf => NInf
  end.

Definition sub (x y : num) : num := add x (neg y).

(** [inf_signed c]: the infinity whose sign is that of a value comparing as
    [c] with zero; zero times infinity is NaN. *)
Definition inf_signed (c : comparison) : num :=
  match c with
  | Gt => PInf
  | Lt => NInf
  | Eq => NaN
  end.

Definition mul (x y : num) : num :=
  match x, y with
  | NaN, _ | _, NaN => NaN
  | Fin a, Fin b => Fin (a * b)
  | Fin a, PInf | PInf, Fin a => inf_signed (a ?= 0)
  | Fin a, NInf | NInf, Fin a => inf_signed (0 ?= a)
  | PInf, PInf | NInf, NInf => PInf
  | PInf, NInf | NInf, PInf => NInf
  end.

(** Division as numpy performs it: a zero divisor gives an infinity or NaN
    (with a warning), never an exception. *)
Definition div (x y : num) : num :=
  match x, y with
  | NaN, _ | _, NaN => NaN
  | Fin a, Fin b =>
      if Qeq_bool b 0 then inf_signed (a ?= 0) else Fin (a / b)
  | Fin _, PInf | Fin _, NInf => Fin 0
  | PInf, Fin b => if Qle_bool 0 b then PInf else NInf
  | NInf, Fin b => if Qle_bool 0 b then NInf else PInf
  | PInf, PInf | PInf, NInf | NInf, PInf | NInf, NInf => NaN
  end.

Definition abs (x : num) : num :=
  match x with
  | Fin q => Fin (Qabs q)
  | PInf | NInf => PInf
  | NaN => NaN
  end.

Definition ltb (x y : num) : bool :=
  match x, y with
  | NaN, _ | _, NaN => false
  | Fin a, Fin b => Qlt_bool a b
  | NInf, NInf => false
  | NInf, _ => true
  | _, NInf => false
  | PInf, _ => false
  | Fin _, PInf => true
  end.

Definition leb (x y : num) : bool :=
  match x, y with
  | NaN, _ | _, NaN => false
  | Fin a, Fin b => Qle_bool a b
  | NInf, _ => true
  | _, NInf => false
  | _, PInf => true
  | PInf, Fin _ => false
  end.

Definition gtb (x y : num) : bool := ltb y x.
Definition geb (x y : num) : bool := leb y x.

Definition eqb (x y : num) : bool :=
  match x, y with
  | Fin a, Fin b => Qeq_bool a b
  | PInf, PInf | NInf, NInf => true
  | _, _ => false
  end.

Definition neqb (x y : num) : bool := negb (eqb x y).

Definition isnan (x : num) : bool :=
  match x with
  | NaN => true
  | _ => false
  end.

Definition notna (x : num) : bool := negb (isnan x).

(** Python's [min(a, b)] and [max(a, b)]: the first argument is kept unless
    the second compares strictly below (above) it. *)
Definition py_min (a b : num) : num := if ltb b a then b else a.
Definition py_max (a b : num) : num := if gtb b a then b else a.

(** Python's [sum(...)]: a left fold that starts from the integer 0. *)
Definition py_sum (l : list num) : num := fold_left add l (Fin 0).

(** Two model values denote the same number. *)
Definition same (x y : num) : Prop :=
  match x, y with
  | Fin a, Fin b => a == b
  | PInf, PInf | NInf, NInf | NaN, NaN => True
  | _, _ => False
  end.

(** [x] is a finite number between [lo] and [hi]. *)
Definition within (lo hi : Q) (x : num) : Prop :=
  exists q, x = Fin q /\ lo <= q /\ q <= hi.

End Num.

Abbreviation num := Num.num.
Abbreviation Fin := Num.Fin.
Abbreviation PInf := Num.PInf.
Abbreviation NInf := Num.NInf.
Abbreviation NaN := Num.NaN.

#[global] Instance num_inhabited : Inhabited num := populate NaN.

Declare Scope num_scope.
Delimit Scope num_scope with num.
Bind Scope num_scope with Num.num.
Infix "+" := Num.add : num_scope.
Infix "-" := Num.sub : num_scope.
Infix "*" := Num.mul : num_scope.
Infix "/" := Num.div : num_scope.
Notation "- x" := (Num.neg x) : num_scope.
Infix "<?" := Num.ltb : num_scope.
Infix "<=?" := Num.leb : num_scope.
Infix ">?" := Num.gtb : num_scope.
Infix ">=?" := Num.geb : num_scope.
Infix "=?" := Num.eqb : num_scope.

(** ** Python values, exceptions and built-ins *)

Module Py.

Inductive exn : Type :=
| TypeError
| ValueError
| IndexError
| Exception.

Inductive result (A : Type) : Type :=
| Ok (a : A)
| Raise (e : exn).

Arguments Ok {A} a.
Arguments Raise {A} e.

Definition bind {A B : Type} (r : result A) (k : A -> result B) : result B :=
  match r with
  | Ok a => k a
  | Raise e => Raise e
  end.

(** [try: r except Exception: h]. *)
Definition try_except {A : Type} (r : result A) (h : exn -> result A) : result A :=
  match r with
  | Ok a => Ok a
  | Raise e => h e
  end.

(** The objects a caller can put in an argument list. *)
Inductive pyobj : Type :=
| PyInt (z : Z)
| PyFloat (x : num)
| PyStr (s : string)
| PyNone.

(** [isinstance(x, (int, float))]. *)
Definition is_number (o : pyobj) : bool :=
  match o with
  | PyInt _ | PyFloat _ => true
  | _ => false
  end.

(** The float64 value of a number (what [pd.Series] stores, and what mixed
    int/float arithmetic computes with). *)
Definition num_of (o : pyobj) : num :=
  match o with
  | PyInt z => Num.of_Z z
  | PyFloat x => x
  | _ => NaN
  end.

Definition lower_ascii (c : Ascii.ascii) : Ascii.ascii :=
  let n := Ascii.nat_of_ascii c in
  if ((65 <=? n) && (n <=? 90))%nat then Ascii.ascii_of_nat (n + 32) else c.

(** [str.lower()], on ASCII text. *)
Fixpoint lower (s : string) : string :=
  match s with
  | EmptyString => EmptyString
  | String c r => String (lower_ascii c) (lower r)
  end.

Definition upper_ascii (c : Ascii.ascii) : Ascii.ascii :=
  let n := Ascii.nat_of_ascii c in
  if ((97 <=? n) && (n <=? 122))%nat then Ascii.ascii_of_nat (n - 32) else c.

(** [str.upper()], on ASCII text. *)
Fixpoint upper (s : string) : string :=
  match s with
  | EmptyString => EmptyString
  | String c r => String (upper_ascii c) (upper r)
  end.

(** [sep.join(parts)]. *)
Fixpoint join (sep : string) (parts : list string) : string :=
  match parts with
  | [] => EmptyString
  | [p] => p
  | p :: rest => (p ++ sep ++ join sep rest)%string
  end.

(** Truthiness of a string: non-empty. *)
Definition truthy (s : string) : bool :=
  match s with
  | EmptyString => false
  | _ => true
  end.

End Py.

Notation "x <- r ;; k" := (Py.bind r (fun x => k))
  (at level 100, r at next level, right associativity).
Abbreviation Ok := Py.Ok.
Abbreviation Raise := Py.Raise.

(** ** pandas: the Series operations the indicator library calls

    Modelled from the documented behaviour of pandas: a float64 Series is the
    list of its values, position by position; NaN marks a missing value. *)

Module Pandas.

Local Open Scope num_scope.

(** [pd.Series(data)] for a validated list of numbers. *)
Definition Series (data : list Py.pyobj) : list num := map Py.num_of data.

(** The observations a trailing window of [w] positions ending at [i] sees:
    positions [i+1-w .. i], cut at the start of the series. *)
Definition window_at (s : list num) (w i : nat) : list num :=
  skipn (i + 1 - w) (firstn (i + 1) s).

(** [s.rolling(window=w, min_periods=mp).agg()]: missing values are left out
    of a window; a window with fewer than [mp] observations gives NaN. *)
Definition rolling (w mp : nat) (agg : list num -> num) (s : list num) : list num :=
  map (fun i =>
         let obs := List.filter Num.notna (window_at s w i) in
         if (mp <=? length obs)%nat then agg obs else NaN)
      (seq 0 (length s)).

Definition total (obs : list num) : num := fold_left Num.add obs (Fin 0).

Definition count (obs : list num) : num := Num.of_Z (Z.of_nat (length obs)).

Definition mean (obs : list num) : num := total obs / count obs.

Definition smallest (obs : list num) : num :=
  match obs with
  | [] => NaN
  | x :: r => fold_left (fun a b => if b <? a then b else a) r x
  end.

Definition largest (obs : list num) : num :=
  match obs with
  | [] => NaN
  | x :: r => fold_left (fun a b => if b >? a then b else a) r x
  end.

(** Sample variance (denominator n-1, pandas' default [ddof=1]); undefined
    for a single observation. *)
Definition var (obs : list num) : num :=
  if (length obs <=? 1)%nat then NaN
  else
    let m := mean obs in
    total (map (fun x => (x - m) * (x - m)) obs)
    / Num.of_Z (Z.of_nat (length obs) - 1).

(** [.rolling(window=w).mean()], [.min()], [.max()]: [min_periods] defaults
    to the window size. *)
Definition rolling_mean (w : nat) : list num -> list num := rolling w w mean.
Definition rolling_min (w : nat) : list num -> list num := rolling w w smallest.
Definition rolling_max (w : nat) : list num -> list num := rolling w w largest.

(** [s.diff()]: the first entry has no predecessor. *)
Definition diff (s : list num) : list num :=
  match s with
  | [] => []
  | _ :: r => NaN :: zip_with (fun cur prev => cur - prev) r s
  end.

(** [s.clip(lower=b)] and [s.clip(upper=b)]; a missing value stays missing. *)
Definition clip_lower (b : num) (s : list num) : list num :=
  map (fun x => if x <? b then b else x) s.
Definition clip_upper (b : num) (s : list num) : list num :=
  map (fun x => if x >? b then b else x) s.

(** [s.where(cond, other)]: keeps [s] where [cond] holds. *)
Definition where_ (s : list num) (cond : list bool) (other : num) : list num :=
  zip_with (fun x (c : bool) => if c then x else other) s cond.

(** [s.replace(a, b)]. *)
Definition replace (a b : num) (s : list num) : list num :=
  map (fun x => if x =? a then b else x) s.

(** [s.ewm(alpha=a, adjust=False).mean()], for a series without missing
    values: the first observation seeds the average and each later one is
    blended in with weight [a]. *)
Fixpoint ewm_from (alpha prev : num) (s : list num) : list num :=
  match s with
  | [] => []
  | x :: r =>
      let y := (Fin 1 - alpha) * prev + alpha * x in
      y :: ewm_from alpha y r
  end.

Definition ewm_mean (alpha : num) (s : list num) : list num :=
  match s with
  | [] => []
  | x :: r => x :: ewm_from alpha x r
  end.

(** The smoothing factor of [ewm(span=n)]. *)
Definition span_alpha (n : Z) : num := Fin 2 / (Num.of_Z n + Fin 1).

(** [s.shift()]: every value moves one position later. *)
Definition shift (s : list num) : list num :=
  match s with
  | [] => []
  | _ :: _ => NaN :: removelast s
  end.

(** One row of [pd.DataFrame(...).max(axis=1)]: the largest value present. *)
Definition row_max (row : list num) : num :=
  largest (List.filter Num.notna row).

End Pandas.

(** ** stock_analysis/analyzer.py *)

Module Analyzer.

Import Py Pandas.
Local Open Scope num_scope.

(** [isinstance(data, list) and all(isinstance(x, (int, float)) for x in data)];
    that the argument is a list is its type here. *)
Definition all_numbers (data : list pyobj) : bool := forallb is_number data.

(** [isinstance(window, int) and window > 0]. *)
Definition positive_int (window : pyobj) : option Z :=
  match window with
  | PyInt w => if (w <=? 0)%Z then None else Some w
  | _ => None
  end.

Definition calculate_moving_average (data : list pyobj) (window : pyobj)
  : result (list num) :=
  if negb (all_numbers data) then Raise TypeError
  else
    match positive_int window with
    | None => Raise ValueError
    | Some w => Ok (rolling_mean (Z.to_nat w) (Series data))
    end.

(** The trailing averages of gains and of losses that [calculate_rsi]
    computes from the differenced series. *)
Definition avg_gain (series : list num) (w : nat) : list num :=
  let delta := diff series in
  let gains := clip_lower (Fin 0) delta in
  rolling_mean w gains.

Definition avg_loss (series : list num) (w : nat) : list num :=
  let delta := diff series in
  let losses := map Num.neg (clip_upper (Fin 0) delta) in
  rolling_mean w losses.

Definition calculate_rsi (data : list pyobj) (window : pyobj)
  : result (list num) :=
  if negb (all_numbers data) then Raise TypeError
  else
    match positive_int window with
    | None => Raise ValueError
    | Some w =>
        if (Z.of_nat (length data) <? w)%Z then Ok []
        else
          let series := Series data in
          let avg_gain := avg_gain series (Z.to_nat w) in
          let avg_loss := avg_loss series (Z.to_nat w) in
          let rs := zip_with Num.div avg_gain avg_loss in
          let rsi := map (fun r => Fin 100 - Fin 100 / (Fin 1 + r)) rs in
          let no_loss_mask :=
            zip_with (fun l g => (l =? Fin 0) && (g >? Fin 0)) avg_loss avg_gain in
          let neutral_mask :=
            zip_with (fun g l => (g =? Fin 0) && (l =? Fin 0)) avg_gain avg_loss in
          let rsi := where_ rsi (map negb no_loss_mask) (Fin 100) in
          let rsi := where_ rsi (map negb neutral_mask) (Fin 50) in
          Ok rsi
    end.

(** Square root of a float64: [sqrtQ] stands for the root of a finite
    non-negative value. *)
Definition num_sqrt (sqrtQ : Q -> Q) (x : num) : num :=
  match x with
  | Fin q => if Num.Qlt_bool q 0 then NaN else Fin (sqrtQ q)
  | PInf => PInf
  | NInf | NaN => NaN
  end.

(** [.rolling(window=w).std()]. *)
Definition rolling_std (sqrtQ : Q -> Q) (w : nat) : list num -> list num :=
  rolling w w (fun obs => num_sqrt sqrtQ (var obs)).

Definition calculate_bollinger_bands (sqrtQ : Q -> Q)
    (data : list pyobj) (window : pyobj) (num_std_dev : pyobj)
  : result (list num * list num * list num) :=
  if negb (all_numbers data) then Raise TypeError
  else
    match positive_int window with
    | None => Raise ValueError
    | Some w =>
        if negb (is_number num_std_dev) || (num_of num_std_dev <=? Fin 0)
        then Raise ValueError
        else
          let series := Series data in
          let middle_band := rolling_mean (Z.to_nat w) series in
          let std_dev := rolling_std sqrtQ (Z.to_nat w) series in
          let width := map (fun s => s * num_of num_std_dev) std_dev in
          let upper_band := zip_with Num.add middle_band width in
          let lower_band := zip_with Num.sub middle_band width in
          Ok (upper_band, middle_band, lower_band)
    end.

(** %K and %D.  The quotient that gives %K is computed exactly here; how
    binary64 rounds it is in [Binary64.percent_k_point]. *)
Definition calculate_stochastic_oscillator
    (high low close : list pyobj) (window k_smoothing : pyobj)
  : result (list num * list num) :=
  if negb (forallb all_numbers [high; low; close]) then Raise TypeError
  else if negb (length high =? length low)%nat
          || negb (length low =? length close)%nat
  then Raise ValueError
  else
    match positive_int window with
    | None => Raise ValueError
    | Some w =>
        match positive_int k_smoothing with
        | None => Raise ValueError
        | Some k =>
            let high_series := Series high in
            let low_series := Series low in
            let close_series := Series close in
            let lowest_low := rolling_min (Z.to_nat w) low_series in
            let highest_high := rolling_max (Z.to_nat w) high_series in
            let price_range := zip_with Num.sub highest_high lowest_low in
            let safe_range := replace (Fin 0) NaN price_range in
            let percent_k :=
              zip_with Num.div
                (map (fun d => Fin 100 * d)
                     (zip_with Num.sub close_series lowest_low))
                safe_range in
            let percent_k :=
              where_ percent_k
                     (map (fun r => Num.neqb r (Fin 0)) price_range) (Fin 0) in
            let percent_d := rolling (Z.to_nat k) 1 mean percent_k in
            Ok (percent_k, percent_d)
        end
    end.

(** [xs[i]] for an index the loop keeps in range. *)
Definition item (xs : list pyobj) (i : nat) : num :=
  num_of (default PyNone (xs !! i)).

(** The body of the [for i in range(1, len(close))] loop: one in-place
    update of [obv]. *)
Definition obv_step (close volume : list pyobj) (obv : list num) (i : nat)
  : list num :=
  let prev := default NaN (obv !! (i - 1)%nat) in
  if item close i >? item close (i - 1)
  then <[i := prev + item volume i]> obv
  else if item close i <? item close (i - 1)
  then <[i := prev - item volume i]> obv
  else <[i := prev]> obv.

Definition calculate_on_balance_volume (close volume : list pyobj)
  : result (list num) :=
  if negb (all_numbers close) then Raise TypeError
  else if negb (all_numbers volume) then Raise TypeError
  else if negb (length close =? length volume)%nat then Raise ValueError
  else
    let obv := replicate (length close) (Fin 0) in
    Ok (fold_left (obv_step close volume) (seq 1 (length close - 1)) obv).

Definition calculate_exponential_moving_average
    (data : list pyobj) (window : pyobj) : result (list num) :=
  if negb (all_numbers data) then Raise TypeError
  else
    match positive_int window with
    | None => Raise ValueError
    | Some w => Ok (ewm_mean (span_alpha w) (Series data))
    end.

Definition calculate_macd
    (data : list pyobj) (fast_period slow_period signal_period : pyobj)
  : result (list num * list num * list num) :=
  if negb (all_numbers data) then Raise TypeError
  else
    match positive_int fast_period, positive_int slow_period,
          positive_int signal_period with
    | Some fast, Some slow, Some sig =>
        if (slow <=? fast)%Z then Raise ValueError
        else
          let series := Series data in
          let fast_ema := ewm_mean (span_alpha fast) series in
          let slow_ema := ewm_mean (span_alpha slow) series in
          let macd_line := zip_with Num.sub fast_ema slow_ema in
          let signal_line := ewm_mean (span_alpha sig) macd_line in
          let histogram := zip_with Num.sub macd_line signal_line in
          Ok (macd_line, signal_line, histogram)
    | _, _, _ => Raise ValueError
    end.

(** The true range of each period, as [calculate_average_true_range] builds
    it: the row-wise maximum of three columns. *)
Definition true_range (high_series low_series close_series : list num)
  : list num :=
  let high_low := zip_with Num.sub high_series low_series in
  let high_close :=
    map Num.abs (zip_with Num.sub high_series (shift close_series)) in
  let low_close :=
    map Num.abs (zip_with Num.sub low_series (shift close_series)) in
  zip_with (fun hl hc_lc => row_max [hl; fst hc_lc; snd hc_lc])
           high_low (zip high_close low_close).

Definition calculate_average_true_range
    (high low close : list pyobj) (window : pyobj) : result (list num) :=
  if negb (forallb all_numbers [high; low; close]) then Raise TypeError
  else if negb (length high =? length low)%nat
          || negb (length low =? length close)%nat
  then Raise ValueError
  else
    match positive_int window with
    | None => Raise ValueError
    | Some w =>
        let tr := true_range (Series high) (Series low) (Series close) in
        let atr := ewm_mean (Fin 1 / Num.of_Z w) tr in
        Ok atr
    end.

End Analyzer.

(** ** Computations at binary64 precision

    The body of [calculate_bollinger_bands] after its argument checks, with
    every operation the IEEE binary64 one; the rolling mean and the rolling
    sample deviation are evaluated as their defining formulas.  Then the
    confidence arithmetic of [generate_trading_signal] and the %K formula of
    [calculate_stochastic_oscillator], likewise. *)

Module Binary64.

Import PrimFloat.
Local Open Scope float_scope.

Definition notna (x : float) : bool := negb (is_nan x).

Definition rolling (w mp : nat) (agg : list float -> float) (s : list float)
  : list float :=
  map (fun i =>
         let obs := List.filter notna (skipn (i + 1 - w) (firstn (i + 1) s)) in
         if (mp <=? length obs)%nat then agg obs else nan)
      (seq 0 (length s)).

Definition total (obs : list float) : float := fold_left add obs 0.

Definition count (obs : list float) : float :=
  of_uint63 (Uint63.of_nat (length obs)).

Definition mean (obs : list float) : float := total obs / count obs.

Definition var (obs : list float) : float :=
  if (length obs <=? 1)%nat then nan
  else
    let m := mean obs in
    total (map (fun x => (x - m) * (x - m)) obs) / (count obs - 1).

Definition calculate_bollinger_bands
    (series : list float) (window : nat) (num_std_dev : float)
  : list float * list float * list float :=
  let middle_band := rolling window window mean series in
  let std_dev := rolling window window (fun obs => sqrt (var obs)) series in
  let width := map (fun s => s * num_std_dev) std_dev in
  let upper_band := zip_with add middle_band width in
  let lower_band := zip_with sub middle_band width in
  (upper_band, middle_band, lower_band).

(** Python's [min(a, b)] on floats. *)
Definition py_min (a b : float) : float := if b <? a then b else a.

(** The confidence [generate_trading_signal] returns when the technical
    score agrees with the signal:
    [confidence = abs(composite_score - 0.5) * 2] and then
    [min(confidence * 1.2, 1.0)]; 1.2 is the double nearest to it. *)
Definition boosted_confidence (composite_score : float) : float :=
  let confidence := abs (composite_score - 0.5) * 2 in
  py_min (confidence * 0x1.3333333333333p+0) 1.

(** %K at one position, from the close and the two rolling extremes there:
    [price_range.replace(0, nan)], [100 * (close - lowest_low) / safe_range]
    and [where(price_range != 0, 0.0)].  With a window of one period the
    extremes are the period's own low and high. *)
Definition percent_k_point (close lowest_low highest_high : float) : float :=
  let price_range := highest_high - lowest_low in
  let safe_range := if price_range =? 0 then nan else price_range in
  let percent_k := 100 * (close - lowest_low) / safe_range in
  if negb (price_range =? 0) then percent_k else 0.

End Binary64.

(** ** trader/scoring.py *)

Module Scoring.

Import Py.
Local Open Scope num_scope.

(** A pandas DataFrame of float64 columns: the number of rows and the
    columns by name, each as long as the frame. *)
Record DataFrame : Type := {
  nrows : nat;
  columns : gmap string (list num)
}.

(** [df.empty]: some axis has length zero. *)
Definition empty (df : DataFrame) : bool :=
  (nrows df =? 0)%nat || bool_decide (columns df = ∅).

(** [df.iloc[i]]: the row at position [i], counted from the end when [i] is
    negative, as a Series indexed by column name. *)
Definition iloc (df : DataFrame) (i : Z) : result (gmap string num) :=
  let n := Z.of_nat (nrows df) in
  if ((0 <=? i) && (i <? n))%Z
  then Ok (omap (fun col : list num => col !! Z.to_nat i) (columns df))
  else if ((- n <=? i) && (i <? 0))%Z
  then Ok (omap (fun col : list num => col !! Z.to_nat (n + i)) (columns df))
  else Raise IndexError.

(** [row.get(name)]: [None] when the frame has no such column. *)
Definition get (row : gmap string num) (name : string) : option num :=
  row !! name.

(** The part of [TickerResearchConfig] the score provider reads. *)
Record TickerResearchConfig : Type := {
  ticker : string;
  _risk_tolerance : option string
}.

(** The [risk_tolerance] property: the profile's value once applied,
    otherwise the fallback. *)
Definition risk_tolerance (config : TickerResearchConfig) : string :=
  default "moderate" (_risk_tolerance config).

(** What the provider obtains from outside the program. *)
Record Runtime : Type := {
  (** [os.getenv("OPENAI_API_KEY")] *)
  getenv_api_key : option string;
  (** whether [from openai import OpenAI] succeeds *)
  openai_installed : bool;
  (** [client.chat.completions.create(...).choices[0].message.content] for
      a prompt: the reply text, or whatever the call raises *)
  chat_completion : string -> result string;
  (** [float(text.strip())]: a float (possibly NaN or infinite) or an error *)
  float_of_text : string -> result num;
  (** the format specification [:.2f] *)
  format_2f : num -> string
}.

Record ScoreProvider : Type := {
  config : TickerResearchConfig;
  runtime : Runtime
}.

Definition _rsi_score_normalized (rsi : num) : num :=
  if rsi <=? Fin 25 then Fin 0.9
  else if rsi <=? Fin 30 then Fin 0.75
  else if rsi >=? Fin 75 then Fin 0.15
  else if rsi >=? Fin 70 then Fin 0.25
  else Fin 0.75 - (rsi - Fin 30) * Fin 0.5 / Fin 40.

Definition weights : gmap string num :=
  {[ "RSI" := Fin 0.4; "Price_vs_SMA" := Fin 0.4; "MACD" := Fin 0.2 ]}.

Definition weight_of (name : string) : num := default (Fin 1) (weights !! name).

Definition technical_score (self : ScoreProvider) (df : option DataFrame)
  : result num :=
  match df with
  | None => Ok (Fin 0.5)
  | Some df =>
      if empty df then Ok (Fin 0.5)
      else
        row <- iloc df (-1) ;;
        let score_components : list (string * num) := [] in
        let score_components :=
          match get row "RSI" with
          | Some rsi => score_components ++ [("RSI", _rsi_score_normalized rsi)]
          | None => score_components
          end in
        let score_components :=
          match get row "Close", get row "SMA_20" with
          | Some price, Some sma_20 =>
              let price_sma_score :=
                Num.py_min (Num.py_max (price / sma_20) (Fin 0.7)) (Fin 1.3)
                - Fin 0.7 in
              let price_sma_score := price_sma_score / Fin 0.6 in
              score_components ++ [("Price_vs_SMA", price_sma_score)]
          | _, _ => score_components
          end in
        let score_components :=
          match get row "MACD", get row "MACD_Signal" with
          | Some macd, Some macd_signal =>
              let macd_score := if macd >? macd_signal then Fin 1 else Fin 0.3 in
              score_components ++ [("MACD", macd_score)]
          | _, _ => score_components
          end in
        match score_components with
        | [] => Ok (Fin 0.5)
        | _ =>
            let total_weight :=
              Num.py_sum (map (fun c => weight_of (fst c)) score_components) in
            let weighted_sum :=
              Num.py_sum (map (fun c => weight_of (fst c) * snd c)
                              score_components) in
            let final_score :=
              if total_weight >? Fin 0 then weighted_sum / total_weight
              else Fin 0.5 in
            Ok (Num.py_max (Fin 0) (Num.py_min (Fin 1) final_score))
        end
  end.

Definition momentum_score (self : ScoreProvider) (df : option DataFrame)
  : result num :=
  match df with
  | None => Ok (Fin 0.5)
  | Some df =>
      if (nrows df <? 2)%nat then Ok (Fin 0.5)
      else
        recent <- iloc df (-1) ;;
        older <- iloc df (- Z.min 5 (Z.of_nat (nrows df))) ;;
        match get recent "Close", get older "Close" with
        | Some recent_price, Some older_price =>
            let pct_change := (recent_price - older_price) / older_price in
            let momentum := Fin 0.5 + pct_change * Fin 3.33 in
            Ok (Num.py_max (Fin 0) (Num.py_min (Fin 1) momentum))
        | _, _ => Ok (Fin 0.5)
        end
  end.

Definition nl : string := String (Ascii.ascii_of_nat 10) EmptyString.

Definition prompt_of (self : ScoreProvider) (combined_text : string) : string :=
  ("Analyze the sentiment of the following news articles and content about stock ticker "
   ++ upper (ticker (config self)) ++ "." ++ nl ++ nl
   ++ "Rate the overall sentiment on a scale from 0 to 100 where:" ++ nl
   ++ "- 0-20: Very Bearish (strong sell signals, major negative news)" ++ nl
   ++ "- 21-40: Bearish (negative outlook, concerning developments)  " ++ nl
   ++ "- 41-60: Neutral (mixed signals, no clear direction)" ++ nl
   ++ "- 61-80: Bullish (positive outlook, good developments)" ++ nl
   ++ "- 81-100: Very Bullish (strong buy signals, major positive news)" ++ nl ++ nl
   ++ "Focus on:" ++ nl
   ++ "- Business fundamentals and outlook" ++ nl
   ++ "- Financial performance and guidance" ++ nl
   ++ "- Market position and competitive threats" ++ nl
   ++ "- Management commentary and analyst opinions" ++ nl
   ++ "- Recent developments and catalysts" ++ nl ++ nl
   ++ "Content to analyze:" ++ nl
   ++ combined_text ++ nl ++ nl
   ++ "Respond with ONLY the numerical score (0-100), no explanation.")%string.

Definition _gpt_sentiment_analysis (self : ScoreProvider)
    (search_results : list (gmap string string)) : result num :=
  match getenv_api_key (runtime self) with
  | None => Raise Exception
  | Some api_key =>
      if negb (truthy api_key) then Raise Exception
      else if negb (openai_installed (runtime self)) then Raise Exception
      else
        let texts :=
          flat_map
            (fun r : gmap string string =>
               let title := default EmptyString (r !! "title") in
               let snippet := default EmptyString (r !! "snippet") in
               if truthy title || truthy snippet
               then [("Title: " ++ title ++ nl ++ "Content: " ++ snippet)%string]
               else [])
            (take 10 search_results) in
        match texts with
        | [] => Ok (Fin 0.5)
        | _ =>
            let combined_text := join (nl ++ nl ++ "---" ++ nl ++ nl)%string texts in
            let prompt := prompt_of self combined_text in
            try_except
              (score_text <- chat_completion (runtime self) prompt ;;
               score <- float_of_text (runtime self) score_text ;;
               let normalized_score :=
                 Num.py_max (Fin 0) (Num.py_min (Fin 1) (score / Fin 100)) in
               Ok normalized_score)
              (fun _ => Raise Exception)
        end
  end.

Definition sentiment_score (self : ScoreProvider)
    (search_results : list (gmap string string)) : result num :=
  match search_results with
  | [] => Ok (Fin 0.5)
  | _ =>
      try_except (_gpt_sentiment_analysis self search_results)
                 (fun _ => Ok (Fin 0.5))
  end.

Definition composite_score (self : ScoreProvider)
    (technical momentum sentiment risk_adjustment : num) : result num :=
  let use_sentiment := Num.abs (sentiment - Fin 0.5) >? Fin 0.01 in
  let composite :=
    if use_sentiment then
      let weights : gmap string num :=
        {[ "technical" := Fin 0.4; "momentum" := Fin 0.3;
           "sentiment" := Fin 0.3 ]} in
      let weights :=
        if (technical <? Fin 0.5) && (momentum <? Fin 0.4)
        then <["sentiment" := Fin 0.20]>
               (<["momentum" := Fin 0.35]>
                  (<["technical" := Fin 0.45]> weights))
        else weights in
      (weights !!! "technical") * technical
      + (weights !!! "momentum") * momentum
      + (weights !!! "sentiment") * sentiment
    else
      let weights : gmap string num :=
        {[ "technical" := Fin 0.6; "momentum" := Fin 0.4 ]} in
      (weights !!! "technical") * technical
      + (weights !!! "momentum") * momentum in
  let adjusted := composite * risk_adjustment in
  Ok (Num.py_max (Fin 0) (Num.py_min (Fin 1) adjusted)).

Inductive signal : Type :=
| BUY
| SELL
| HOLD.

Definition generate_trading_signal (self : ScoreProvider)
    (composite_score : num) (technical_score : option num)
    (current_price : option num) : result (signal * num * string) :=
  let risk_tolerance := lower (risk_tolerance (config self)) in
  let '(buy_threshold, sell_threshold) :=
    if String.eqb risk_tolerance "conservative" then (Fin 0.60, Fin 0.40)
    else if String.eqb risk_tolerance "aggressive" then (Fin 0.50, Fin 0.40)
    else (Fin 0.55, Fin 0.45) in
  let confidence := Num.abs (composite_score - Fin 0.5) * Fin 2 in
  let '(signal, reasoning) :=
    if composite_score >=? buy_threshold then
      (BUY, ("Strong positive signals (score="
             ++ format_2f (runtime self) composite_score ++ ") exceed "
             ++ risk_tolerance ++ " buy threshold")%string)
    else if composite_score <=? sell_threshold then
      (SELL, ("Weak signals (score="
              ++ format_2f (runtime self) composite_score ++ ") below "
              ++ risk_tolerance ++ " sell threshold")%string)
    else
      (HOLD, ("Mixed signals (score="
              ++ format_2f (runtime self) composite_score
              ++ ") suggest maintaining position")%string) in
  let confidence :=
    match technical_score with
    | Some technical_score =>
        if match signal with
           | BUY => technical_score >? Fin 0.6
           | SELL => technical_score <? Fin 0.4
           | HOLD => true
           end
        then Num.py_min (confidence * Fin 1.2) (Fin 1)
        else confidence * Fin 0.8
    | None => confidence
    end in
  Ok (signal, confidence, reasoning).

Record ScoreSet : Type := {
  technical : num;
  momentum : num;
  sentiment : num;
  composite : num
}.

Definition risk_multipliers : gmap string num :=
  {[ "conservative" := Fin 0.85; "moderate" := Fin 1; "aggressive" := Fin 1.15 ]}.

Definition calculate_all_scores (self : ScoreProvider)
    (df : option DataFrame) (search_results : list (gmap string string))
  : result ScoreSet :=
  technical <- technical_score self df ;;
  momentum <- momentum_score self df ;;
  sentiment <- sentiment_score self search_results ;;
  let risk_adjustment :=
    default (Fin 1) (risk_multipliers !! lower (risk_tolerance (config self))) in
  composite <- composite_score self technical momentum sentiment risk_adjustment ;;
  Ok {| technical := technical; momentum := momentum;
        sentiment := sentiment; composite := composite |}.

End Scoring.

(** ** market_data.py: the indicator columns of the market frame *)

Module MarketData.

Import Py Pandas Analyzer Scoring.
Local Open Scope num_scope.

(** [df[name].tolist()]: the column as a list of Python floats. *)
Definition tolist (col : list num) : list pyobj := map PyFloat col.

(** [df[name] = values]. *)
Definition set_column (df : DataFrame) (name : string) (values : list num)
  : DataFrame :=
  {| nrows := nrows df; columns := <[name := values]> (columns df) |}.

(** The frame [MarketDataProvider.compute_technical_indicators] returns.  A
    missing price column, or an exception of an indicator, is caught and
    the frame comes back as it is; the summary the method stores in
    [self.technical_indicators] after the columns are set does not change
    the frame. *)
Definition compute_technical_indicators (df : DataFrame) : DataFrame :=
  match columns df !! "Close", columns df !! "High", columns df !! "Low" with
  | Some close, Some high, Some low =>
      let close_list := tolist close in
      let high_list := tolist high in
      let low_list := tolist low in
      let computed :=
        sma_20 <- calculate_moving_average close_list (PyInt 20) ;;
        sma_50 <- (if (50 <=? length close_list)%nat
                   then s <- calculate_moving_average close_list (PyInt 50) ;;
                        Ok (Some s)
                   else Ok None) ;;
        rsi <- calculate_rsi close_list (PyInt 14) ;;
        macd <- calculate_macd close_list (PyInt 12) (PyInt 26) (PyInt 9) ;;
        let '(macd_line, signal_line, histogram) := macd in
        let df :=
          if (length sma_20 =? nrows df)%nat
          then set_column df "SMA_20" sma_20 else df in
        let df :=
          match sma_50 with
          | Some (x :: r) =>
              if (length (x :: r) =? nrows df)%nat
              then set_column df "SMA_50" (x :: r) else df
          | _ => df
          end in
        let df :=
          if (length rsi =? nrows df)%nat
          then set_column df "RSI" rsi else df in
        let df :=
          if (length macd_line =? nrows df)%nat
          then set_column
                 (set_column (set_column df "MACD" macd_line)
                    "MACD_Signal" signal_line)
                 "MACD_Histogram" histogram
          else df in
        Ok df in
      match computed with
      | Ok df' => df'
      | Raise _ => df
      end
  | _, _, _ => df
  end.

End MarketData.

(** ** config.py: the research configuration and its trading profile *)

Module Config.

Import Py.

(** What a call ends with: a value, or an exception; [AgentError] is the
    one of core/exceptions.py, [OtherException] any exception of a
    library or a built-in. *)
Inductive raised : Type :=
| AgentError
| OtherException.

Inductive outcome (A : Type) : Type :=
| Returns (a : A)
| Raises (e : raised).

Arguments Returns {A} a.
Arguments Raises {A} e.

(** A value of the parsed YAML file, as far as the profile code tells
    values apart: null, an integer, a string, or any other object (a float,
    a boolean, a list, a mapping), named by a number. *)
Inductive value : Type :=
| VNone
| VInt (z : Z)
| VStr (s : string)
| VOther (object : nat).

(** The fields of [TickerResearchConfig] that the profile manager and the
    search provider read or write.  [_risk_tolerance] is [None] while the
    object has no such attribute; once set it holds whatever the profile
    gave, which need not be a string. *)
Record Settings : Type := {
  ticker : string;
  trading_profile : option string;
  lookback_days : option Z;
  max_results : Z;
  include_financial_terms : bool;
  _risk_tolerance : option value;
  _profile_applied : bool
}.

(** One entry of the [profiles] mapping of the YAML file: a mapping from
    keys to values (a key may be present with the value null), or anything
    else (null, a string, a list), on which [profile.get] raises
    AttributeError. *)
Inductive Profile : Type :=
| Mapping (fields : gmap string value)
| NotAMapping.

(** The [profiles] object itself: a mapping from names to entries, or
    another truthy object (a list, a string, a number); for the latter
    [contains] is what the test [trading_profile in profiles] gives, [None]
    when the test raises.  Indexing such an object with the name raises
    TypeError. *)
Inductive Profiles : Type :=
| ProfileMap (entries : gmap string Profile)
| NotAMap (contains : option bool).

(** What [apply_profile_if_needed] finds outside the program: whether the
    resolved profile file exists, whether PyYAML could be imported, the
    [profiles] object read from the file (reading or parsing may raise), and
    what [int(...)] makes of a string or of another object ([None] when it
    raises). *)
Record Files : Type := {
  profiles_path_exists : bool;
  yaml_installed : bool;
  load_profiles : outcome Profiles;
  int_of_str : string -> option Z;
  int_of_object : nat -> option Z
}.

(** Truthiness of an optional string: present and non-empty. *)
Definition truthy_opt (s : option string) : bool :=
  match s with
  | Some s => truthy s
  | None => false
  end.

(** [int(v)]: an integer is itself, [int(None)] raises TypeError. *)
Definition int_ (files : Files) (v : value) : outcome Z :=
  match v with
  | VNone => Raises OtherException
  | VInt z => Returns z
  | VStr s =>
      match int_of_str files s with
      | Some z => Returns z
      | None => Raises OtherException
      end
  | VOther o =>
      match int_of_object files o with
      | Some z => Returns z
      | None => Raises OtherException
      end
  end.

(** Assignments to single fields of the configuration object. *)
Definition set_lookback_days (config : Settings) (days : Z) : Settings :=
  {| ticker := ticker config;
     trading_profile := trading_profile config;
     lookback_days := Some days;
     max_results := max_results config;
     include_financial_terms := include_financial_terms config;
     _risk_tolerance := _risk_tolerance config;
     _profile_applied := _profile_applied config |}.

Definition set_max_results (config : Settings) (n : Z) : Settings :=
  {| ticker := ticker config;
     trading_profile := trading_profile config;
     lookback_days := lookback_days config;
     max_results := n;
     include_financial_terms := include_financial_terms config;
     _risk_tolerance := _risk_tolerance config;
     _profile_applied := _profile_applied config |}.

Definition set_risk_tolerance (config : Settings) (risk : value) : Settings :=
  {| ticker := ticker config;
     trading_profile := trading_profile config;
     lookback_days := lookback_days config;
     max_results := max_results config;
     include_financial_terms := include_financial_terms config;
     _risk_tolerance := Some risk;
     _profile_applied := _profile_applied config |}.

Definition set_profile_applied (config : Settings) : Settings :=
  {| ticker := ticker config;
     trading_profile := trading_profile config;
     lookback_days := lookback_days config;
     max_results := max_results config;
     include_financial_terms := include_financial_terms config;
     _risk_tolerance := _risk_tolerance config;
     _profile_applied := true |}.

(** The configuration object is updated in place: a method leaves it in
    some state and either returns or raises. *)
Definition ending : Type := Settings * option raised.

Definition and_then (r : ending) (k : Settings -> ending) : ending :=
  match r with
  | (config, None) => k config
  | (config, Some e) => (config, Some e)
  end.

(** The end of [apply_profile_if_needed]: defaults for what is still
    unset. *)
Definition provide_defaults (config : Settings) : Settings :=
  let config :=
    match lookback_days config with
    | None => set_lookback_days config 21
    | Some _ => config
    end in
  match _risk_tolerance config with
  | None => set_risk_tolerance config (VStr "moderate")
  | Some _ => config
  end.

(** The updates from a profile that is a mapping, in the order of the
    source; a conversion that raises leaves the earlier updates in place.

    [if self.config.lookback_days is None:
       self.config.lookback_days = int(profile.get("lookback_days", 21))] *)
Definition take_lookback_days (files : Files) (profile : gmap string value)
    (config : Settings) : ending :=
  match lookback_days config with
  | None =>
      match int_ files (default (VInt 21) (profile !! "lookback_days")) with
      | Returns days => (set_lookback_days config days, None)
      | Raises e => (config, Some e)
      end
  | Some _ => (config, None)
  end.

(** [if not self.config.max_results or self.config.max_results == 8:
       self.config.max_results =
         int(profile.get("max_results", self.config.max_results))] *)
Definition take_max_results (files : Files) (profile : gmap string value)
    (config : Settings) : ending :=
  if (max_results config =? 0)%Z || (max_results config =? 8)%Z
  then
    match int_ files (default (VInt (max_results config))
                              (profile !! "max_results")) with
    | Returns n => (set_max_results config n, None)
    | Raises e => (config, Some e)
    end
  else (config, None).

(** [self.config._risk_tolerance = profile.get("risk_tolerance", "moderate")]
    and [self.config._profile_applied = True]. *)
Definition take_risk_tolerance (profile : gmap string value)
    (config : Settings) : ending :=
  (set_profile_applied
     (set_risk_tolerance config
        (default (VStr "moderate") (profile !! "risk_tolerance"))),
   None).

Definition apply_profile (files : Files) (profile : gmap string value)
    (config : Settings) : ending :=
  and_then (take_lookback_days files profile config) (fun config =>
  and_then (take_max_results files profile config)
           (take_risk_tolerance profile)).

Definition apply_profile_if_needed (files : Files) (config : Settings)
  : ending :=
  and_then
    (if truthy_opt (trading_profile config) && negb (_profile_applied config)
     then
       if negb (profiles_path_exists files) then (config, Some AgentError)
       else if negb (yaml_installed files) then (config, Some AgentError)
       else
         match load_profiles files with
         | Raises e => (config, Some e)
         | Returns (NotAMap None) => (config, Some OtherException)
         | Returns (NotAMap (Some false)) => (config, Some AgentError)
         | Returns (NotAMap (Some true)) => (config, Some OtherException)
         | Returns (ProfileMap profiles) =>
             match profiles !! default EmptyString (trading_profile config) with
             | None => (config, Some AgentError)
             | Some NotAMapping => (config, Some OtherException)
             | Some (Mapping profile) => apply_profile files profile config
             end
         end
     else (config, None))
    (fun config => (provide_defaults config, None)).

(** The configuration as the score provider sees it, when the risk
    tolerance it would read is a string, as the property's type says;
    [None] when the attribute holds something else, on which
    [risk_tolerance.lower()] has nothing to work. *)
Definition score_config (config : Settings)
  : option Scoring.TickerResearchConfig :=
  match _risk_tolerance config with
  | None =>
      Some {| Scoring.ticker := ticker config;
              Scoring._risk_tolerance := None |}
  | Some (VStr risk) =>
      Some {| Scoring.ticker := ticker config;
              Scoring._risk_tolerance := Some risk |}
  | Some _ => None
  end.

End Config.

(** ** search.py: the search queries and the gathering of results *)

Module Search.

Import Py Config.

(** [str(n)] of an integer. *)
Definition str_of_int (z : Z) : string := NilZero.string_of_int (Z.to_int z).

Definition timelimit_token (config : Settings) : string :=
  let days :=
    match lookback_days config with
    | Some d => if (d =? 0)%Z then 21%Z else d
    | None => 21%Z
    end in
  if (days <=? 7)%Z then "w"
  else if (days <=? 30)%Z then "m"
  else if (days <=? 365)%Z then "y"
  else "y".

Definition date_range_label (config : Settings) : string :=
  ("last "
   ++ match lookback_days config with
      | Some d => str_of_int d
      | None => "None"
      end
   ++ " days")%string.

(** The loop of [build_queries] that keeps the first query of each text. *)
Fixpoint dedup_loop (queries : list (string * string)) (seen : gset string)
    (dedup : list (string * string)) : list (string * string) :=
  match queries with
  | [] => dedup
  | (cat, q) :: rest =>
      if bool_decide (q ∈ seen) then dedup_loop rest seen dedup
      else dedup_loop rest ({[ q ]} ∪ seen) (dedup ++ [(cat, q)])
  end.

Definition build_queries (config : Settings) : list (string * string) :=
  let base := upper (ticker config) in
  let horizon := date_range_label config in
  let queries :=
    [ ("news", base ++ " stock news " ++ horizon);
      ("catalysts", base ++ " guidance update " ++ horizon);
      ("sentiment", base ++ " analyst rating sentiment " ++ horizon);
      ("macro", base ++ " sector impact macro " ++ horizon) ]%string in
  let queries :=
    if include_financial_terms config
    then queries ++
         [ ("fundamentals", base ++ " earnings results " ++ horizon);
           ("fundamentals", base ++ " revenue growth " ++ horizon);
           ("risk", base ++ " litigation risk " ++ horizon) ]%string
    else queries in
  dedup_loop queries ∅ [].

(** What iterating over [ddgs.text(...)] produces: items one after another
    until the results end or the request fails. *)
Inductive feed : Type :=
| End_of_results
| Item (item : gmap string string) (rest : feed)
| Failure.

(** The search client: [text n q timelimit] is what its [n]-th request
    yields for the query [q]. *)
Definition Client : Type := nat -> string -> string -> feed.

(** One gathered source; a field the item does not have is [None]. *)
Record Source : Type := {
  query : string;
  category : string;
  title : option string;
  snippet : option string;
  url : option string
}.

(** [item.get(a) or item.get(b)]. *)
Definition get_or (item : gmap string string) (a b : string) : option string :=
  if truthy_opt (item !! a) then item !! a else item !! b.

(** The inner loop of [search] over the items of one query; it stops at the
    first item that finds [max_results] sources gathered. *)
Fixpoint gather (max_results : Z) (category q : string) (items : feed)
    (results : list Source) (seen_urls : gset (option string))
  : outcome (list Source * gset (option string)) :=
  match items with
  | End_of_results => Returns (results, seen_urls)
  | Failure => Raises OtherException
  | Item item rest =>
      if (max_results <=? Z.of_nat (length results))%Z
      then Returns (results, seen_urls)
      else
        let url := get_or item "href" "url" in
        if truthy_opt url && bool_decide (url ∈ seen_urls)
        then gather max_results category q rest results seen_urls
        else
          gather max_results category q rest
            (results ++
             [{| query := q; category := category;
                 title := item !! "title";
                 snippet := get_or item "body" "description";
                 url := url |}])
            ({[ url ]} ∪ seen_urls)
  end.

(** The outer loop of [search] over the queries, from request [n] on. *)
Fixpoint search_loop (max_results : Z) (timelimit : string) (ddgs : Client)
    (n : nat) (queries : list (string * string))
    (results : list Source) (seen_urls : gset (option string))
  : outcome (list Source) :=
  match queries with
  | [] => Returns results
  | (category, q) :: rest =>
      match gather max_results category q (ddgs n q timelimit)
                   results seen_urls with
      | Raises e => Raises e
      | Returns (results, seen_urls) =>
          if (max_results <=? Z.of_nat (length results))%Z
          then Returns results
          else search_loop max_results timelimit ddgs (S n) rest
                           results seen_urls
      end
  end.

(** [search]; [_search_backend] is [None] when ddgs could not be imported,
    and creating the client may raise. *)
Definition search (config : Settings) (_search_backend : option (outcome Client))
    (queries : list (string * string)) : outcome (list Source) :=
  match _search_backend with
  | None => Raises AgentError
  | Some (Raises e) => Raises e
  | Some (Returns ddgs) =>
      search_loop (max_results config) (timelimit_token config) ddgs 0
                  queries [] ∅
  end.

End Search.

(** ** research.py: the scoring steps of a research run *)

Module Research.

Import Py Scoring.

(** [market_df.iloc[-1].get("Close") if market_df is not None and not
    market_df.empty else None]. *)
Definition current_price (df : option DataFrame) : result (option num) :=
  match df with
  | Some df =>
      if negb (empty df) then row <- iloc df (-1) ;; Ok (get row "Close")
      else Ok None
  | None => Ok None
  end.

(** Steps 4 and 5 of [TickerResearchAgent.execute] with trading signals
    enabled: the scores of the market frame and the search results, then the
    recommendation from the composite and technical scores and the latest
    close. *)
Definition execute_scoring_steps (self : ScoreProvider)
    (market_df : option DataFrame) (raw_results : list (gmap string string))
  : result (ScoreSet * (signal * num * string)) :=
  scores <- calculate_all_scores self market_df raw_results ;;
  price <- current_price market_df ;;
  recommendation <-
    generate_trading_signal self (composite scores) (Some (technical scores))
      price ;;
  Ok (scores, recommendation).

End Research.

(** * Vocabulary of the statements *)

Import Py Pandas Analyzer Scoring.
Import MarketData Research.
Local Open Scope Q_scope.

(** ** Scores *)

(** The clamp the score functions end with, [max(0.0, min(1.0, x))]. *)
Definition clamp01 (x : num) : num :=
  Num.py_max (Fin 0) (Num.py_min (Fin 1) x).

(** The same clamp on a rational. *)
Definition clampQ (x : Q) : Q := Qmax 0 (Qmin 1 x).

(** The call returns, and what it returns is a finite number in [0,1]. *)
Definition unit_score (r : result num) : Prop :=
  exists v, r = Ok v /\ Num.within 0 1 v.

Definition signal_of (r : result (signal * num * string)) : option signal :=
  match r with
  | Ok (s, _, _) => Some s
  | Raise _ => None
  end.

Definition confidence_of (r : result (signal * num * string)) : option num :=
  match r with
  | Ok (_, c, _) => Some c
  | Raise _ => None
  end.

(** The momentum score as the specification words it: the percent change
    between the latest close and the close five periods before it (the
    earliest close when the series is shorter), scaled and clamped. *)
Definition momentum_as_specified (closes : list Q) : Q :=
  let n := length closes in
  let latest := nth (n - 1) closes 0 in
  let earlier := nth (n - 1 - 5) closes 0 in
  clampQ (0.5 + (latest - earlier) / earlier * 3.33).

(** A provider with no language-model access, for concrete evaluations. *)
Definition demo_runtime : Runtime :=
  {| getenv_api_key := None;
     openai_installed := false;
     chat_completion := fun _ => Raise Exception;
     float_of_text := fun _ => Raise ValueError;
     format_2f := fun _ => EmptyString |}.

Definition demo_provider (risk : option string) : ScoreProvider :=
  {| config := {| ticker := "ACME"; _risk_tolerance := risk |};
     runtime := demo_runtime |}.

Definition six_closes : list Q := [100; 110; 110; 110; 110; 121].

Definition six_days : DataFrame :=
  {| nrows := 6; columns := {[ "Close" := map Fin six_closes ]} |}.

(** ** Series *)

(** A validated argument list and the finite numbers it holds. *)
Definition finite_numbers (data : list pyobj) (qs : list Q) : Prop :=
  Forall2 (fun o q => is_number o = true /\ num_of o = Fin q) data qs.

Definition Qsum (l : list Q) : Q := fold_right Qplus 0 l.

(** The arithmetic mean of the [w] inputs at positions [i+1-w .. i]. *)
Definition trailing_mean (qs : list Q) (w i : nat) : Q :=
  Qsum (map (fun k => nth (i + 1 - w + k) qs 0) (seq 0 w))
  / inject_Z (Z.of_nat w).

(** All entries are the same number. *)
Definition constant (qs : list Q) : Prop :=
  forall a b, In a qs -> In b qs -> a == b.

(** Each entry is at most the next one; an undefined entry is comparable
    with nothing. *)
Definition nondecreasing (l : list num) : Prop :=
  forall j x y, l !! j = Some x -> l !! (j + 1)%nat = Some y ->
                (x <=? y)%num = true.

(** Period-to-period changes of a finite series, and their gain and loss
    parts. *)
Definition deltas (qs : list Q) : list Q :=
  zip_with (fun cur prev => cur + - prev) (tail qs) qs.
Definition gain_part (d : Q) : Q := if Num.Qlt_bool d 0 then 0 else d.
Definition loss_part (d : Q) : Q := - (if Num.Qlt_bool 0 d then 0 else d).

(** ** Indicators, position by position *)

(** The RSI value [calculate_rsi] derives at one position from the two
    trailing averages there. *)
Definition rsi_point (g l : num) : num :=
  let rsi := (Fin 100 - Fin 100 / (Fin 1 + g / l))%num in
  let rsi := if negb ((l =? Fin 0) && (g >? Fin 0))%num then rsi else Fin 100 in
  if negb ((g =? Fin 0) && (l =? Fin 0))%num then rsi else Fin 50.

(** The RSI series computed from the two series of averages. *)
Definition rsi_of (avg_gain avg_loss : list num) : list num :=
  let rs := zip_with Num.div avg_gain avg_loss in
  let rsi := map (fun r => (Fin 100 - Fin 100 / (Fin 1 + r))%num) rs in
  let no_loss_mask :=
    zip_with (fun l g => (l =? Fin 0) && (g >? Fin 0))%num avg_loss avg_gain in
  let neutral_mask :=
    zip_with (fun g l => (g =? Fin 0) && (l =? Fin 0))%num avg_gain avg_loss in
  let rsi := where_ rsi (map negb no_loss_mask) (Fin 100) in
  where_ rsi (map negb neutral_mask) (Fin 50).

(** The %K value [calculate_stochastic_oscillator] derives at one position
    from the close and the two rolling extremes there. *)
Definition percent_k_point (c ll hh : num) : num :=
  let price_range := (hh - ll)%num in
  let safe_range := if (price_range =? Fin 0)%num then NaN else price_range in
  let k := (Fin 100 * (c - ll) / safe_range)%num in
  if Num.neqb price_range (Fin 0) then k else Fin 0.

(** The %K series computed from the close series and the rolling extremes. *)
Definition percent_k_of (close_series lowest_low highest_high : list num)
  : list num :=
  let price_range := zip_with Num.sub highest_high lowest_low in
  let safe_range := replace (Fin 0) NaN price_range in
  let percent_k :=
    zip_with Num.div
      (map (fun d => (Fin 100 * d)%num)
           (zip_with Num.sub close_series lowest_low))
      safe_range in
  where_ percent_k (map (fun r => Num.neqb r (Fin 0)) price_range) (Fin 0).

(** What holds of [obv] when the loop of [calculate_on_balance_volume] is
    about to run iteration [a]. *)
Definition obv_inv (close : list pyobj) (vs : list Q)
    (a : nat) (obv : list num) : Prop :=
  length obv = length close
  /\ (forall j, (j < length close)%nat -> exists q, obv !! j = Some (Fin q))
  /\ ((0 < length close)%nat -> obv !! 0%nat = Some (Fin 0))
  /\ (nondecreasing (Series close) -> Forall (fun v => 0 <= v) vs ->
      forall j x y, (j + 1 < a)%nat ->
        obv !! j = Some (Fin x) -> obv !! (j + 1)%nat = Some (Fin y) -> x <= y).

(** A square root that is exact on quotients of perfect squares. *)
Definition sqrt_of_squares (q : Q) : Q := Z.sqrt (Qnum q) # Pos.sqrt (Qden q).

(** ** Example data *)

Definition price_example : list pyobj :=
  map PyInt [100; 102; 105; 103; 106]%Z.

Definition close_example : list pyobj :=
  map PyInt [100; 102; 105; 103; 106]%Z.
Definition volume_example : list pyobj :=
  map PyInt [1000; 2000; 3000; 4000; 5000]%Z.

Definition flat_prices : list pyobj := map PyInt [7; 7; 7; 7]%Z.

(** An indicator row whose RSI and SMA are still undefined, a frame whose
    reference close is zero, and a language model that answers "nan". *)
Definition warming_up : DataFrame :=
  {| nrows := 2;
     columns := {[ "Close" := [Fin 100; Fin 110]; "RSI" := [NaN; NaN];
                   "SMA_20" := [NaN; NaN] ]} |}.

Definition from_zero : DataFrame :=
  {| nrows := 2; columns := {[ "Close" := [Fin 0; Fin 5] ]} |}.

Definition nan_reply : Runtime :=
  {| getenv_api_key := Some "key";
     openai_installed := true;
     chat_completion := fun _ => Ok "nan";
     float_of_text := fun _ => Ok NaN;
     format_2f := fun _ => EmptyString |}.

Definition headline : gmap string string :=
  {[ "title" := "Results beat estimates"; "snippet" := "Shares rise" ]}.

Definition rising_prices : list pyobj := map PyInt [1; 2; 3]%Z.

(** The fixture of tests/unit/test_stock_analysis.py. *)
Definition sample_data : list Z :=
  [100; 102; 105; 103; 106; 108; 110; 112; 115; 113; 116; 118; 120; 119; 122]%Z.

(** [xs[-1]] of a returned list is within [eps] of [expected]
    ([pytest.approx(expected, abs=eps)]). *)
Definition last_approx (xs : list num) (expected eps : Q) : Prop :=
  exists q, last xs = Some (Fin q) /\ Qabs (q - expected) <= eps.

(** * Vocabulary of the further properties *)

(** ** Exponential smoothing *)

(** Exponential smoothing of rationals with factor [a], continuing from the
    previous average [prev]. *)
Fixpoint ewmQ_from (a prev : Q) (l : list Q) : list Q :=
  match l with
  | [] => []
  | x :: r => let y := (1 + - a) * prev + a * x in y :: ewmQ_from a y r
  end.

Definition ewmQ (a : Q) (l : list Q) : list Q :=
  match l with
  | [] => []
  | x :: r => x :: ewmQ_from a x r
  end.

(** The smoothing factor 2/(n+1) of a span of [n] periods. *)
Definition span_factor (n : Z) : Q := 2 / (inject_Z n + 1).

(** The three MACD series on a finite price list. *)
Definition macd_line_of (fast slow : Z) (qs : list Q) : list Q :=
  zip_with (fun f s => f + - s)
           (ewmQ (span_factor fast) qs) (ewmQ (span_factor slow) qs).
Definition signal_line_of (fast slow sig : Z) (qs : list Q) : list Q :=
  ewmQ (span_factor sig) (macd_line_of fast slow qs).
Definition histogram_of (fast slow sig : Z) (qs : list Q) : list Q :=
  zip_with (fun m s => m + - s)
           (macd_line_of fast slow qs) (signal_line_of fast slow sig qs).

(** The rational a finite model value holds. *)
Definition to_Q (x : num) : Q :=
  match x with
  | Fin q => q
  | _ => 0
  end.

(** ** Trends *)

(** Each price is above (below) the one before it. *)
Definition increasing (qs : list Q) : Prop :=
  forall i a b, qs !! i = Some a -> qs !! S i = Some b -> a < b.
Definition decreasing (qs : list Q) : Prop :=
  forall i a b, qs !! i = Some a -> qs !! S i = Some b -> b < a.

(** ** On-balance volume *)

(** The value iteration [i] of the loop of [calculate_on_balance_volume]
    stores at position [i], given the value [prev] at position [i-1]. *)
Definition obv_update (close volume : list pyobj) (prev : num) (i : nat) : num :=
  if (item close i >? item close (i - 1))%num
  then (prev + item volume i)%num
  else if (item close i <? item close (i - 1))%num
  then (prev - item volume i)%num
  else prev.

(** Every position before [a] holds the update of the value before it. *)
Definition obv_rec (close volume : list pyobj) (a : nat) (obv : list num)
  : Prop :=
  forall i, (1 <= i < a)%nat ->
    exists prev, obv !! (i - 1)%nat = Some prev
                 /\ obv !! i = Some (obv_update close volume prev i).

(** ** The recommendation *)

(** SELL, HOLD and BUY in the order of the score ranges that produce them. *)
Definition signal_rank (s : signal) : nat :=
  match s with
  | SELL => 0
  | HOLD => 1
  | BUY => 2
  end.

(** The buy and sell thresholds [generate_trading_signal] uses for a
    lower-cased risk tolerance. *)
Definition thresholds (risk : string) : Q * Q :=
  if String.eqb risk "conservative" then (0.60, 0.40)
  else if String.eqb risk "aggressive" then (0.50, 0.40)
  else (0.55, 0.45).

(** The provider with another risk tolerance in its configuration. *)
Definition with_risk (self : ScoreProvider) (risk : option string)
  : ScoreProvider :=
  {| config := {| ticker := ticker (config self); _risk_tolerance := risk |};
     runtime := runtime self |}.

(** A runtime whose language-model call answers "80". *)
Definition bullish_reply : Runtime :=
  {| getenv_api_key := Some "key";
     openai_installed := true;
     chat_completion := fun _ => Ok "80";
     float_of_text := fun _ => Ok (Fin 80);
     format_2f := fun _ => EmptyString |}.

(** ** The market frame *)

(** The score [technical_score] gives the price against its 20-day
    average, and the one it gives the MACD against its signal line. *)
Definition price_sma_score (price sma : Q) : Q :=
  (Qmin (Qmax (price / sma) 0.7) 1.3 - 0.7) / 0.6.
Definition macd_score (macd macd_signal : Q) : Q :=
  if Num.Qlt_bool macd_signal macd then 1 else 0.3.

(** A frame of thirty daily bars with steadily rising closes. *)
Definition thirty_closes : list Q :=
  map (fun k => inject_Z (Z.of_nat (100 + k))) (seq 0 30).
Definition thirty_days : DataFrame :=
  {| nrows := 30;
     columns := {[ "Close" := map Fin thirty_closes;
                   "High" := map Fin thirty_closes;
                   "Low" := map Fin thirty_closes ]} |}.

(** The frame with the SMA_20 (and, from fifty rows on, SMA_50) column. *)
Definition with_averages (df : DataFrame) (closes : list Q) : DataFrame :=
  let df1 := set_column df "SMA_20" (rolling_mean 20 (map Fin closes)) in
  if (50 <=? nrows df)%nat
  then set_column df1 "SMA_50" (rolling_mean 50 (map Fin closes))
  else df1.

(** ** Profiles *)

(** A configuration that names a profile and leaves the rest at its
    defaults, a profile file with an aggressive weekly profile, a profile
    whose look-back is null, and a machine without the file. *)
Definition weekly_config : Config.Settings :=
  {| Config.ticker := "ACME";
     Config.trading_profile := Some "weekly_1";
     Config.lookback_days := None;
     Config.max_results := 8;
     Config.include_financial_terms := true;
     Config._risk_tolerance := None;
     Config._profile_applied := false |}.

Definition weekly_profile : gmap string Config.value :=
  {[ "lookback_days" := Config.VInt 7;
     "max_results" := Config.VInt 12;
     "risk_tolerance" := Config.VStr "Aggressive" ]}.

Definition null_profile : gmap string Config.value :=
  {[ "lookback_days" := Config.VNone;
     "risk_tolerance" := Config.VStr "Aggressive" ]}.

Definition files_with (profile : gmap string Config.value) : Config.Files :=
  {| Config.profiles_path_exists := true;
     Config.yaml_installed := true;
     Config.load_profiles :=
       Config.Returns
         (Config.ProfileMap {[ "weekly_1" := Config.Mapping profile ]});
     Config.int_of_str := fun _ => None;
     Config.int_of_object := fun _ => None |}.

Definition profile_files : Config.Files := files_with weekly_profile.

Definition no_files : Config.Files :=
  {| Config.profiles_path_exists := false;
     Config.yaml_installed := false;
     Config.load_profiles := Config.Raises Config.OtherException;
     Config.int_of_str := fun _ => None;
     Config.int_of_object := fun _ => None |}.

(** The conversions of the profile's values that a call on [config] needs:
    the look-back when the user set none, the result count when it is still
    at its default. *)
Definition conversions_succeed (files : Config.Files)
    (profile : gmap string Config.value) (config : Config.Settings) : Prop :=
  (Config.lookback_days config = None ->
   exists days,
     Config.int_ files
       (default (Config.VInt 21) (profile !! "lookback_days"))
     = Config.Returns days)
  /\ (Config.max_results config = 0%Z \/ Config.max_results config = 8%Z ->
      exists n,
        Config.int_ files
          (default (Config.VInt (Config.max_results config))
                   (profile !! "max_results"))
        = Config.Returns n).

(** ** Search *)

(** The URLs of the gathered sources that are not empty. *)
Definition proper_urls (results : list Search.Source) : list (option string) :=
  List.filter Config.truthy_opt (map Search.url results).

(** The results of a request end without a failure. *)
Fixpoint completes (items : Search.feed) : bool :=
  match items with
  | Search.End_of_results => true
  | Search.Item _ rest => completes rest
  | Search.Failure => false
  end.

(** A client that answers every request with the same two items, the
    second without a URL. *)
Definition two_items : Search.Client :=
  fun _ _ _ =>
    Search.Item {[ "href" := "https://example.com/a"; "title" := "A" ]}
      (Search.Item {[ "title" := "B" ]} Search.End_of_results).

(** What holds of the sources gathered so far and of the URLs seen, at every
    point of [search]. *)
Definition gathered (max_results : Z) (queries : list (string * string))
    (results : list Search.Source) (seen_urls : gset (option string)) : Prop :=
  (Z.of_nat (length results) <= Z.max 0 max_results)%Z
  /\ NoDup (proper_urls results)
  /\ (forall u, u ∈ proper_urls results -> u ∈ seen_urls)
  /\ (forall r, r ∈ results ->
        (Search.category r, Search.query r) ∈ queries).

(** * Facts about the number model *)

Section NumFacts.

Lemma Qlt_bool_true (a b : Q) : Num.Qlt_bool a b = true <-> a < b.
Proof.
  unfold Num.Qlt_bool. rewrite negb_true_iff.
  split; intros H.
  - apply Qnot_le_lt. intros Hle. apply Qle_bool_iff in Hle. congruence.
  - destruct (Qle_bool b a) eqn:E; [|reflexivity].
    apply Qle_bool_iff in E. lra.
Qed.

Lemma Qlt_bool_false (a b : Q) : Num.Qlt_bool a b = false <-> b <= a.
Proof.
  unfold Num.Qlt_bool. rewrite negb_false_iff. apply Qle_bool_iff.
Qed.

Lemma Qle_bool_false (a b : Q) : Qle_bool a b = false <-> b < a.
Proof.
  rewrite <- Qlt_bool_true. unfold Num.Qlt_bool.
  destruct (Qle_bool a b); simpl; intuition congruence.
Qed.

Lemma Qeq_bool_false (a b : Q) : Qeq_bool a b = false <-> ~ a == b.
Proof.
  split; [apply Qeq_bool_neq|].
  intros H. destruct (Qeq_bool a b) eqn:E; [|reflexivity].
  apply Qeq_bool_iff in E. contradiction.
Qed.

End NumFacts.

(** Turns the boolean comparisons of rationals in the context into
    propositions, splitting on those in the goal. *)
Ltac qprops :=
  repeat match goal with
    | H : Num.Qlt_bool _ _ = true |- _ => apply Qlt_bool_true in H
    | H : Num.Qlt_bool _ _ = false |- _ => apply Qlt_bool_false in H
    | H : Qle_bool _ _ = true |- _ => apply Qle_bool_iff in H
    | H : Qle_bool _ _ = false |- _ => apply Qle_bool_false in H
    | H : Qeq_bool _ _ = true |- _ => apply Qeq_bool_iff in H
    | H : Qeq_bool _ _ = false |- _ => apply Qeq_bool_false in H
    end.

Ltac qsplit :=
  repeat match goal with
    | |- context [Num.Qlt_bool ?a ?b] => destruct (Num.Qlt_bool a b) eqn:?
    | |- context [Qle_bool ?a ?b] => destruct (Qle_bool a b) eqn:?
    | |- context [Qeq_bool ?a ?b] => destruct (Qeq_bool a b) eqn:?
    end; qprops.

Section Clamp.

Lemma clamp01_within (x : num) : Num.within 0 1 (clamp01 x).
Proof.
  unfold clamp01, Num.py_max, Num.py_min, Num.gtb, Num.within.
  destruct x as [q| | |]; simpl.
  - qsplit; simpl; qsplit; eexists; (split; [reflexivity|]); lra.
  - exists 1; simpl. split; [reflexivity|lra].
  - exists 0. split; [reflexivity|lra].
  - exists 1; simpl. split; [reflexivity|lra].
Qed.

Lemma clamp01_finite (q : Q) :
  Num.same (clamp01 (Fin q)) (Fin (Qmax 0 (Qmin 1 q))).
Proof.
  unfold clamp01, Num.py_max, Num.py_min, Num.gtb; simpl.
  qsplit; simpl; qsplit; simpl.
  - rewrite (Q.min_r 1 q) by lra. rewrite Q.max_r by lra. reflexivity.
  - rewrite (Q.min_r 1 q) by lra. rewrite Q.max_l by lra. reflexivity.
  - rewrite (Q.min_l 1 q) by lra. rewrite Q.max_r by lra. reflexivity.
  - lra.
Qed.

End Clamp.

(** * The score engine *)

Lemma unit_score_half : unit_score (Ok (Fin 0.5)).
Proof. exists (Fin 0.5). split; [reflexivity|]. exists 0.5%Q. repeat split; lra. Qed.

Lemma unit_score_clamp (x : num) :
  unit_score (Ok (Num.py_max (Fin 0) (Num.py_min (Fin 1) x))).
Proof. eexists. split; [reflexivity|]. apply clamp01_within. Qed.

Lemma iloc_last (df : DataFrame) :
  empty df = false -> exists row, iloc df (-1) = Ok row.
Proof.
  unfold empty, iloc. intros H. apply orb_false_iff in H as [Hn _].
  apply Nat.eqb_neq in Hn.
  replace ((0 <=? -1)%Z) with false by reflexivity. simpl andb.
  destruct ((- Z.of_nat (nrows df) <=? -1)%Z && (-1 <? 0)%Z) eqn:E.
  - eexists; reflexivity.
  - apply andb_false_iff in E as [E|E]; [apply Z.leb_gt in E; lia|discriminate].
Qed.

Lemma technical_score_unit (self : ScoreProvider) (df : option DataFrame) :
  unit_score (technical_score self df).
Proof.
  unfold technical_score.
  destruct df as [df|]; [|apply unit_score_half].
  destruct (empty df) eqn:He; [apply unit_score_half|].
  destruct (iloc_last df He) as [row ->]. cbn [bind].
  destruct (get row "RSI"), (get row "Close"), (get row "SMA_20"),
    (get row "MACD"), (get row "MACD_Signal"); cbn [app];
    first [apply unit_score_half | apply unit_score_clamp].
Qed.

Lemma iloc_neg_ok (df : DataFrame) (k : Z) :
  (1 <= k <= Z.of_nat (nrows df))%Z ->
  iloc df (- k) =
    Ok (omap (fun col : list num => col !! (nrows df - Z.to_nat k)%nat) (columns df)).
Proof.
  intros Hk. unfold iloc.
  destruct ((0 <=? - k)%Z && (- k <? Z.of_nat (nrows df))%Z) eqn:E1.
  { apply andb_true_iff in E1 as [E1 _]. apply Z.leb_le in E1. lia. }
  destruct ((- Z.of_nat (nrows df) <=? - k)%Z && (- k <? 0)%Z) eqn:E2.
  - do 2 f_equal. replace (Z.to_nat (Z.of_nat (nrows df) + - k)) with (nrows df - Z.to_nat k)%nat by lia.
    reflexivity.
  - apply andb_false_iff in E2 as [E2|E2]; [apply Z.leb_gt in E2|apply Z.ltb_ge in E2]; lia.
Qed.

Lemma iloc_last_row (df : DataFrame) :
  (1 <= nrows df)%nat ->
  iloc df (-1) =
    Ok (omap (fun col : list num => col !! (nrows df - 1)%nat) (columns df)).
Proof. intros H. apply (iloc_neg_ok df 1). lia. Qed.

Lemma momentum_score_unit (self : ScoreProvider) (df : option DataFrame) :
  unit_score (momentum_score self df).
Proof.
  unfold momentum_score.
  destruct df as [df|]; [|apply unit_score_half].
  destruct (nrows df <? 2)%nat eqn:Hn; [apply unit_score_half|].
  apply Nat.ltb_ge in Hn.
  rewrite iloc_last_row by lia. cbn [bind].
  rewrite (iloc_neg_ok df (Z.min 5 (Z.of_nat (nrows df)))) by lia. cbn [bind].
  repeat match goal with |- context [get ?r ?k] => destruct (get r k) end;
    first [apply unit_score_half | apply unit_score_clamp].
Qed.

Lemma gpt_sentiment_outcome (self : ScoreProvider)
    (search_results : list (gmap string string)) :
  unit_score (_gpt_sentiment_analysis self search_results)
  \/ exists e, _gpt_sentiment_analysis self search_results = Raise e.
Proof.
  unfold _gpt_sentiment_analysis.
  destruct (getenv_api_key (runtime self)) as [key|]; [|right; eauto].
  destruct (negb (truthy key)); [right; eauto|].
  destruct (negb (openai_installed (runtime self))); [right; eauto|].
  destruct (flat_map _ _); [left; apply unit_score_half|].
  destruct (chat_completion _ _) as [text|e]; cbn; [|right; eauto].
  destruct (float_of_text _ _) as [score|e]; cbn; [|right; eauto].
  left. apply unit_score_clamp.
Qed.

Lemma sentiment_score_unit (self : ScoreProvider)
    (search_results : list (gmap string string)) :
  unit_score (sentiment_score self search_results).
Proof.
  unfold sentiment_score.
  destruct search_results as [|r rs]; [apply unit_score_half|].
  destruct (gpt_sentiment_outcome self (r :: rs)) as [(v & -> & Hv)|[e ->]]; cbn.
  - exists v. auto.
  - apply unit_score_half.
Qed.

Lemma composite_score_unit (self : ScoreProvider) (t m s r : num) :
  unit_score (composite_score self t m s r).
Proof. unfold composite_score. apply unit_score_clamp. Qed.

(** Claim C3.  For any indicator table (absent, empty, with missing columns
    or undefined entries), any list of search results, any outcome of the
    language-model call and any float arguments, each of [technical_score],
    [momentum_score], [sentiment_score] and [composite_score] returns without
    raising, and returns a finite number in [0,1]: never NaN, never None. *)
Theorem C3_scores_total_and_bounded
    (self : ScoreProvider) (df : option DataFrame)
    (search_results : list (gmap string string))
    (technical momentum sentiment risk_adjustment : num) :
  unit_score (technical_score self df)
  /\ unit_score (momentum_score self df)
  /\ unit_score (sentiment_score self search_results)
  /\ unit_score (composite_score self technical momentum sentiment risk_adjustment).
Proof.
  repeat split.
  - apply technical_score_unit.
  - apply momentum_score_unit.
  - apply sentiment_score_unit.
  - apply composite_score_unit.
Qed.

(** Degenerate inputs, evaluated: undefined indicator entries, a zero
    reference close, a model that answers NaN, and no credentials. *)
Example technical_score_undefined_entries :
  technical_score (demo_provider None) (Some warming_up) = Ok (Fin 1).
Proof. reflexivity. Qed.

Example momentum_score_zero_reference :
  momentum_score (demo_provider None) (Some from_zero) = Ok (Fin 1).
Proof. reflexivity. Qed.

Example sentiment_score_nan_reply :
  sentiment_score {| config := config (demo_provider None); runtime := nan_reply |}
    [headline] = Ok (Fin 1).
Proof. vm_compute. reflexivity. Qed.

Example sentiment_score_no_credentials :
  sentiment_score (demo_provider None) [headline] = Ok (Fin 0.5).
Proof. reflexivity. Qed.

Lemma composite_score_finite (self : ScoreProvider) (t m s r : Q) :
  exists w,
    composite_score self (Fin t) (Fin m) (Fin s) (Fin r) = Ok (clamp01 (Fin (w * r)))
    /\ (0.01 < Qabs (s - 0.5) -> ~ (t < 0.5 /\ m < 0.4) ->
        w == 0.4 * t + 0.3 * m + 0.3 * s)
    /\ (0.01 < Qabs (s - 0.5) -> t < 0.5 -> m < 0.4 ->
        w == 0.45 * t + 0.35 * m + 0.20 * s)
    /\ (Qabs (s - 0.5) <= 0.01 -> w == 0.6 * t + 0.4 * m).
Proof.
  unfold composite_score, Num.gtb. cbn [Num.sub Num.neg Num.add Num.abs Num.ltb].
  destruct (Num.Qlt_bool _ (Qabs _)) eqn:Hs; qprops.
  - destruct (Num.Qlt_bool t 0.5) eqn:Ht, (Num.Qlt_bool m 0.4) eqn:Hm; qprops;
      cbn [andb]; vm_compute lookup_total; cbn [Num.mul Num.add];
      eexists; (split; [reflexivity|]);
      repeat split; intros; try reflexivity; try lra;
      try (exfalso; unfold Qminus in *; lra).
  - vm_compute lookup_total. cbn [Num.mul Num.add].
    eexists; (split; [reflexivity|]).
    repeat split; intros; try reflexivity; unfold Qminus in *; lra.
Qed.

Lemma clamp01_same (q q' : Q) :
  q == q' -> Num.same (clamp01 (Fin q)) (Fin (clampQ q')).
Proof.
  intros H. pose proof (clamp01_finite q) as Hc.
  destruct (clamp01 (Fin q)) as [z| | |]; simpl in *; try contradiction.
  unfold clampQ. rewrite Hc, H. reflexivity.
Qed.

(** Claim C4.  For technical, momentum and sentiment in [0,1] and a risk
    multiplier among 0.85, 1.0 and 1.15, [composite_score] is the weighted
    sum times the multiplier, clamped to [0,1]; the weights are 0.4/0.3/0.3
    when |sentiment - 0.5| > 0.01, except 0.45/0.35/0.20 when moreover
    technical < 0.5 and momentum < 0.4, and 0.6/0.4 without sentiment when
    |sentiment - 0.5| <= 0.01. *)
Theorem C4_composite_score_weights
    (self : ScoreProvider) (technical momentum sentiment risk : Q) :
  0 <= technical <= 1 -> 0 <= momentum <= 1 -> 0 <= sentiment <= 1 ->
  risk == 0.85 \/ risk == 1 \/ risk == 1.15 ->
  exists v,
    composite_score self (Fin technical) (Fin momentum) (Fin sentiment) (Fin risk)
    = Ok v
    /\ (0.01 < Qabs (sentiment - 0.5) ->
        ~ (technical < 0.5 /\ momentum < 0.4) ->
        Num.same v (Fin (clampQ
          ((0.4 * technical + 0.3 * momentum + 0.3 * sentiment) * risk))))
    /\ (0.01 < Qabs (sentiment - 0.5) ->
        technical < 0.5 -> momentum < 0.4 ->
        Num.same v (Fin (clampQ
          ((0.45 * technical + 0.35 * momentum + 0.20 * sentiment) * risk))))
    /\ (Qabs (sentiment - 0.5) <= 0.01 ->
        Num.same v (Fin (clampQ ((0.6 * technical + 0.4 * momentum) * risk)))).
Proof.
  intros _ _ _ _.
  destruct (composite_score_finite self technical momentum sentiment risk)
    as (w & -> & H1 & H2 & H3).
  eexists. split; [reflexivity|].
  repeat split; intros; apply clamp01_same.
  - rewrite H1 by assumption. reflexivity.
  - rewrite H2 by assumption. reflexivity.
  - rewrite H3 by assumption. reflexivity.
Qed.

(** C4 in the bearish regime: technical 0.3, momentum 0.2, sentiment 0.9,
    aggressive multiplier. *)
Lemma C4_witness :
  exists v,
    composite_score (demo_provider None) (Fin 0.3) (Fin 0.2) (Fin 0.9) (Fin 1.15)
    = Ok v
    /\ (0.01 < Qabs (0.9 - 0.5) -> ~ (0.3 < 0.5 /\ 0.2 < 0.4) ->
        Num.same v (Fin (clampQ ((0.4 * 0.3 + 0.3 * 0.2 + 0.3 * 0.9) * 1.15))))
    /\ (0.01 < Qabs (0.9 - 0.5) -> 0.3 < 0.5 -> 0.2 < 0.4 ->
        Num.same v (Fin (clampQ ((0.45 * 0.3 + 0.35 * 0.2 + 0.20 * 0.9) * 1.15))))
    /\ (Qabs (0.9 - 0.5) <= 0.01 ->
        Num.same v (Fin (clampQ ((0.6 * 0.3 + 0.4 * 0.2) * 1.15)))).
Proof.
  apply (C4_composite_score_weights (demo_provider None) 0.3 0.2 0.9 1.15).
  - split; vm_compute; discriminate.
  - split; vm_compute; discriminate.
  - split; vm_compute; discriminate.
  - right; right; reflexivity.
Defined.

(** Claim C1 as stated fails for the aggressive tier: the composite score
    0.50 reaches the buy threshold 0.50 and the signal is BUY, not HOLD. *)
Lemma C1_counterexample :
  signal_of (generate_trading_signal (demo_provider (Some "aggressive"))
               (Fin 0.50) (Some (Fin 0.5)) None) = Some BUY
  /\ signal_of (generate_trading_signal (demo_provider (Some "aggressive"))
               (Fin 0.50) (Some (Fin 0.5)) None) <> Some HOLD.
Proof. split; [reflexivity|discriminate]. Qed.

(** Claim C1, as amended.  With the moderate risk tolerance, a composite
    score of 0.80 and a technical score of 0.75 give BUY, with confidence
    min(|0.80 - 0.5| * 2 * 1.2, 1.0); evaluated in binary64 that expression
    is 0.7200000000000001, the double just above the one nearest to 0.72.  A
    composite score of 0.50 gives HOLD for the conservative and the moderate
    tier, whatever the technical score, and BUY for the aggressive tier,
    whose buy threshold is 0.50 itself.  (0x1.999999999999ap-1 is the double
    0.8, 0x1.70a3d70a3d70ap-1 the double nearest to 0.72 and
    0x1.70a3d70a3d70bp-1 the next one.) *)
Theorem C1_generate_trading_signal
    (self : ScoreProvider) (technical price : option num) :
  (lower (risk_tolerance (config self)) = "moderate" ->
   signal_of (generate_trading_signal self (Fin 0.80) (Some (Fin 0.75)) price)
   = Some BUY
   /\ exists c,
       confidence_of
         (generate_trading_signal self (Fin 0.80) (Some (Fin 0.75)) price)
       = Some c
       /\ c = Num.py_min
                (Num.abs (Fin 0.80 - Fin 0.5) * Fin 2 * Fin 1.2)%num (Fin 1)
       /\ Binary64.boosted_confidence 0x1.999999999999ap-1
          = 0x1.70a3d70a3d70bp-1%float
       /\ PrimFloat.ltb 0x1.70a3d70a3d70ap-1
            (Binary64.boosted_confidence 0x1.999999999999ap-1) = true)
  /\ (lower (risk_tolerance (config self)) = "conservative"
      \/ lower (risk_tolerance (config self)) = "moderate" ->
      signal_of (generate_trading_signal self (Fin 0.50) technical price)
      = Some HOLD)
  /\ (lower (risk_tolerance (config self)) = "aggressive" ->
      signal_of (generate_trading_signal self (Fin 0.50) technical price)
      = Some BUY).
Proof.
  unfold generate_trading_signal.
  split; [|split].
  - intros ->. split; [reflexivity|].
    eexists. split; [reflexivity|]. split; [reflexivity|].
    split; vm_compute; reflexivity.
  - intros [-> | ->]; destruct technical; reflexivity.
  - intros ->; destruct technical; reflexivity.
Qed.

(** The three cases of C1 at concrete providers; the tier is matched after
    lower-casing. *)
Lemma C1_witness :
  signal_of (generate_trading_signal (demo_provider (Some "Moderate"))
               (Fin 0.80) (Some (Fin 0.75)) None) = Some BUY
  /\ signal_of (generate_trading_signal (demo_provider (Some "conservative"))
                  (Fin 0.50) (Some (Fin 0.9)) None) = Some HOLD
  /\ signal_of (generate_trading_signal (demo_provider (Some "AGGRESSIVE"))
                  (Fin 0.50) None None) = Some BUY.
Proof.
  split; [|split].
  - apply (proj1 (C1_generate_trading_signal
                    (demo_provider (Some "Moderate")) None None)).
    reflexivity.
  - apply (proj1 (proj2 (C1_generate_trading_signal
                           (demo_provider (Some "conservative"))
                           (Some (Fin 0.9)) None))).
    left. reflexivity.
  - apply (proj2 (proj2 (C1_generate_trading_signal
                           (demo_provider (Some "AGGRESSIVE")) None None))).
    reflexivity.
Defined.

(** [calculate_all_scores] hands [composite_score] one of the three risk
    multipliers of the profile table, or 1.0 for an unknown tier. *)
Lemma calculate_all_scores_composite
    (self : ScoreProvider) (df : option DataFrame)
    (search_results : list (gmap string string)) (s : ScoreSet) :
  calculate_all_scores self df search_results = Ok s ->
  exists risk,
    composite_score self (technical s) (momentum s) (sentiment s) risk
    = Ok (composite s)
    /\ (risk = Fin 0.85 \/ risk = Fin 1 \/ risk = Fin 1.15).
Proof.
  unfold calculate_all_scores. intros H.
  destruct (technical_score self df) as [t|]; [|discriminate].
  destruct (momentum_score self df) as [m|]; [|discriminate].
  destruct (sentiment_score self search_results) as [v|]; [|discriminate].
  cbn [bind] in H.
  destruct (composite_score self t m v _) as [c|] eqn:Hc; [|discriminate].
  cbn [bind] in H. injection H as <-. cbn [technical momentum sentiment composite].
  eexists. split; [exact Hc|].
  unfold risk_multipliers.
  destruct (decide (lower (risk_tolerance (config self)) = "conservative")) as [->|H1];
    [left; reflexivity|].
  destruct (decide (lower (risk_tolerance (config self)) = "moderate")) as [->|H2];
    [right; left; reflexivity|].
  destruct (decide (lower (risk_tolerance (config self)) = "aggressive")) as [->|H3];
    [right; right; reflexivity|].
  right; left.
  rewrite !lookup_insert_ne, lookup_singleton_ne by congruence. reflexivity.
Qed.

(** Claim C2 as stated fails on six observations: the program compares the
    latest close 121 with row 1 (110), not with the close five periods
    earlier, row 0 (100). *)
Lemma C2_counterexample :
  exists v,
    momentum_score (demo_provider None) (Some six_days) = Ok v
    /\ Num.same v (Fin 0.833)
    /\ ~ Num.same v (Fin (momentum_as_specified six_closes)).
Proof.
  eexists. split; [vm_compute; reflexivity|].
  split; vm_compute; [reflexivity|discriminate].
Qed.

Lemma get_iloc_row (df : DataFrame) (name : string) (col : list num) (i : nat) :
  columns df !! name = Some col ->
  get (omap (fun c : list num => c !! i) (columns df)) name = col !! i.
Proof.
  intros H. unfold get. rewrite lookup_omap, H. reflexivity.
Qed.

(** Claim C2, as amended.  For a frame whose Close column holds finite
    numbers: with fewer than 2 rows the momentum score is 0.5; otherwise it
    is 0.5 + pct_change * 3.33 clamped to [0,1], where pct_change compares
    the latest close with the fifth-from-last close (four periods earlier,
    row [len - 5]), or with the earliest close when there are fewer than 5
    rows, provided that earlier close is not zero. *)
Theorem C2_momentum_score
    (self : ScoreProvider) (df : DataFrame) (closes : list Q) :
  columns df !! "Close" = Some (map Fin closes) ->
  length closes = nrows df ->
  ((nrows df < 2)%nat -> momentum_score self (Some df) = Ok (Fin 0.5))
  /\ ((2 <= nrows df)%nat ->
      forall latest earlier : Q,
        closes !! (nrows df - 1)%nat = Some latest ->
        closes !! (nrows df - Nat.min 5 (nrows df))%nat = Some earlier ->
        ~ earlier == 0 ->
        exists v,
          momentum_score self (Some df) = Ok v
          /\ Num.same v
               (Fin (clampQ (0.5 + (latest - earlier) / earlier * 3.33)))).
Proof.
  intros Hcol Hlen. unfold momentum_score. split.
  - intros Hn. apply Nat.ltb_lt in Hn. rewrite Hn. reflexivity.
  - intros Hn latest earlier Hl He Hz.
    destruct (nrows df <? 2)%nat eqn:E; [apply Nat.ltb_lt in E; lia|].
    rewrite iloc_last_row by lia. cbn [bind].
    rewrite (iloc_neg_ok df (Z.min 5 (Z.of_nat (nrows df)))) by lia.
    cbn [bind].
    rewrite !(get_iloc_row df "Close" (map Fin closes)) by assumption.
    replace (Z.to_nat (Z.min 5 (Z.of_nat (nrows df)))) with (Nat.min 5 (nrows df)) by lia.
    rewrite !list_lookup_fmap, Hl, He. cbn [fmap option_fmap option_map].
    cbn [Num.sub Num.neg Num.add Num.div].
    apply Qeq_bool_false in Hz. rewrite Hz.
    cbn [Num.mul Num.add].
    eexists. split; [reflexivity|].
    apply clamp01_same. reflexivity.
Qed.

(** C2 on the six-day frame. *)
Lemma C2_witness :
  exists v,
    momentum_score (demo_provider None) (Some six_days) = Ok v
    /\ Num.same v (Fin (clampQ (0.5 + (121 - 110) / 110 * 3.33))).
Proof.
  refine (proj2 (C2_momentum_score (demo_provider None) six_days six_closes
                   _ _) _ 121 110 _ _ _).
  - reflexivity.
  - reflexivity.
  - simpl. lia.
  - reflexivity.
  - reflexivity.
  - vm_compute. discriminate.
Defined.

(** * Rolling windows and the moving average *)

Section RollingFacts.

Lemma finite_numbers_valid (data : list pyobj) (qs : list Q) :
  finite_numbers data qs -> all_numbers data = true.
Proof.
  unfold all_numbers. induction 1 as [|o q data qs [Ho _] _ IH]; simpl.
  - reflexivity.
  - rewrite Ho, IH. reflexivity.
Qed.

Lemma finite_numbers_Series (data : list pyobj) (qs : list Q) :
  finite_numbers data qs -> Series data = map Fin qs.
Proof.
  unfold Series. induction 1 as [|o q data qs [_ Ho] _ IH]; simpl.
  - reflexivity.
  - rewrite Ho, IH. reflexivity.
Qed.

Lemma finite_numbers_length (data : list pyobj) (qs : list Q) :
  finite_numbers data qs -> length data = length qs.
Proof. apply Forall2_length. Qed.

Lemma Series_length (data : list pyobj) : length (Series data) = length data.
Proof. unfold Series. apply length_map. Qed.

Lemma rolling_length (w mp : nat) (agg : list num -> num) (s : list num) :
  length (rolling w mp agg s) = length s.
Proof. unfold rolling. rewrite length_map, length_seq. reflexivity. Qed.

Lemma rolling_lookup (w mp : nat) (agg : list num -> num) (s : list num) (i : nat) :
  (i < length s)%nat ->
  rolling w mp agg s !! i =
    Some (let obs := List.filter Num.notna (window_at s w i) in
          if (mp <=? length obs)%nat then agg obs else NaN).
Proof.
  intros Hi. unfold rolling.
  rewrite list_lookup_fmap, lookup_seq_lt by assumption. reflexivity.
Qed.

Lemma window_at_length (s : list num) (w i : nat) :
  (i < length s)%nat -> length (window_at s w i) = Nat.min w (i + 1).
Proof.
  intros Hi. unfold window_at. rewrite length_skipn, length_firstn. lia.
Qed.

Lemma filter_length_le {A : Type} (f : A -> bool) (l : list A) :
  (length (List.filter f l) <= length l)%nat.
Proof.
  induction l as [|x l IH]; simpl; [lia|]. destruct (f x); simpl; lia.
Qed.

(** Before a window is full there is nothing to aggregate. *)
Lemma rolling_warmup (w : nat) (agg : list num -> num) (s : list num) (i : nat) :
  (i < length s)%nat -> (i + 1 < w)%nat -> rolling w w agg s !! i = Some NaN.
Proof.
  intros Hi Hw. rewrite rolling_lookup by assumption. cbn zeta.
  pose proof (filter_length_le Num.notna (window_at s w i)) as Hf.
  rewrite window_at_length in Hf by assumption.
  destruct (w <=? _)%nat eqn:E; [apply Nat.leb_le in E; lia|reflexivity].
Qed.

Lemma filter_notna_finite (l : list Q) :
  List.filter Num.notna (map Fin l) = map Fin l.
Proof. induction l as [|q l IH]; simpl; [|rewrite IH]; reflexivity. Qed.

Lemma window_at_finite (qs : list Q) (w i : nat) :
  window_at (map Fin qs) w i = map Fin (skipn (i + 1 - w) (firstn (i + 1) qs)).
Proof. unfold window_at. rewrite firstn_map, skipn_map. reflexivity. Qed.

Lemma total_finite_from (l : list Q) (a : Q) :
  fold_left Num.add (map Fin l) (Fin a) = Fin (fold_left Qplus l a).
Proof.
  revert a. induction l as [|q l IH]; intros a; simpl; [reflexivity|apply IH].
Qed.

Lemma fold_left_Qplus (l : list Q) (a : Q) :
  fold_left Qplus l a == a + Qsum l.
Proof.
  revert a. induction l as [|q l IH]; intros a; simpl.
  - lra.
  - rewrite IH. lra.
Qed.

Lemma mean_finite (l : list Q) :
  l <> [] ->
  mean (map Fin l) = Fin (fold_left Qplus l 0 / inject_Z (Z.of_nat (length l))).
Proof.
  intros Hl. unfold mean, total, count, Num.of_Z.
  rewrite total_finite_from, length_map. cbn [Num.div].
  destruct (Qeq_bool _ 0) eqn:E; [|reflexivity].
  apply Qeq_bool_iff in E. exfalso.
  destruct l as [|q l]; [congruence|].
  unfold Qeq in E. simpl in E. lia.
Qed.

Lemma slice_by_index (qs : list Q) (a n m : nat) :
  (a + n)%nat = m -> (m <= length qs)%nat ->
  skipn a (firstn m qs) = map (fun k => nth (a + k)%nat qs 0) (seq 0 n).
Proof.
  intros <- H. apply list_eq. intros k.
  rewrite lookup_drop.
  destruct (decide (k < n)%nat) as [Hk|Hk].
  - rewrite lookup_take_lt by lia.
    rewrite list_lookup_fmap, lookup_seq_lt by assumption. simpl.
    destruct (nth_lookup_or_length qs (a + k) 0) as [->|Hlen]; [reflexivity|lia].
  - rewrite lookup_take_ge by lia.
    rewrite list_lookup_fmap, lookup_seq_ge by lia. reflexivity.
Qed.

Lemma rolling_mean_finite (qs : list Q) (w i : nat) :
  (0 < w)%nat -> (w <= i + 1)%nat -> (i < length qs)%nat ->
  exists m,
    rolling_mean w (map Fin qs) !! i = Some (Fin m)
    /\ m == trailing_mean qs w i.
Proof.
  intros Hw Hi Hlen. unfold rolling_mean.
  rewrite rolling_lookup by (rewrite length_map; assumption). cbn zeta.
  rewrite window_at_finite, filter_notna_finite, length_map.
  rewrite (slice_by_index qs (i + 1 - w) w) by lia.
  rewrite length_map, length_seq, Nat.leb_refl.
  rewrite mean_finite by (destruct w; [lia|discriminate]).
  rewrite length_map, length_seq.
  eexists. split; [reflexivity|].
  unfold trailing_mean. rewrite fold_left_Qplus, Qplus_0_l. reflexivity.
Qed.

End RollingFacts.

(** Claim C5.  For a list of finite numbers and a positive window,
    [calculate_moving_average] returns a list as long as the input whose
    first window-1 entries are undefined and whose entry at every later
    index i is the arithmetic mean of the inputs at i-window+1 .. i; on
    [100,102,105,103,106] with window 5 the entries 0..3 are undefined and
    entry 4 is 103.2. *)
Theorem C5_moving_average
    (data : list pyobj) (qs : list Q) (window : Z) :
  finite_numbers data qs -> (0 < window)%Z ->
  exists out,
    calculate_moving_average data (PyInt window) = Ok out
    /\ length out = length data
    /\ (forall i, (i < length data)%nat -> (Z.of_nat i < window - 1)%Z ->
        out !! i = Some NaN)
    /\ (forall i, (i < length data)%nat -> (window - 1 <= Z.of_nat i)%Z ->
        exists m, out !! i = Some (Fin m)
                  /\ m == trailing_mean qs (Z.to_nat window) i)
    /\ exists last,
        calculate_moving_average price_example (PyInt 5)
        = Ok [NaN; NaN; NaN; NaN; Fin last]
        /\ last == 103.2.
Proof.
  intros Hdata Hw. unfold calculate_moving_average.
  rewrite (finite_numbers_valid data qs Hdata). cbn [negb positive_int].
  destruct (window <=? 0)%Z eqn:E; [apply Z.leb_le in E; lia|].
  eexists. split; [reflexivity|].
  rewrite (finite_numbers_Series data qs Hdata).
  pose proof (finite_numbers_length data qs Hdata) as Hlen.
  split; [|split; [|split]].
  - unfold rolling_mean. rewrite rolling_length, length_map. lia.
  - intros i Hi Hlt. apply rolling_warmup; [rewrite length_map|]; lia.
  - intros i Hi Hge. apply rolling_mean_finite; lia.
  - eexists. split; [vm_compute; reflexivity|]. vm_compute. reflexivity.
Qed.

(** C5 on [1, 2, 6] with window 2. *)
Lemma C5_witness :
  exists out,
    calculate_moving_average (map PyInt [1; 2; 6]%Z) (PyInt 2) = Ok out
    /\ length out = 3%nat
    /\ out !! 0%nat = Some NaN
    /\ exists m, out !! 2%nat = Some (Fin m) /\ m == 4.
Proof.
  destruct (C5_moving_average (map PyInt [1; 2; 6]%Z) [1; 2; 6] 2)
    as (out & Hout & Hlen & Hnan & Hmean & _).
  - repeat constructor.
  - lia.
  - exists out. split; [exact Hout|]. split; [exact Hlen|].
    split; [apply Hnan; simpl; lia|].
    destruct (Hmean 2%nat) as (m & Hm & Heq); [simpl; lia|simpl; lia|].
    exists m. split; [exact Hm|]. rewrite Heq. vm_compute. reflexivity.
Defined.

(** * The relative strength index *)

Section RsiFacts.

Lemma calculate_rsi_unfold (data : list pyobj) (w : Z) :
  all_numbers data = true -> (0 < w)%Z ->
  calculate_rsi data (PyInt w) =
    if (Z.of_nat (length data) <? w)%Z then Ok []
    else Ok (rsi_of (avg_gain (Series data) (Z.to_nat w))
                    (avg_loss (Series data) (Z.to_nat w))).
Proof.
  intros Hd Hw. unfold calculate_rsi. rewrite Hd. cbn [negb positive_int].
  destruct (w <=? 0)%Z eqn:E; [apply Z.leb_le in E; lia|]. reflexivity.
Qed.

Lemma rsi_of_length (ag al : list num) :
  length ag = length al -> length (rsi_of ag al) = length ag.
Proof.
  intros H. unfold rsi_of, where_.
  rewrite !length_zip_with, !length_map, !length_zip_with. lia.
Qed.

Lemma rsi_of_lookup (ag al : list num) (i : nat) (g l : num) :
  ag !! i = Some g -> al !! i = Some l ->
  rsi_of ag al !! i = Some (rsi_point g l).
Proof.
  intros Hg Hl. unfold rsi_of, where_.
  rewrite !lookup_zip_with, !list_lookup_fmap, !lookup_zip_with, Hg, Hl.
  reflexivity.
Qed.

Lemma rsi_point_nan : rsi_point NaN NaN = NaN.
Proof. reflexivity. Qed.

Lemma rsi_point_within (g l : Q) :
  0 <= g -> 0 <= l -> Num.within 0 100 (rsi_point (Fin g) (Fin l)).
Proof.
  intros Hg Hl. unfold rsi_point, Num.within, Num.gtb.
  cbn [Num.eqb Num.ltb Num.div].
  destruct (Qeq_bool l 0) eqn:El; qprops.
  - (* no loss in the window *)
    destruct (Qeq_bool g 0) eqn:Eg, (Num.Qlt_bool 0 g) eqn:Eg'; qprops;
      cbn [andb negb]; try (exfalso; lra);
      eexists; (split; [reflexivity|]); lra.
  - (* a loss occurred: the quotient is an ordinary fraction *)
    rewrite !andb_false_r, andb_false_l. cbn [negb].
    cbn [Num.add Num.sub Num.neg Num.div].
    assert (Hq : 0 <= g / l) by (apply Qle_shift_div_l; lra).
    destruct (Qeq_bool (1 + g / l) 0) eqn:E1; qprops; [lra|].
    cbn [Num.add Num.neg]. eexists. split; [reflexivity|].
    assert (H1 : 0 < 100 / (1 + g / l)) by (apply Qlt_shift_div_l; lra).
    assert (H2 : 100 / (1 + g / l) <= 100) by (apply Qle_shift_div_r; lra).
    lra.
Qed.

Lemma rsi_point_no_loss (g l : Q) :
  l == 0 -> 0 < g -> rsi_point (Fin g) (Fin l) = Fin 100.
Proof.
  intros Hl Hg. unfold rsi_point, Num.gtb. cbn [Num.eqb Num.ltb].
  destruct (Qeq_bool l 0) eqn:El, (Qeq_bool g 0) eqn:Eg,
    (Num.Qlt_bool 0 g) eqn:Eg'; qprops; try lra; try contradiction.
  reflexivity.
Qed.

Lemma rsi_point_flat (g l : Q) :
  g == 0 -> l == 0 -> rsi_point (Fin g) (Fin l) = Fin 50.
Proof.
  intros Hg Hl. unfold rsi_point. cbn [Num.eqb].
  apply Qeq_bool_iff in Hg, Hl. rewrite Hg, Hl. reflexivity.
Qed.

End RsiFacts.

Section AverageFacts.

Lemma diff_length (s : list num) : length (diff s) = length s.
Proof.
  destruct s as [|x r]; [reflexivity|].
  cbn [diff length]. rewrite length_zip_with. cbn [length]. lia.
Qed.

Lemma diff_cons (x : num) (r : list num) :
  diff (x :: r) = NaN :: zip_with (fun cur prev => (cur - prev)%num) r (x :: r).
Proof. reflexivity. Qed.

Lemma avg_gain_length (s : list num) (w : nat) :
  length (avg_gain s w) = length s.
Proof.
  unfold avg_gain, rolling_mean, clip_lower.
  rewrite rolling_length, length_map. apply diff_length.
Qed.

Lemma avg_loss_length (s : list num) (w : nat) :
  length (avg_loss s w) = length s.
Proof.
  unfold avg_loss, rolling_mean, clip_upper.
  rewrite rolling_length, !length_map. apply diff_length.
Qed.

(** A series that starts with a missing value has no full window before
    position [w]. *)
Lemma rolling_nan_head (w : nat) (agg : list num -> num) (t : list num) (i : nat) :
  (i < S (length t))%nat -> (i < w)%nat ->
  rolling w w agg (NaN :: t) !! i = Some NaN.
Proof.
  intros Hi Hw. rewrite rolling_lookup by exact Hi. cbn zeta.
  unfold window_at. replace (i + 1 - w)%nat with 0%nat by lia.
  replace (i + 1)%nat with (S i) by lia. cbn [firstn skipn List.filter Num.notna Num.isnan negb].
  pose proof (filter_length_le Num.notna (firstn i t)) as Hf.
  rewrite length_firstn in Hf.
  destruct (w <=? _)%nat eqn:E; [apply Nat.leb_le in E; lia|reflexivity].
Qed.

Lemma rolling_shift (w mp : nat) (agg : list num -> num)
    (x : num) (t : list num) (i : nat) :
  (0 < w)%nat -> (w <= i)%nat -> (i < S (length t))%nat ->
  rolling w mp agg (x :: t) !! i = rolling w mp agg t !! (i - 1)%nat.
Proof.
  intros Hw Hi Hlen.
  rewrite !rolling_lookup by (cbn [length]; lia).
  unfold window_at.
  replace (i + 1 - w)%nat with (S (i - w)) by lia.
  replace (i + 1)%nat with (S i) by lia.
  replace (i - 1 + 1 - w)%nat with (i - w)%nat by lia.
  replace (i - 1 + 1)%nat with i by lia.
  reflexivity.
Qed.

Lemma avg_warmup (s : list num) (w i : nat) :
  (i < length s)%nat -> (i < w)%nat ->
  avg_gain s w !! i = Some NaN /\ avg_loss s w !! i = Some NaN.
Proof.
  intros Hi Hw. destruct s as [|x r]; [cbn in Hi; lia|].
  unfold avg_gain, avg_loss, rolling_mean. rewrite diff_cons.
  cbn [clip_lower clip_upper map Num.ltb Num.gtb Num.neg].
  split; apply rolling_nan_head; try assumption;
    rewrite ?length_map, length_zip_with; cbn [length] in *; lia.
Qed.

Lemma zip_sub_finite (a b : list Q) :
  zip_with (fun cur prev => (cur - prev)%num) (map Fin a) (map Fin b)
  = map Fin (zip_with (fun cur prev => cur + - prev) a b).
Proof.
  revert b. induction a as [|x a IH]; intros [|y b]; cbn; try reflexivity.
  rewrite <- IH. reflexivity.
Qed.

Lemma diff_finite (q : Q) (qs : list Q) :
  diff (map Fin (q :: qs)) = NaN :: map Fin (deltas (q :: qs)).
Proof.
  cbn [map]. rewrite diff_cons. f_equal.
  change (Fin q :: map Fin qs) with (map Fin (q :: qs)).
  apply zip_sub_finite.
Qed.

Lemma gains_finite (ds : list Q) :
  clip_lower (Fin 0) (NaN :: map Fin ds) = NaN :: map Fin (map gain_part ds).
Proof.
  unfold clip_lower. cbn [map Num.ltb]. f_equal.
  rewrite !map_map. apply map_ext. intros d. unfold gain_part. cbn.
  destruct (Num.Qlt_bool d 0); reflexivity.
Qed.

Lemma losses_finite (ds : list Q) :
  map Num.neg (clip_upper (Fin 0) (NaN :: map Fin ds))
  = NaN :: map Fin (map loss_part ds).
Proof.
  unfold clip_upper. cbn [map Num.gtb Num.ltb Num.neg]. f_equal.
  rewrite !map_map. apply map_ext. intros d. unfold loss_part, Num.gtb. cbn.
  destruct (Num.Qlt_bool 0 d); reflexivity.
Qed.

Lemma Qsum_cons (x : Q) (l : list Q) : Qsum (x :: l) = x + Qsum l.
Proof. reflexivity. Qed.

Lemma Qsum_nonneg (l : list Q) : Forall (fun x => 0 <= x) l -> 0 <= Qsum l.
Proof.
  induction 1 as [|x l Hx _ IH]; [cbn; lra|]. rewrite Qsum_cons. lra.
Qed.

Lemma Qsum_zero (l : list Q) : Forall (fun x => x == 0) l -> Qsum l == 0.
Proof.
  induction 1 as [|x l Hx _ IH]; [reflexivity|]. rewrite Qsum_cons. lra.
Qed.

Lemma nth_Forall (P : Q -> Prop) (l : list Q) (k : nat) :
  P 0 -> Forall P l -> P (nth k l 0).
Proof.
  intros H0 Hl. destruct (nth_lookup_or_length l k 0) as [Hk|Hk].
  - eapply Forall_lookup_1; eauto.
  - rewrite nth_overflow by lia. exact H0.
Qed.

Lemma trailing_mean_nonneg (l : list Q) (w i : nat) :
  (0 < w)%nat -> Forall (fun x => 0 <= x) l -> 0 <= trailing_mean l w i.
Proof.
  intros Hw Hl. unfold trailing_mean.
  apply Qle_shift_div_l.
  - unfold Qlt. simpl. lia.
  - rewrite Qmult_0_l. apply Qsum_nonneg.
    apply Forall_forall. intros x Hx. apply list_elem_of_In, in_map_iff in Hx as (k & <- & _).
    apply nth_Forall; [lra|assumption].
Qed.

Lemma trailing_mean_zero (l : list Q) (w i : nat) :
  (0 < w)%nat -> Forall (fun x => x == 0) l -> trailing_mean l w i == 0.
Proof.
  intros Hw Hl. unfold trailing_mean.
  rewrite Qsum_zero.
  - field. unfold Qeq. simpl. lia.
  - apply Forall_forall. intros x Hx. apply list_elem_of_In, in_map_iff in Hx as (k & <- & _).
    apply nth_Forall; [reflexivity|assumption].
Qed.

Lemma gain_part_nonneg (d : Q) : 0 <= gain_part d.
Proof. unfold gain_part. qsplit; lra. Qed.

Lemma loss_part_nonneg (d : Q) : 0 <= loss_part d.
Proof. unfold loss_part. qsplit; lra. Qed.

Lemma deltas_constant (qs : list Q) :
  constant qs -> Forall (fun d => d == 0) (deltas qs).
Proof.
  intros Hc. apply Forall_lookup. intros i d Hd.
  unfold deltas in Hd. apply lookup_zip_with_Some in Hd as (c & p & -> & Hc' & Hp).
  assert (In c qs).
  { apply list_elem_of_In. destruct qs as [|q r]; [discriminate|].
    cbn [tail] in Hc'. right. eapply list_elem_of_lookup_2; eauto. }
  assert (In p qs) by (apply list_elem_of_In; eapply list_elem_of_lookup_2; eauto).
  rewrite (Hc c p) by assumption. lra.
Qed.

Lemma Forall_map_zero (f : Q -> Q) (l : list Q) :
  (forall d, d == 0 -> f d == 0) ->
  Forall (fun d => d == 0) l -> Forall (fun d => d == 0) (map f l).
Proof. intros Hf Hl. apply Forall_map. eapply Forall_impl; eauto. Qed.

Lemma deltas_length (q : Q) (qs : list Q) : length (deltas (q :: qs)) = length qs.
Proof. unfold deltas. cbn [tail]. rewrite length_zip_with. cbn [length]. lia. Qed.

Lemma avg_finite (qs : list Q) (w i : nat) :
  (0 < w)%nat -> (w <= i)%nat -> (i < length qs)%nat ->
  exists g l,
    avg_gain (map Fin qs) w !! i = Some (Fin g)
    /\ avg_loss (map Fin qs) w !! i = Some (Fin l)
    /\ 0 <= g /\ 0 <= l
    /\ (constant qs -> g == 0 /\ l == 0).
Proof.
  intros Hw Hi Hlen. destruct qs as [|q qs]; [cbn in Hlen; lia|].
  unfold avg_gain, avg_loss. rewrite diff_finite, gains_finite, losses_finite.
  cbn [length] in Hlen.
  unfold rolling_mean.
  rewrite !rolling_shift
    by (rewrite ?length_map, ?deltas_length; lia).
  destruct (rolling_mean_finite (map gain_part (deltas (q :: qs))) w (i - 1))
    as (g & Hg & Hge); [lia|lia|rewrite length_map, deltas_length; lia|].
  destruct (rolling_mean_finite (map loss_part (deltas (q :: qs))) w (i - 1))
    as (l & Hl & Hle); [lia|lia|rewrite length_map, deltas_length; lia|].
  unfold rolling_mean in Hg, Hl.
  exists g, l. split; [exact Hg|]. split; [exact Hl|].
  split; [|split].
  - rewrite Hge. apply trailing_mean_nonneg; [assumption|].
    apply Forall_map, Forall_forall. intros; apply gain_part_nonneg.
  - rewrite Hle. apply trailing_mean_nonneg; [assumption|].
    apply Forall_map, Forall_forall. intros; apply loss_part_nonneg.
  - intros Hc. apply deltas_constant in Hc. split.
    + rewrite Hge. apply trailing_mean_zero; [assumption|].
      apply Forall_map_zero; [|assumption].
      intros d Hd. unfold gain_part. qsplit; lra.
    + rewrite Hle. apply trailing_mean_zero; [assumption|].
      apply Forall_map_zero; [|assumption].
      intros d Hd. unfold loss_part. qsplit; lra.
Qed.

End AverageFacts.

Lemma rsi_lookup_warmup (s : list num) (w i : nat) :
  (i < length s)%nat -> (i < w)%nat ->
  rsi_of (avg_gain s w) (avg_loss s w) !! i = Some NaN.
Proof.
  intros Hi Hw. destruct (avg_warmup s w i Hi Hw) as [Hg Hl].
  rewrite (rsi_of_lookup _ _ i NaN NaN Hg Hl). reflexivity.
Qed.

Lemma rsi_lookup_finite (qs : list Q) (w i : nat) :
  (0 < w)%nat -> (w <= i)%nat -> (i < length qs)%nat ->
  exists g l,
    avg_gain (map Fin qs) w !! i = Some (Fin g)
    /\ avg_loss (map Fin qs) w !! i = Some (Fin l)
    /\ rsi_of (avg_gain (map Fin qs) w) (avg_loss (map Fin qs) w) !! i
       = Some (rsi_point (Fin g) (Fin l))
    /\ 0 <= g /\ 0 <= l
    /\ (constant qs -> g == 0 /\ l == 0).
Proof.
  intros Hw Hi Hlen.
  destruct (avg_finite qs w i Hw Hi Hlen) as (g & l & Hg & Hl & H).
  exists g, l. split; [exact Hg|]. split; [exact Hl|].
  split; [apply rsi_of_lookup; assumption|exact H].
Qed.

(** Claim C6.  For a list of finite numbers and a positive window: an input
    shorter than the window gives the empty list; otherwise every defined
    RSI value lies in [0,100], it is exactly 100 wherever the trailing
    average loss is zero and the average gain positive, and on a constant
    series it is 50 at every defined position (all positions from index
    [window] on). *)
Theorem C6_rsi_range_and_edge_cases
    (data : list pyobj) (qs : list Q) (window : Z) :
  finite_numbers data qs -> (0 < window)%Z ->
  ((Z.of_nat (length data) < window)%Z ->
   calculate_rsi data (PyInt window) = Ok [])
  /\ ((window <= Z.of_nat (length data))%Z ->
      exists out,
        calculate_rsi data (PyInt window) = Ok out
        /\ (forall i v, out !! i = Some v -> v <> NaN -> Num.within 0 100 v)
        /\ (forall i g l,
              avg_gain (Series data) (Z.to_nat window) !! i = Some (Fin g) ->
              avg_loss (Series data) (Z.to_nat window) !! i = Some (Fin l) ->
              l == 0 -> 0 < g -> out !! i = Some (Fin 100))
        /\ (constant qs ->
            (forall i v, out !! i = Some v -> v <> NaN -> v = Fin 50)
            /\ (forall i, (window <= Z.of_nat i)%Z -> (i < length data)%nat ->
                out !! i = Some (Fin 50)))).
Proof.
  intros Hdata Hw.
  rewrite (calculate_rsi_unfold data window
             (finite_numbers_valid data qs Hdata) Hw).
  pose proof (finite_numbers_length data qs Hdata) as Hlen.
  rewrite (finite_numbers_Series data qs Hdata).
  split.
  - intros Hshort. apply Z.ltb_lt in Hshort. rewrite Hshort. reflexivity.
  - intros Hlong.
    destruct (Z.of_nat (length data) <? window)%Z eqn:E;
      [apply Z.ltb_lt in E; lia|].
    eexists. split; [reflexivity|].
    set (w := Z.to_nat window).
    assert (Hout : length (rsi_of (avg_gain (map Fin qs) w)
                                  (avg_loss (map Fin qs) w)) = length qs).
    { rewrite rsi_of_length; rewrite avg_gain_length, ?avg_loss_length,
        ?length_map; reflexivity. }
    assert (Hcases : forall i v,
      rsi_of (avg_gain (map Fin qs) w) (avg_loss (map Fin qs) w) !! i = Some v ->
      v <> NaN ->
      (w <= i)%nat /\ (i < length qs)%nat).
    { intros i v Hv Hdef.
      assert (i < length qs)%nat
        by (rewrite <- Hout; eapply lookup_lt_Some; eauto).
      split; [|assumption].
      destruct (le_lt_dec w i) as [|Hlt]; [assumption|].
      rewrite rsi_lookup_warmup in Hv
        by (rewrite ?length_map; assumption).
      congruence. }
    split; [|split].
    + intros i v Hv Hdef. destruct (Hcases i v Hv Hdef) as [Hi Hi'].
      destruct (rsi_lookup_finite qs w i) as (g & l & _ & _ & Hr & Hg & Hl & _);
        [lia|assumption|assumption|].
      rewrite Hr in Hv. injection Hv as <-. apply rsi_point_within; assumption.
    + intros i g l Hg Hl Hl0 Hg0.
      rewrite (rsi_of_lookup _ _ i _ _ Hg Hl).
      rewrite rsi_point_no_loss by assumption. reflexivity.
    + intros Hflat.
      assert (H50 : forall i, (w <= i)%nat -> (i < length qs)%nat ->
        rsi_of (avg_gain (map Fin qs) w) (avg_loss (map Fin qs) w) !! i
        = Some (Fin 50)).
      { intros i Hi Hi'.
        destruct (rsi_lookup_finite qs w i) as (g & l & _ & _ & Hr & _ & _ & Hz);
          [lia|assumption|assumption|].
        destruct (Hz Hflat) as [Hg Hl].
        rewrite Hr, rsi_point_flat by assumption. reflexivity. }
      split.
      * intros i v Hv Hdef. destruct (Hcases i v Hv Hdef) as [Hi Hi'].
        rewrite H50 in Hv by assumption. congruence.
      * intros i Hi Hi'. apply H50; lia.
Qed.

(** Claim C10.  For every list of numbers at least as long as the window,
    [calculate_rsi] returns a list of the same length whose entries at
    indices 0 .. window-1 are all undefined; when the length equals the
    window no entry is defined; and when the numbers are finite and the
    list is longer than the window, the entry at index window is defined (a
    number in [0,100]), and so is every later one: the first defined value
    appears at index window. *)
Theorem C10_rsi_warmup (data : list pyobj) (window : Z) :
  all_numbers data = true -> (0 < window)%Z ->
  (window <= Z.of_nat (length data))%Z ->
  exists out,
    calculate_rsi data (PyInt window) = Ok out
    /\ length out = length data
    /\ (forall i, (Z.of_nat i < window)%Z -> (i < length data)%nat ->
        out !! i = Some NaN)
    /\ (Z.of_nat (length data) = window ->
        forall i v, out !! i = Some v -> v = NaN)
    /\ (forall qs, finite_numbers data qs ->
        (window < Z.of_nat (length data))%Z ->
        (exists v, out !! Z.to_nat window = Some (Fin v) /\ 0 <= v <= 100)
        /\ forall i, (window <= Z.of_nat i)%Z -> (i < length data)%nat ->
             exists v, out !! i = Some (Fin v) /\ 0 <= v <= 100).
Proof.
  intros Hdata Hw Hlong.
  rewrite (calculate_rsi_unfold data window Hdata Hw).
  destruct (Z.of_nat (length data) <? window)%Z eqn:E;
    [apply Z.ltb_lt in E; lia|].
  eexists. split; [reflexivity|].
  assert (Hout : length (rsi_of (avg_gain (Series data) (Z.to_nat window))
                                (avg_loss (Series data) (Z.to_nat window)))
                 = length data).
  { rewrite rsi_of_length; rewrite avg_gain_length, ?avg_loss_length,
      Series_length; reflexivity. }
  split; [exact Hout|]. split; [|split].
  - intros i Hi Hi'. apply rsi_lookup_warmup; rewrite ?Series_length; lia.
  - intros Heq i v Hv.
    assert (i < length data)%nat
      by (rewrite <- Hout; eapply lookup_lt_Some; eauto).
    rewrite rsi_lookup_warmup in Hv by (rewrite ?Series_length; lia).
    congruence.
  - intros qs Hfin Hlonger.
    pose proof (finite_numbers_length data qs Hfin) as Hlen.
    rewrite (finite_numbers_Series data qs Hfin).
    assert (Hdef : forall i, (window <= Z.of_nat i)%Z -> (i < length data)%nat ->
      exists v,
        rsi_of (avg_gain (map Fin qs) (Z.to_nat window))
               (avg_loss (map Fin qs) (Z.to_nat window)) !! i = Some (Fin v)
        /\ 0 <= v <= 100).
    { intros i Hi Hi'.
      destruct (rsi_lookup_finite qs (Z.to_nat window) i)
        as (g & l & _ & _ & Hr & Hg & Hl & _); [lia|lia|lia|].
      destruct (rsi_point_within g l Hg Hl) as (v & Hv & Hrange).
      exists v. rewrite Hr, Hv. split; [reflexivity|exact Hrange]. }
    split; [apply Hdef; lia|exact Hdef].
Qed.

(** C6 on a flat series (too short for window 5; 50 at index 3 for window
    2) and on a rising one (100 at index 2 for window 2). *)
Lemma C6_witness :
  calculate_rsi flat_prices (PyInt 5) = Ok []
  /\ (exists out,
        calculate_rsi flat_prices (PyInt 2) = Ok out
        /\ out !! 3%nat = Some (Fin 50))
  /\ (exists out,
        calculate_rsi rising_prices (PyInt 2) = Ok out
        /\ out !! 2%nat = Some (Fin 100)).
Proof.
  assert (Hf : finite_numbers flat_prices [7; 7; 7; 7]) by (repeat constructor).
  assert (Hr : finite_numbers rising_prices [1; 2; 3]) by (repeat constructor).
  split; [|split].
  - apply (proj1 (C6_rsi_range_and_edge_cases flat_prices [7; 7; 7; 7] 5
                    Hf ltac:(lia))).
    simpl. lia.
  - destruct (proj2 (C6_rsi_range_and_edge_cases flat_prices [7; 7; 7; 7] 2
                       Hf ltac:(lia)))
      as (out & Hout & _ & _ & Hflat); [simpl; lia|].
    exists out. split; [exact Hout|].
    apply Hflat; [|simpl; lia|simpl; lia].
    intros a b Ha Hb. simpl in Ha, Hb.
    repeat (destruct Ha as [<-|Ha]); repeat (destruct Hb as [<-|Hb]);
      try reflexivity; contradiction.
  - destruct (proj2 (C6_rsi_range_and_edge_cases rising_prices [1; 2; 3] 2
                       Hr ltac:(lia)))
      as (out & Hout & _ & Hmax & _); [simpl; lia|].
    exists out. split; [exact Hout|].
    eapply (Hmax 2%nat); [vm_compute; reflexivity|vm_compute; reflexivity| |];
      vm_compute; reflexivity.
Defined.

(** C10 on four prices with window 4 (nothing defined), and on three prices
    with window 2 (undefined at indices 0 and 1, defined at index 2). *)
Lemma C10_witness :
  (exists out,
     calculate_rsi flat_prices (PyInt 4) = Ok out
     /\ length out = 4%nat
     /\ forall i v, out !! i = Some v -> v = NaN)
  /\ (exists out v,
        calculate_rsi rising_prices (PyInt 2) = Ok out
        /\ out !! 0%nat = Some NaN /\ out !! 1%nat = Some NaN
        /\ out !! 2%nat = Some (Fin v) /\ 0 <= v <= 100).
Proof.
  split.
  - destruct (C10_rsi_warmup flat_prices 4)
      as (out & Hout & Hlen & _ & Hall & _).
    + reflexivity.
    + lia.
    + simpl. lia.
    + exists out. split; [exact Hout|]. split; [exact Hlen|].
      apply Hall. reflexivity.
  - destruct (C10_rsi_warmup rising_prices 2)
      as (out & Hout & _ & Hnan & _ & Hdef).
    + reflexivity.
    + lia.
    + simpl. lia.
    + destruct (Hdef [1; 2; 3]) as [(v & Hv & Hrange) _].
      * repeat constructor.
      * simpl. lia.
      * exists out, v. split; [exact Hout|].
        split; [apply Hnan; simpl; lia|].
        split; [apply Hnan; simpl; lia|].
        split; [exact Hv|exact Hrange].
Defined.

(** * On-balance volume *)

Lemma obv_initial_inv (close : list pyobj) (vs : list Q) :
  obv_inv close vs 1 (replicate (length close) (Fin 0)).
Proof.
  split; [apply length_replicate|]. split; [|split].
  - intros j Hj. exists 0. apply lookup_replicate_2. assumption.
  - intros Hpos. apply lookup_replicate_2. assumption.
  - intros _ _ j x y Hj. lia.
Qed.

Section ObvFacts.

Variables (close volume : list pyobj) (vs : list Q).
Hypothesis Hvolume : finite_numbers volume vs.
Hypothesis Hlength : length close = length volume.

Lemma item_volume (i : nat) :
  (i < length close)%nat -> exists v, vs !! i = Some v /\ item volume i = Fin v.
Proof.
  intros Hi.
  destruct (lookup_lt_is_Some_2 volume i) as [o Ho]; [lia|].
  destruct (Forall2_lookup_l _ _ _ _ _ Hvolume Ho) as (v & Hv & _ & Hnum).
  exists v. split; [exact Hv|]. unfold item. rewrite Ho. exact Hnum.
Qed.

Lemma item_close (i : nat) :
  (i < length close)%nat -> Series close !! i = Some (item close i).
Proof.
  intros Hi. unfold Series, item.
  destruct (lookup_lt_is_Some_2 close i) as [o Ho]; [lia|].
  rewrite list_lookup_fmap, Ho. reflexivity.
Qed.

Lemma leb_not_gt (x y : num) : (x <=? y)%num = true -> (y <? x)%num = false.
Proof.
  destruct x, y; cbn; try congruence. unfold Num.Qlt_bool.
  intros ->. reflexivity.
Qed.

Lemma obv_step_inv (a : nat) (obv : list num) :
  (1 <= a)%nat -> (a < length close)%nat ->
  obv_inv close vs a obv -> obv_inv close vs (S a) (obv_step close volume obv a).
Proof.
  intros Ha Hlt (Hlen & Hfin & Hzero & Hmono).
  destruct (Hfin (a - 1)%nat) as [p Hp]; [lia|].
  destruct (item_volume a Hlt) as (v & Hv & Hitem).
  assert (Hshape : exists q,
    obv_step close volume obv a = <[a := Fin q]> obv
    /\ (nondecreasing (Series close) -> Forall (fun v => 0 <= v) vs -> p <= q)).
  { unfold obv_step. rewrite Hp, Hitem. cbn [default Num.add Num.sub Num.neg].
    destruct (_ >? _)%num eqn:Eup.
    - eexists. split; [reflexivity|]. intros _ Hpos.
      assert (0 <= v) by (eapply Forall_lookup_1; eauto). lra.
    - destruct (_ <? _)%num eqn:Edown.
      + eexists. split; [reflexivity|]. intros Hnd _. exfalso.
        assert (Hle : (item close (a - 1) <=? item close a)%num = true).
        { apply (Hnd (a - 1)%nat); [apply item_close; lia|].
          replace (a - 1 + 1)%nat with a by lia. apply item_close; lia. }
        apply leb_not_gt in Hle. congruence.
      + eexists. split; [reflexivity|]. intros _ _. lra. }
  destruct Hshape as (q & -> & Hq).
  split; [rewrite length_insert; exact Hlen|].
  split; [|split].
  - intros j Hj. destruct (decide (j = a)) as [->|Hne].
    + exists q. apply list_lookup_insert_eq. lia.
    + rewrite list_lookup_insert_ne by congruence. apply Hfin; assumption.
  - intros Hpos. rewrite list_lookup_insert_ne by lia. apply Hzero; lia.
  - intros Hnd Hpos j x y Hj Hx Hy.
    destruct (decide (j + 1 = a)%nat) as [Heq|Hne].
    + rewrite list_lookup_insert_ne in Hx by lia.
      rewrite Heq, list_lookup_insert_eq in Hy by lia.
      replace (a - 1)%nat with j in Hp by lia.
      assert (x = p) by congruence. assert (y = q) by congruence. subst.
      apply Hq; assumption.
    + rewrite list_lookup_insert_ne in Hx by lia.
      rewrite list_lookup_insert_ne in Hy by lia.
      apply (Hmono Hnd Hpos j x y); [lia|assumption|assumption].
Qed.

Lemma obv_loop_inv (len a : nat) (obv : list num) :
  (1 <= a)%nat -> (a + len <= length close)%nat ->
  obv_inv close vs a obv ->
  obv_inv close vs (a + len) (fold_left (obv_step close volume) (seq a len) obv).
Proof.
  revert a obv. induction len as [|len IH]; intros a obv Ha Hlen Hinv.
  - rewrite Nat.add_0_r. exact Hinv.
  - cbn [seq fold_left]. replace (a + S len)%nat with (S a + len)%nat by lia.
    apply IH; [lia|lia|]. apply obv_step_inv; [assumption|lia|assumption].
Qed.

End ObvFacts.

(** Claim C7 as stated fails when a volume is negative: closes [1, 2] rise,
    volumes [0, -5] take the running total from 0 down to -5. *)
Lemma C7_counterexample :
  exists obv,
    calculate_on_balance_volume (map PyInt [1; 2]%Z) (map PyInt [0; -5]%Z)
    = Ok obv
    /\ nondecreasing (Series (map PyInt [1; 2]%Z))
    /\ ~ nondecreasing obv.
Proof.
  eexists. split; [vm_compute; reflexivity|]. split.
  - intros [|[|j]] x y Hx Hy; cbn in Hx, Hy; try discriminate.
    injection Hx as <-. injection Hy as <-. reflexivity.
  - intros H. specialize (H 0%nat _ _ eq_refl eq_refl). vm_compute in H.
    discriminate.
Qed.

(** Claim C7, as amended.  For equal-length lists of numbers, the volumes
    finite, [calculate_on_balance_volume] returns a list of the same length
    that starts at 0 when non-empty, and that is non-decreasing whenever the
    closes are non-decreasing throughout and no volume is negative; on
    close [100,102,105,103,106] and volume [1000,2000,3000,4000,5000] it is
    [0,2000,5000,1000,6000]. *)
Theorem C7_on_balance_volume
    (close volume : list pyobj) (vs : list Q) :
  all_numbers close = true -> finite_numbers volume vs ->
  length close = length volume ->
  exists obv,
    calculate_on_balance_volume close volume = Ok obv
    /\ length obv = length close
    /\ (close <> [] -> obv !! 0%nat = Some (Fin 0))
    /\ (nondecreasing (Series close) -> Forall (fun v => 0 <= v) vs ->
        nondecreasing obv)
    /\ calculate_on_balance_volume close_example volume_example
       = Ok [Fin 0; Fin 2000; Fin 5000; Fin 1000; Fin 6000].
Proof.
  intros Hclose Hvolume Hlen. unfold calculate_on_balance_volume.
  rewrite Hclose, (finite_numbers_valid volume vs Hvolume).
  cbn [negb]. rewrite (proj2 (Nat.eqb_eq _ _) Hlen). cbn [negb].
  eexists. split; [reflexivity|].
  assert (Hinv : obv_inv close vs (1 + (length close - 1))
                   (fold_left (obv_step close volume)
                      (seq 1 (length close - 1))
                      (replicate (length close) (Fin 0)))).
  { destruct close as [|c rest].
    - apply obv_initial_inv.
    - apply (obv_loop_inv (c :: rest) volume vs Hvolume Hlen);
        [lia|cbn [length]; lia|]. apply obv_initial_inv. }
  destruct Hinv as (Hl & Hfin & Hhead & Hmono).
  split; [exact Hl|]. split; [|split].
  - intros Hne. apply Hhead. destruct close; [congruence|cbn; lia].
  - intros Hnd Hpos j x y Hx Hy.
    assert (Hj : (j + 1 < length close)%nat)
      by (rewrite <- Hl; eapply lookup_lt_Some; eauto).
    destruct (Hfin j) as [p Hp]; [lia|].
    destruct (Hfin (j + 1)%nat) as [q Hq]; [lia|].
    rewrite Hp in Hx. rewrite Hq in Hy.
    injection Hx as <-. injection Hy as <-. cbn.
    apply Qle_bool_iff. apply (Hmono Hnd Hpos j p q); [lia|assumption|assumption].
  - vm_compute. reflexivity.
Qed.

(** C7 on closes [3, 3, 4] with volumes [5, 6, 7]. *)
Lemma C7_witness :
  exists obv,
    calculate_on_balance_volume (map PyInt [3; 3; 4]%Z) (map PyInt [5; 6; 7]%Z)
    = Ok obv
    /\ obv !! 0%nat = Some (Fin 0)
    /\ nondecreasing obv.
Proof.
  destruct (C7_on_balance_volume (map PyInt [3; 3; 4]%Z) (map PyInt [5; 6; 7]%Z)
              [5; 6; 7])
    as (obv & Hobv & _ & Hhead & Hmono & _).
  - reflexivity.
  - repeat constructor.
  - reflexivity.
  - exists obv. split; [exact Hobv|]. split; [apply Hhead; discriminate|].
    apply Hmono.
    + intros [|[|[|j]]] x y Hx Hy; cbn in Hx, Hy; try discriminate;
        injection Hx as <-; injection Hy as <-; reflexivity.
    + repeat constructor; vm_compute; discriminate.
Defined.

(** * Bollinger bands *)

Lemma rolling_mean_finite_or_nan (qs : list Q) (w i : nat) (m : num) :
  (0 < w)%nat ->
  rolling_mean w (map Fin qs) !! i = Some m ->
  m = NaN \/ exists a, m = Fin a.
Proof.
  intros Hw Hm.
  assert (Hi : (i < length qs)%nat).
  { apply lookup_lt_Some in Hm. unfold rolling_mean in Hm.
    rewrite rolling_length, length_map in Hm. exact Hm. }
  destruct (le_lt_dec w (i + 1)) as [Hfull|Hshort].
  - destruct (rolling_mean_finite qs w i Hw Hfull Hi) as (a & Ha & _).
    right. exists a. congruence.
  - left. unfold rolling_mean in Hm.
    rewrite rolling_warmup in Hm by (rewrite ?length_map; lia). congruence.
Qed.

Lemma band_symmetry (a : Q) (width : num) :
  (Fin a + width)%num <> NaN ->
  Num.same ((Fin a + width) - Fin a)%num (Fin a - (Fin a - width))%num
  /\ ((Fin a + width) - Fin a)%num <> NaN.
Proof.
  destruct width as [b| | |]; cbn; intros H; try congruence.
  - split; [ring|discriminate].
  - split; [exact I|discriminate].
  - split; [exact I|discriminate].
Qed.

(** Claim C8, as amended.  For a list of finite numbers, a positive window
    and a positive number of deviations, at every index where the three
    bands are defined, upper - middle and middle - lower are the same number
    when computed without rounding: both bands are the middle band moved by
    the same width. *)
Theorem C8_bollinger_symmetry
    (sqrtQ : Q -> Q) (data : list pyobj) (qs : list Q)
    (window : Z) (num_std_dev : pyobj) :
  finite_numbers data qs -> (0 < window)%Z ->
  is_number num_std_dev = true ->
  (num_of num_std_dev <=? Fin 0)%num = false ->
  exists upper middle lower,
    calculate_bollinger_bands sqrtQ data (PyInt window) num_std_dev
    = Ok (upper, middle, lower)
    /\ length upper = length data
    /\ length middle = length data
    /\ length lower = length data
    /\ forall i u m l,
         upper !! i = Some u -> middle !! i = Some m -> lower !! i = Some l ->
         u <> NaN -> m <> NaN -> l <> NaN ->
         Num.same (u - m)%num (m - l)%num /\ (u - m)%num <> NaN.
Proof.
  intros Hdata Hw Hnum Hpos. unfold calculate_bollinger_bands.
  rewrite (finite_numbers_valid data qs Hdata). cbn [negb positive_int].
  destruct (window <=? 0)%Z eqn:E; [apply Z.leb_le in E; lia|].
  rewrite Hnum, Hpos. cbn [negb orb].
  do 3 eexists. split; [reflexivity|].
  rewrite (finite_numbers_Series data qs Hdata).
  pose proof (finite_numbers_length data qs Hdata) as Hlen.
  unfold rolling_std, rolling_mean.
  rewrite !length_zip_with, !length_map, !rolling_length, !length_map.
  repeat (split; [lia|]).
  intros i u m l Hu Hm Hl Hdu Hdm Hdl.
  apply lookup_zip_with_Some in Hu as (m1 & wd1 & -> & Hm1 & Hwd1).
  apply lookup_zip_with_Some in Hl as (m2 & wd2 & -> & Hm2 & Hwd2).
  assert (m1 = m) by congruence. assert (m2 = m) by congruence.
  assert (wd2 = wd1) by congruence. subst m1 m2 wd2.
  destruct (rolling_mean_finite_or_nan qs (Z.to_nat window) i m) as [->|[a ->]];
    [lia|exact Hm|congruence|].
  apply band_symmetry. exact Hdu.
Qed.

(** C8 on [1, 2, 3, 7] with window 3, where the variance at index 2 is 1. *)
Lemma C8_witness :
  exists upper middle lower,
    calculate_bollinger_bands sqrt_of_squares (map PyInt [1; 2; 3; 7]%Z)
      (PyInt 3) (PyInt 2)
    = Ok (upper, middle, lower)
    /\ exists u m l,
         upper !! 2%nat = Some u /\ middle !! 2%nat = Some m
         /\ lower !! 2%nat = Some l
         /\ Num.same (u - m)%num (m - l)%num.
Proof.
  destruct (C8_bollinger_symmetry sqrt_of_squares (map PyInt [1; 2; 3; 7]%Z)
              [1; 2; 3; 7] 3 (PyInt 2))
    as (upper & middle & lower & Hcalc & Hlu & Hlm & Hll & Hsym).
  - repeat constructor.
  - lia.
  - reflexivity.
  - reflexivity.
  - exists upper, middle, lower. split; [exact Hcalc|].
    vm_compute in Hcalc. injection Hcalc as <- <- <-.
    do 3 eexists. split; [reflexivity|]. split; [reflexivity|].
    split; [reflexivity|].
    apply (Hsym 2%nat); try reflexivity; discriminate.
Defined.

(** Claim C8 as stated (the two differences are equal exactly) fails at
    binary64 precision.  On [255, 257] with window 2 and 2 deviations the
    middle band is 256 and the deviation is sqrt 2; the upper band 256 + w
    and the lower band 256 - w are rounded on grids of different spacing, and
    upper - middle = 2.8284271247462129 while
    middle - lower = 2.8284271247461845. *)
Lemma C8_counterexample :
  exists upper middle lower,
    Binary64.calculate_bollinger_bands [255; 257]%float 2 2%float
    = (upper, middle, lower)
    /\ exists u m l,
         upper !! 1%nat = Some u /\ middle !! 1%nat = Some m
         /\ lower !! 1%nat = Some l
         /\ Binary64.notna u = true /\ Binary64.notna m = true
         /\ Binary64.notna l = true
         /\ PrimFloat.eqb (u - m)%float (m - l)%float = false
         /\ (u - m)%float = 0x1.6a09e667f3cp+1%float
         /\ (m - l)%float = 0x1.6a09e667f3bcp+1%float.
Proof.
  do 3 eexists. split; [vm_compute; reflexivity|].
  do 3 eexists. repeat split; vm_compute; reflexivity.
Qed.

(** The asymmetry does not hinge on the last bits of the deviation: around
    the middle band 256 it holds for each of the seventeen floats nearest to
    sqrt 2, eight on either side. *)
Lemma band_asymmetry_near_sqrt2 :
  forallb
    (fun s : float =>
       negb (PrimFloat.eqb ((256 + s * 2) - 256) (256 - (256 - s * 2)))%float)
    (let up := fun s => PrimFloat.next_up s in
     let down := fun s => PrimFloat.next_down s in
     let r := PrimFloat.sqrt 2%float in
     r :: map (fun k => Nat.iter k up r) (seq 1 8)
       ++ map (fun k => Nat.iter k down r) (seq 1 8))
  = true.
Proof. vm_compute. reflexivity. Qed.

(** * The stochastic oscillator *)

Section StochasticFacts.

Lemma smallest_fold (r : list Q) (x : Q) :
  exists m,
    fold_left (fun a b => if (b <? a)%num then b else a) (map Fin r) (Fin x)
    = Fin m
    /\ m <= x /\ Forall (fun y => m <= y) r.
Proof.
  revert x. induction r as [|y r IH]; intros x; cbn [map fold_left].
  - exists x. split; [reflexivity|]. split; [lra|constructor].
  - cbn [Num.ltb]. destruct (Num.Qlt_bool y x) eqn:E; qprops.
    + destruct (IH y) as (m & -> & Hm & Hall). exists m.
      split; [reflexivity|]. split; [lra|]. constructor; assumption.
    + destruct (IH x) as (m & -> & Hm & Hall). exists m.
      split; [reflexivity|]. split; [lra|]. constructor; [lra|assumption].
Qed.

Lemma largest_fold (r : list Q) (x : Q) :
  exists m,
    fold_left (fun a b => if (b >? a)%num then b else a) (map Fin r) (Fin x)
    = Fin m
    /\ x <= m /\ Forall (fun y => y <= m) r.
Proof.
  revert x. induction r as [|y r IH]; intros x; cbn [map fold_left].
  - exists x. split; [reflexivity|]. split; [lra|constructor].
  - unfold Num.gtb at 2. cbn [Num.ltb].
    destruct (Num.Qlt_bool x y) eqn:E; qprops.
    + destruct (IH y) as (m & -> & Hm & Hall). exists m.
      split; [reflexivity|]. split; [lra|]. constructor; assumption.
    + destruct (IH x) as (m & -> & Hm & Hall). exists m.
      split; [reflexivity|]. split; [lra|]. constructor; [lra|assumption].
Qed.

Lemma smallest_finite (l : list Q) :
  l <> [] ->
  exists m, smallest (map Fin l) = Fin m /\ Forall (fun y => m <= y) l.
Proof.
  intros Hl. destruct l as [|x r]; [congruence|]. cbn [map smallest].
  destruct (smallest_fold r x) as (m & -> & Hx & Hr).
  exists m. split; [reflexivity|]. constructor; assumption.
Qed.

Lemma largest_finite (l : list Q) :
  l <> [] ->
  exists m, largest (map Fin l) = Fin m /\ Forall (fun y => y <= m) l.
Proof.
  intros Hl. destruct l as [|x r]; [congruence|]. cbn [map largest].
  destruct (largest_fold r x) as (m & -> & Hx & Hr).
  exists m. split; [reflexivity|]. constructor; assumption.
Qed.

(** A full window of a finite series ends with the current observation. *)
Lemma window_last (qs : list Q) (w i : nat) (q : Q) :
  (0 < w)%nat -> qs !! i = Some q ->
  In q (skipn (i + 1 - w) (firstn (i + 1) qs)).
Proof.
  intros Hw Hq. apply list_elem_of_In.
  apply (list_elem_of_lookup_2 _ (i - (i + 1 - w))).
  rewrite lookup_drop, lookup_take_lt by lia.
  replace (i + 1 - w + (i - (i + 1 - w)))%nat with i by lia. exact Hq.
Qed.

Lemma window_length (qs : list Q) (w i : nat) :
  (w <= i + 1)%nat -> (i < length qs)%nat ->
  length (skipn (i + 1 - w) (firstn (i + 1) qs)) = w.
Proof. intros. rewrite length_skipn, length_firstn. lia. Qed.

Lemma rolling_extreme_finite (agg : list num -> num) (P : Q -> Q -> Prop)
    (qs : list Q) (w i : nat) (q : Q) :
  (forall l, l <> [] ->
     exists m, agg (map Fin l) = Fin m /\ Forall (P m) l) ->
  (0 < w)%nat -> (w <= i + 1)%nat -> qs !! i = Some q ->
  exists m, rolling w w agg (map Fin qs) !! i = Some (Fin m) /\ P m q.
Proof.
  intros Hagg Hw Hfull Hq.
  assert (Hi : (i < length qs)%nat) by (eapply lookup_lt_Some; eauto).
  rewrite rolling_lookup by (rewrite length_map; assumption). cbn zeta.
  rewrite window_at_finite, filter_notna_finite, length_map.
  rewrite window_length, Nat.leb_refl by assumption.
  pose proof (window_last qs w i q Hw Hq) as Hin.
  destruct (Hagg (skipn (i + 1 - w) (firstn (i + 1) qs))) as (m & -> & Hall).
  { intros Hnil. rewrite Hnil in Hin. contradiction. }
  exists m. split; [reflexivity|].
  rewrite Forall_forall in Hall. apply Hall, list_elem_of_In. exact Hin.
Qed.

Lemma rolling_min_finite (qs : list Q) (w i : nat) (q : Q) :
  (0 < w)%nat -> (w <= i + 1)%nat -> qs !! i = Some q ->
  exists m, rolling_min w (map Fin qs) !! i = Some (Fin m) /\ m <= q.
Proof.
  apply (rolling_extreme_finite smallest (fun m y => m <= y)).
  apply smallest_finite.
Qed.

Lemma rolling_max_finite (qs : list Q) (w i : nat) (q : Q) :
  (0 < w)%nat -> (w <= i + 1)%nat -> qs !! i = Some q ->
  exists m, rolling_max w (map Fin qs) !! i = Some (Fin m) /\ q <= m.
Proof.
  apply (rolling_extreme_finite largest (fun m y => y <= m)).
  apply largest_finite.
Qed.

Lemma percent_k_zero_range (c : num) (ll hh : Q) :
  hh == ll -> percent_k_point c (Fin ll) (Fin hh) = Fin 0.
Proof.
  intros H. unfold percent_k_point, Num.neqb. cbn [Num.sub Num.neg Num.add Num.eqb].
  assert (E : Qeq_bool (hh + - ll) 0 = true) by (apply Qeq_bool_iff; lra).
  rewrite E. reflexivity.
Qed.

Lemma percent_k_within (c ll hh : Q) :
  ll <= c -> c <= hh ->
  Num.within 0 100 (percent_k_point (Fin c) (Fin ll) (Fin hh)).
Proof.
  intros Hl Hh. unfold percent_k_point, Num.neqb, Num.within.
  cbn [Num.sub Num.neg Num.add Num.eqb Num.mul].
  destruct (Qeq_bool (hh + - ll) 0) eqn:E; qprops; cbn [negb].
  - exists 0. split; [reflexivity|lra].
  - cbn [Num.div]. apply Qeq_bool_false in E. rewrite E.
    apply Qeq_bool_false in E.
    eexists. split; [reflexivity|].
    assert (Hpos : 0 < hh + - ll) by lra.
    split.
    + apply Qle_shift_div_l; [assumption|]. lra.
    + apply Qle_shift_div_r; [assumption|]. lra.
Qed.

End StochasticFacts.

Lemma stochastic_unfold (high low close : list pyobj) (w k : Z) :
  all_numbers high = true -> all_numbers low = true ->
  all_numbers close = true ->
  length high = length low -> length low = length close ->
  (0 < w)%Z -> (0 < k)%Z ->
  calculate_stochastic_oscillator high low close (PyInt w) (PyInt k)
  = Ok (percent_k_of (Series close)
          (rolling_min (Z.to_nat w) (Series low))
          (rolling_max (Z.to_nat w) (Series high)),
        rolling (Z.to_nat k) 1 mean
          (percent_k_of (Series close)
             (rolling_min (Z.to_nat w) (Series low))
             (rolling_max (Z.to_nat w) (Series high)))).
Proof.
  intros Hh Hl Hc Hhl Hlc Hw Hk. unfold calculate_stochastic_oscillator.
  cbn [forallb]. rewrite Hh, Hl, Hc. cbn [andb negb].
  rewrite (proj2 (Nat.eqb_eq _ _) Hhl), (proj2 (Nat.eqb_eq _ _) Hlc).
  cbn [negb orb positive_int].
  destruct (w <=? 0)%Z eqn:Ew; [apply Z.leb_le in Ew; lia|].
  destruct (k <=? 0)%Z eqn:Ek; [apply Z.leb_le in Ek; lia|].
  reflexivity.
Qed.

Lemma percent_k_of_length (cs ll hh : list num) :
  length ll = length cs -> length hh = length cs ->
  length (percent_k_of cs ll hh) = length cs.
Proof.
  intros Hl Hh. unfold percent_k_of, where_, replace.
  rewrite !length_zip_with, !length_map, !length_zip_with. lia.
Qed.

Lemma percent_k_of_lookup (cs ll hh : list num) (i : nat) (c l h : num) :
  cs !! i = Some c -> ll !! i = Some l -> hh !! i = Some h ->
  percent_k_of cs ll hh !! i = Some (percent_k_point c l h).
Proof.
  intros Hc Hl Hh. unfold percent_k_of, where_, replace.
  rewrite !lookup_zip_with, !list_lookup_fmap, !lookup_zip_with, Hc, Hl, Hh.
  reflexivity.
Qed.

(** Claim C9 as stated fails when a close lies outside its period's range:
    high 10, low 5, close 20 with window 1 give %K = 300.  In binary64 it
    fails with the close inside the range too: high = close = 10.0 and
    low = 9.33 (the double 0x1.2a8f5c28f5c29p+3) with window 1 give
    100 * 0.6699999999999999 / 0.6699999999999999, which rounds to
    100.00000000000001 (0x1.9000000000001p+6), the double just above 100. *)
Lemma C9_counterexample :
  (exists percent_k percent_d,
     calculate_stochastic_oscillator
       (map PyInt [10]%Z) (map PyInt [5]%Z) (map PyInt [20]%Z)
       (PyInt 1) (PyInt 3)
     = Ok (percent_k, percent_d)
     /\ percent_k !! 0%nat = Some (Fin (1500 # 5))
     /\ ~ Num.within 0 100 (Fin (1500 # 5)))
  /\ PrimFloat.leb 0x1.2a8f5c28f5c29p+3 10 = true
  /\ Binary64.percent_k_point 10 0x1.2a8f5c28f5c29p+3 10
     = 0x1.9000000000001p+6%float
  /\ PrimFloat.ltb 100 (Binary64.percent_k_point 10 0x1.2a8f5c28f5c29p+3 10)
     = true.
Proof.
  split.
  - do 2 eexists. split; [vm_compute; reflexivity|]. split; [reflexivity|].
    intros (q & Hq & _ & Hle). injection Hq as <-.
    revert Hle. vm_compute. intros H. apply H. reflexivity.
  - repeat split; vm_compute; reflexivity.
Qed.

(** Claim C9, as amended.  For equal-length lists of finite numbers and
    positive window and smoothing: at every position where the close lies
    between that period's low and high, a defined %K lies in [0,100] when
    the arithmetic is exact (in binary64 the quotient can round to the
    double just above 100, as the counterexample shows); and wherever the
    rolling highest high equals the rolling lowest low, %K is 0. *)
Theorem C9_stochastic_percent_k
    (high low close : list pyobj) (hs ls cs : list Q) (window k_smoothing : Z) :
  finite_numbers high hs -> finite_numbers low ls -> finite_numbers close cs ->
  length high = length low -> length low = length close ->
  (0 < window)%Z -> (0 < k_smoothing)%Z ->
  exists percent_k percent_d,
    calculate_stochastic_oscillator high low close
      (PyInt window) (PyInt k_smoothing)
    = Ok (percent_k, percent_d)
    /\ length percent_k = length close
    /\ (forall i v lo c hi,
          percent_k !! i = Some v -> v <> NaN ->
          ls !! i = Some lo -> cs !! i = Some c -> hs !! i = Some hi ->
          lo <= c -> c <= hi ->
          Num.within 0 100 v)
    /\ (forall i hh ll,
          rolling_max (Z.to_nat window) (Series high) !! i = Some (Fin hh) ->
          rolling_min (Z.to_nat window) (Series low) !! i = Some (Fin ll) ->
          hh == ll ->
          percent_k !! i = Some (Fin 0)).
Proof.
  intros Hhigh Hlow Hclose Hhl Hlc Hw Hk.
  rewrite (stochastic_unfold high low close window k_smoothing)
    by eauto using finite_numbers_valid.
  do 2 eexists. split; [reflexivity|].
  pose proof (finite_numbers_length _ _ Hhigh) as Lh.
  pose proof (finite_numbers_length _ _ Hlow) as Ll.
  pose proof (finite_numbers_length _ _ Hclose) as Lc.
  rewrite (finite_numbers_Series _ _ Hhigh), (finite_numbers_Series _ _ Hlow),
    (finite_numbers_Series _ _ Hclose).
  set (w := Z.to_nat window).
  assert (Hlen : length (percent_k_of (map Fin cs)
                           (rolling_min w (map Fin ls))
                           (rolling_max w (map Fin hs))) = length close).
  { rewrite percent_k_of_length; unfold rolling_min, rolling_max;
      rewrite ?rolling_length, ?length_map; lia. }
  split; [exact Hlen|]. split.
  - intros i v lo c hi Hv Hdef Hlo Hc Hhi Hle1 Hle2.
    assert (Hcs : map Fin cs !! i = Some (Fin c))
      by (rewrite list_lookup_fmap, Hc; reflexivity).
    destruct (le_lt_dec w (i + 1)) as [Hfull|Hshort].
    + destruct (rolling_min_finite ls w i lo) as (ll & Hll & Hll');
        [lia|assumption|assumption|].
      destruct (rolling_max_finite hs w i hi) as (hh & Hhh & Hhh');
        [lia|assumption|assumption|].
      rewrite (percent_k_of_lookup _ _ _ i _ _ _ Hcs Hll Hhh) in Hv.
      injection Hv as <-. apply percent_k_within; lra.
    + exfalso. apply Hdef.
      assert (Hi : (i < length cs)%nat) by (eapply lookup_lt_Some; eauto).
      assert (Hmin : rolling_min w (map Fin ls) !! i = Some NaN)
        by (apply rolling_warmup; rewrite ?length_map; lia).
      assert (Hmax : rolling_max w (map Fin hs) !! i = Some NaN)
        by (apply rolling_warmup; rewrite ?length_map; lia).
      rewrite (percent_k_of_lookup _ _ _ i _ _ _ Hcs Hmin Hmax) in Hv.
      injection Hv as <-. reflexivity.
  - intros i hh ll Hhh Hll Heq.
    assert (Hi : (i < length cs)%nat).
    { apply lookup_lt_Some in Hhh. unfold rolling_max in Hhh.
      rewrite rolling_length, length_map in Hhh. lia. }
    destruct (lookup_lt_is_Some_2 (map Fin cs) i) as [c Hc];
      [rewrite length_map; exact Hi|].
    rewrite (percent_k_of_lookup _ _ _ i _ _ _ Hc Hll Hhh).
    rewrite percent_k_zero_range by assumption. reflexivity.
Qed.

(** C9 on three periods with window 2, and on a zero-range series. *)
Lemma C9_witness :
  exists percent_k percent_d,
    calculate_stochastic_oscillator
      (map PyInt [10; 12; 12]%Z) (map PyInt [8; 9; 12]%Z)
      (map PyInt [9; 12; 12]%Z) (PyInt 2) (PyInt 3)
    = Ok (percent_k, percent_d)
    /\ (exists v, percent_k !! 1%nat = Some v /\ Num.within 0 100 v)
    /\ calculate_stochastic_oscillator
         (map PyInt [4; 4]%Z) (map PyInt [4; 4]%Z) (map PyInt [4; 4]%Z)
         (PyInt 2) (PyInt 3)
       = Ok ([NaN; Fin 0], [NaN; Fin 0]).
Proof.
  destruct (C9_stochastic_percent_k
              (map PyInt [10; 12; 12]%Z) (map PyInt [8; 9; 12]%Z)
              (map PyInt [9; 12; 12]%Z) [10; 12; 12] [8; 9; 12] [9; 12; 12] 2 3)
    as (pk & pd & Hcalc & _ & Hrange & _);
    try (repeat constructor); try reflexivity.
  exists pk, pd. split; [exact Hcalc|]. split.
  - vm_compute in Hcalc. injection Hcalc as <- <-.
    eexists. split; [reflexivity|].
    apply (Hrange 1%nat _ 9 12 12); try reflexivity; try discriminate;
      vm_compute; discriminate.
  - vm_compute. reflexivity.
Defined.

(** * The unit tests of the indicator library, replayed on the model *)

Section UnitTests.

Example test_calculate_moving_average :
  exists out,
    calculate_moving_average (map PyInt sample_data) (PyInt 5) = Ok out
    /\ length out = 15%nat
    /\ (exists q, out !! 4%nat = Some (Fin q) /\ q == 103.2)
    /\ last_approx out 119 0.
Proof.
  eexists. split; [vm_compute; reflexivity|]. split; [reflexivity|].
  split; eexists; (split; [reflexivity|]); vm_compute;
    first [reflexivity | discriminate].
Qed.

Example test_calculate_rsi :
  exists out,
    calculate_rsi (map PyInt sample_data) (PyInt 14) = Ok out
    /\ length out = 15%nat
    /\ last_approx out 84.375 0.01.
Proof.
  eexists. split; [vm_compute; reflexivity|]. split; [reflexivity|].
  eexists. split; [reflexivity|]. vm_compute. discriminate.
Qed.

Example test_calculate_stochastic_oscillator :
  exists percent_k percent_d,
    calculate_stochastic_oscillator
      (map (fun x => PyInt (x + 2)) sample_data)
      (map (fun x => PyInt (x - 2)) sample_data)
      (map PyInt sample_data) (PyInt 14) (PyInt 3)
    = Ok (percent_k, percent_d)
    /\ length percent_k = 15%nat
    /\ last_approx percent_k 91.67 0.01
    /\ last_approx percent_d 89.58 0.01.
Proof.
  do 2 eexists. split; [vm_compute; reflexivity|]. split; [reflexivity|].
  split; eexists; (split; [reflexivity|]); vm_compute; discriminate.
Qed.

Example test_calculate_on_balance_volume :
  exists obv,
    calculate_on_balance_volume
      (map PyInt sample_data)
      (map (fun i => PyInt (1000 * (Z.of_nat i + 1))) (seq 0 15))
    = Ok obv
    /\ length obv = 15%nat
    /\ last obv = Some (Fin 63000).
Proof.
  eexists. split; [vm_compute; reflexivity|]. split; reflexivity.
Qed.

End UnitTests.

(** * The exponential moving average *)

Section EwmFacts.

Lemma ewm_from_finite (a p : Q) (l : list Q) :
  ewm_from (Fin a) (Fin p) (map Fin l) = map Fin (ewmQ_from a p l).
Proof.
  revert p. induction l as [|x l IH]; intros p; cbn [map ewm_from ewmQ_from].
  - reflexivity.
  - cbn [Num.sub Num.neg Num.add Num.mul]. f_equal. apply IH.
Qed.

Lemma ewm_mean_finite (a : Q) (l : list Q) :
  ewm_mean (Fin a) (map Fin l) = map Fin (ewmQ a l).
Proof.
  destruct l as [|x l]; [reflexivity|].
  cbn [map ewm_mean ewmQ]. f_equal. apply ewm_from_finite.
Qed.

Lemma inject_Z_pos (n : Z) : (0 < n)%Z -> 0 < inject_Z n.
Proof. intros H. unfold Qlt. simpl. lia. Qed.

Lemma inject_Z_ge1 (n : Z) : (0 < n)%Z -> 1 <= inject_Z n.
Proof. intros H. unfold Qle. simpl. lia. Qed.

Lemma span_alpha_finite (n : Z) :
  (0 < n)%Z -> span_alpha n = Fin (span_factor n).
Proof.
  intros H. unfold span_alpha, span_factor, Num.of_Z.
  cbn [Num.add Num.div].
  pose proof (inject_Z_pos n H).
  destruct (Qeq_bool (inject_Z n + 1) 0) eqn:E; qprops; [lra|reflexivity].
Qed.

Lemma span_factor_unit (n : Z) :
  (0 < n)%Z -> 0 < span_factor n /\ span_factor n <= 1.
Proof.
  intros H. unfold span_factor. pose proof (inject_Z_ge1 n H). split.
  - apply Qlt_shift_div_l; lra.
  - apply Qle_shift_div_r; lra.
Qed.

Lemma ewmQ_from_length (a p : Q) (l : list Q) :
  length (ewmQ_from a p l) = length l.
Proof.
  revert p. induction l as [|x l IH]; intros p; cbn; [|rewrite IH]; reflexivity.
Qed.

Lemma ewmQ_length (a : Q) (l : list Q) : length (ewmQ a l) = length l.
Proof. destruct l; cbn; [|rewrite ewmQ_from_length]; reflexivity. Qed.

(** A blend of two numbers of an interval stays in the interval. *)
Lemma blend_range (a p x lo hi : Q) :
  0 <= a -> a <= 1 -> lo <= p <= hi -> lo <= x <= hi ->
  lo <= (1 + - a) * p + a * x <= hi.
Proof. intros Ha Ha' [Hp Hp'] [Hx Hx']. split; nra. Qed.

Lemma ewmQ_from_range (a lo hi : Q) (l : list Q) (p : Q) :
  0 <= a -> a <= 1 -> lo <= p <= hi ->
  Forall (fun q => lo <= q <= hi) l ->
  Forall (fun y => lo <= y <= hi) (ewmQ_from a p l).
Proof.
  intros Ha Ha' Hp Hl. revert p Hp.
  induction Hl as [|x l Hx _ IH]; intros p Hp; cbn [ewmQ_from]; constructor.
  - apply blend_range; assumption.
  - apply IH. apply blend_range; assumption.
Qed.

Lemma ewmQ_range (a lo hi : Q) (l : list Q) :
  0 <= a -> a <= 1 ->
  Forall (fun q => lo <= q <= hi) l ->
  Forall (fun y => lo <= y <= hi) (ewmQ a l).
Proof.
  intros Ha Ha' Hl. destruct Hl as [|x l Hx Hl]; cbn [ewmQ]; constructor.
  - exact Hx.
  - apply ewmQ_from_range; assumption.
Qed.

Lemma ewmQ_from_lower (a lo : Q) (l : list Q) (p : Q) :
  0 <= a -> a <= 1 -> lo <= p ->
  Forall (fun q => lo <= q) l -> Forall (fun y => lo <= y) (ewmQ_from a p l).
Proof.
  intros Ha Ha' Hp Hl. revert p Hp.
  induction Hl as [|x l Hx _ IH]; intros p Hp; cbn [ewmQ_from]; constructor.
  - nra.
  - apply IH. nra.
Qed.

Lemma ewmQ_lower (a lo : Q) (l : list Q) :
  0 <= a -> a <= 1 ->
  Forall (fun q => lo <= q) l -> Forall (fun y => lo <= y) (ewmQ a l).
Proof.
  intros Ha Ha' Hl. destruct Hl as [|x l Hx Hl]; cbn [ewmQ]; constructor.
  - exact Hx.
  - apply ewmQ_from_lower; assumption.
Qed.

Lemma ewmQ_from_next (a : Q) (l : list Q) (p : Q) (i : nat) (y x : Q) :
  ewmQ_from a p l !! i = Some y -> l !! S i = Some x ->
  ewmQ_from a p l !! S i = Some ((1 + - a) * y + a * x).
Proof.
  revert p i. induction l as [|x0 l IH]; intros p i Hy Hx; [discriminate|].
  destruct i as [|i].
  - cbn in Hy. injection Hy as <-. destruct l as [|x1 l]; [discriminate|].
    cbn in Hx. injection Hx as <-. reflexivity.
  - cbn [ewmQ_from] in *. cbn in Hy, Hx |- *. eapply IH; eassumption.
Qed.

Lemma ewmQ_next (a : Q) (l : list Q) (i : nat) (y x : Q) :
  ewmQ a l !! i = Some y -> l !! S i = Some x ->
  ewmQ a l !! S i = Some ((1 + - a) * y + a * x).
Proof.
  destruct l as [|x0 l]; [discriminate|]. cbn [ewmQ]. intros Hy Hx.
  destruct i as [|i].
  - cbn in Hy. injection Hy as <-. destruct l as [|x1 l]; [discriminate|].
    cbn in Hx. injection Hx as <-. reflexivity.
  - cbn in Hy, Hx |- *. eapply ewmQ_from_next; eassumption.
Qed.

End EwmFacts.

(** The exponential average has no warm-up: it has a value at every position
    and starts at the first observation; from there each value moves toward
    the new observation by the factor 2/(window+1), so the average never
    leaves the range of the data. *)
Theorem ema_has_no_warmup_and_stays_in_range
    (data : list pyobj) (qs : list Q) (window : Z) (lo hi : Q) :
  finite_numbers data qs -> (0 < window)%Z ->
  Forall (fun q => lo <= q <= hi) qs ->
  exists ys,
    calculate_exponential_moving_average data (PyInt window) = Ok (map Fin ys)
    /\ length ys = length data
    /\ ys !! 0%nat = qs !! 0%nat
    /\ (forall i y x,
          ys !! i = Some y -> qs !! S i = Some x ->
          ys !! S i
          = Some ((1 + - span_factor window) * y + span_factor window * x))
    /\ Forall (fun y => lo <= y <= hi) ys.
Proof.
  intros Hdata Hw Hrange. unfold calculate_exponential_moving_average.
  rewrite (finite_numbers_valid data qs Hdata). cbn [negb positive_int].
  destruct (window <=? 0)%Z eqn:E; [apply Z.leb_le in E; lia|].
  rewrite (finite_numbers_Series data qs Hdata), span_alpha_finite by assumption.
  rewrite ewm_mean_finite.
  exists (ewmQ (span_factor window) qs). split; [reflexivity|].
  split; [rewrite ewmQ_length; symmetry; eapply finite_numbers_length; eauto|].
  split; [destruct qs; reflexivity|].
  split; [intros i y x; apply ewmQ_next|].
  destruct (span_factor_unit window Hw).
  apply ewmQ_range; [lra|assumption|assumption].
Qed.

Lemma ema_has_no_warmup_and_stays_in_range_witness :
  exists ys,
    calculate_exponential_moving_average (map PyInt [4; 10; 7]%Z) (PyInt 3)
    = Ok (map Fin ys)
    /\ ys !! 0%nat = Some 4
    /\ Forall (fun y => 4 <= y <= 10) ys.
Proof.
  destruct (ema_has_no_warmup_and_stays_in_range
              (map PyInt [4; 10; 7]%Z) [4; 10; 7] 3 4 10)
    as (ys & Hcalc & _ & Hhead & _ & Hrange).
  - repeat constructor.
  - lia.
  - repeat constructor; vm_compute; discriminate.
  - exists ys. split; [exact Hcalc|]. split; [exact Hhead|exact Hrange].
Defined.

(** * MACD *)

Section MacdFacts.

Lemma calculate_macd_finite (data : list pyobj) (qs : list Q) (fast slow sig : Z) :
  finite_numbers data qs ->
  (0 < fast)%Z -> (fast < slow)%Z -> (0 < sig)%Z ->
  calculate_macd data (PyInt fast) (PyInt slow) (PyInt sig)
  = Ok (map Fin (macd_line_of fast slow qs),
        map Fin (signal_line_of fast slow sig qs),
        map Fin (histogram_of fast slow sig qs)).
Proof.
  intros Hdata Hf Hs Hg. unfold calculate_macd.
  rewrite (finite_numbers_valid data qs Hdata). cbn [negb positive_int].
  destruct (fast <=? 0)%Z eqn:E1; [apply Z.leb_le in E1; lia|].
  destruct (slow <=? 0)%Z eqn:E2; [apply Z.leb_le in E2; lia|].
  destruct (sig <=? 0)%Z eqn:E3; [apply Z.leb_le in E3; lia|].
  destruct (slow <=? fast)%Z eqn:E4; [apply Z.leb_le in E4; lia|].
  rewrite (finite_numbers_Series data qs Hdata).
  rewrite !span_alpha_finite by lia.
  rewrite !ewm_mean_finite, zip_sub_finite, ewm_mean_finite, zip_sub_finite.
  reflexivity.
Qed.

Lemma macd_line_length (fast slow : Z) (qs : list Q) :
  length (macd_line_of fast slow qs) = length qs.
Proof.
  unfold macd_line_of. rewrite length_zip_with, !ewmQ_length. lia.
Qed.

Lemma ewmQ_head (a : Q) (l : list Q) : ewmQ a l !! 0%nat = l !! 0%nat.
Proof. destruct l; reflexivity. Qed.

Lemma ewmQ_constant (a c : Q) (l : list Q) :
  0 <= a -> a <= 1 ->
  Forall (fun q => q == c) l -> Forall (fun y => y == c) (ewmQ a l).
Proof.
  intros Ha Ha' Hl.
  assert (Hr : Forall (fun y => c <= y <= c) (ewmQ a l)).
  { apply ewmQ_range; [assumption|assumption|].
    eapply Forall_impl; [exact Hl|]. intros q Hq. cbn in Hq. lra. }
  eapply Forall_impl; [exact Hr|]. intros y Hy. cbn in Hy. lra.
Qed.

Lemma constant_Forall (qs : list Q) :
  constant qs -> exists c, Forall (fun q => q == c) qs.
Proof.
  intros Hc. destruct qs as [|q qs]; [exists 0; constructor|].
  exists q. apply Forall_forall. intros x Hx.
  apply Hc; [apply list_elem_of_In; exact Hx|left; reflexivity].
Qed.

Lemma zip_diff_zero (a b : list Q) (c : Q) :
  Forall (fun q => q == c) a -> Forall (fun q => q == c) b ->
  Forall (fun d => d == 0) (zip_with (fun x y => x + - y) a b).
Proof.
  intros Ha Hb. apply Forall_lookup. intros i d Hd.
  apply lookup_zip_with_Some in Hd as (x & y & -> & Hx & Hy).
  pose proof (Forall_lookup_1 _ _ _ _ Ha Hx) as Hx'.
  pose proof (Forall_lookup_1 _ _ _ _ Hb Hy) as Hy'.
  cbn in Hx', Hy'. lra.
Qed.

End MacdFacts.

(** On valid periods the three MACD series are as long as the data and
    defined everywhere, the histogram is the MACD line minus the signal line
    at every position, and all three start at zero. *)
Theorem macd_shape_and_histogram
    (data : list pyobj) (qs : list Q) (fast slow sig : Z) :
  finite_numbers data qs ->
  (0 < fast)%Z -> (fast < slow)%Z -> (0 < sig)%Z ->
  exists ms ss hs,
    calculate_macd data (PyInt fast) (PyInt slow) (PyInt sig)
    = Ok (map Fin ms, map Fin ss, map Fin hs)
    /\ length ms = length data /\ length ss = length data
    /\ length hs = length data
    /\ (forall i m s h,
          ms !! i = Some m -> ss !! i = Some s -> hs !! i = Some h ->
          h == m - s)
    /\ (forall m s h,
          ms !! 0%nat = Some m -> ss !! 0%nat = Some s ->
          hs !! 0%nat = Some h ->
          m == 0 /\ s == 0 /\ h == 0).
Proof.
  intros Hdata Hf Hs Hg.
  rewrite (calculate_macd_finite data qs fast slow sig) by assumption.
  pose proof (finite_numbers_length data qs Hdata) as Hlen.
  do 3 eexists. split; [reflexivity|].
  assert (Lm : length (macd_line_of fast slow qs) = length data)
    by (rewrite macd_line_length; lia).
  assert (Ls : length (signal_line_of fast slow sig qs) = length data)
    by (unfold signal_line_of; rewrite ewmQ_length; exact Lm).
  split; [exact Lm|]. split; [exact Ls|].
  split; [unfold histogram_of; rewrite length_zip_with; lia|].
  assert (Hhist : forall i m s h,
    macd_line_of fast slow qs !! i = Some m ->
    signal_line_of fast slow sig qs !! i = Some s ->
    histogram_of fast slow sig qs !! i = Some h -> h == m - s).
  { intros i m s h Hm Hsg Hh. unfold histogram_of in Hh.
    apply lookup_zip_with_Some in Hh as (m' & s' & -> & Hm' & Hs').
    assert (m' = m) by congruence. assert (s' = s) by congruence. subst.
    reflexivity. }
  split; [exact Hhist|].
  intros m s h Hm Hsg Hh.
  assert (Hm0 : m == 0).
  { unfold macd_line_of in Hm.
    apply lookup_zip_with_Some in Hm as (f & sl & -> & Hfast & Hslow).
    rewrite ewmQ_head in Hfast, Hslow.
    assert (f = sl) by congruence. subst. lra. }
  assert (Hs0 : s == 0).
  { unfold signal_line_of in Hsg. rewrite ewmQ_head in Hsg.
    assert (s = m) by congruence. subst. exact Hm0. }
  split; [exact Hm0|]. split; [exact Hs0|].
  rewrite (Hhist 0%nat m s h Hm Hsg Hh). lra.
Qed.

Lemma macd_shape_and_histogram_witness :
  exists ms ss hs,
    calculate_macd (map PyInt [10; 13; 11]%Z) (PyInt 2) (PyInt 5) (PyInt 3)
    = Ok (map Fin ms, map Fin ss, map Fin hs)
    /\ length hs = 3%nat
    /\ exists m s h,
         ms !! 2%nat = Some m /\ ss !! 2%nat = Some s /\ hs !! 2%nat = Some h
         /\ h == m - s.
Proof.
  destruct (macd_shape_and_histogram (map PyInt [10; 13; 11]%Z) [10; 13; 11]
              2 5 3)
    as (ms & ss & hs & Hcalc & Lm & Ls & Lh & Hhist & _).
  - repeat constructor.
  - lia.
  - lia.
  - lia.
  - exists ms, ss, hs. split; [exact Hcalc|]. split; [exact Lh|].
    cbn [length map] in Lm, Ls, Lh.
    destruct (lookup_lt_is_Some_2 ms 2) as [m Hm]; [lia|].
    destruct (lookup_lt_is_Some_2 ss 2) as [s Hs]; [lia|].
    destruct (lookup_lt_is_Some_2 hs 2) as [h Hh]; [lia|].
    exists m, s, h. split; [exact Hm|]. split; [exact Hs|].
    split; [exact Hh|]. exact (Hhist 2%nat m s h Hm Hs Hh).
Defined.

(** A flat price series has no convergence or divergence to show: the MACD
    line, the signal line and the histogram are zero throughout. *)
Theorem macd_of_constant_series_is_zero
    (data : list pyobj) (qs : list Q) (fast slow sig : Z) :
  finite_numbers data qs -> constant qs ->
  (0 < fast)%Z -> (fast < slow)%Z -> (0 < sig)%Z ->
  exists ms ss hs,
    calculate_macd data (PyInt fast) (PyInt slow) (PyInt sig)
    = Ok (map Fin ms, map Fin ss, map Fin hs)
    /\ Forall (fun m => m == 0) ms
    /\ Forall (fun s => s == 0) ss
    /\ Forall (fun h => h == 0) hs.
Proof.
  intros Hdata Hflat Hf Hs Hg.
  rewrite (calculate_macd_finite data qs fast slow sig) by assumption.
  do 3 eexists. split; [reflexivity|].
  destruct (constant_Forall qs Hflat) as [c Hc].
  destruct (span_factor_unit fast) as [? ?]; [lia|].
  destruct (span_factor_unit slow) as [? ?]; [lia|].
  destruct (span_factor_unit sig) as [? ?]; [lia|].
  assert (Hm : Forall (fun m => m == 0) (macd_line_of fast slow qs)).
  { unfold macd_line_of. apply (zip_diff_zero _ _ c);
      apply ewmQ_constant; first [lra | assumption]. }
  assert (Hsg : Forall (fun s => s == 0) (signal_line_of fast slow sig qs)).
  { unfold signal_line_of. apply ewmQ_constant; first [lra | assumption]. }
  split; [exact Hm|]. split; [exact Hsg|].
  unfold histogram_of. apply (zip_diff_zero _ _ 0); assumption.
Qed.

Lemma macd_of_constant_series_is_zero_witness :
  exists ms ss hs,
    calculate_macd flat_prices (PyInt 12) (PyInt 26) (PyInt 9)
    = Ok (map Fin ms, map Fin ss, map Fin hs)
    /\ Forall (fun m => m == 0) ms
    /\ Forall (fun s => s == 0) ss
    /\ Forall (fun h => h == 0) hs.
Proof.
  apply (macd_of_constant_series_is_zero flat_prices [7; 7; 7; 7] 12 26 9).
  - repeat constructor.
  - intros a b Ha Hb. simpl in Ha, Hb.
    repeat (destruct Ha as [<-|Ha]); repeat (destruct Hb as [<-|Hb]);
      try reflexivity; contradiction.
  - lia.
  - lia.
  - lia.
Defined.

(** [calculate_macd] rejects a list with a non-number before it looks at the
    periods; on a list of numbers it raises ValueError exactly when some
    period is not positive or the slow period does not exceed the fast
    one. *)
Theorem macd_argument_checks
    (data : list pyobj) (fast slow sig : Z) :
  (all_numbers data = false ->
   calculate_macd data (PyInt fast) (PyInt slow) (PyInt sig) = Raise TypeError)
  /\ (all_numbers data = true ->
      (calculate_macd data (PyInt fast) (PyInt slow) (PyInt sig)
       = Raise ValueError
       <-> (fast <= 0 \/ slow <= 0 \/ sig <= 0 \/ slow <= fast)%Z)).
Proof.
  unfold calculate_macd. split; intros Hd; rewrite Hd; cbn [negb positive_int].
  - reflexivity.
  - destruct (fast <=? 0)%Z eqn:E1, (slow <=? 0)%Z eqn:E2,
      (sig <=? 0)%Z eqn:E3;
      try apply Z.leb_le in E1; try apply Z.leb_le in E2;
      try apply Z.leb_le in E3;
      try apply Z.leb_gt in E1; try apply Z.leb_gt in E2;
      try apply Z.leb_gt in E3;
      try (split; [intros _; lia|reflexivity]).
    destruct (slow <=? fast)%Z eqn:E4;
      [apply Z.leb_le in E4|apply Z.leb_gt in E4].
    + split; [intros _; lia|reflexivity].
    + split; [discriminate|lia].
Qed.

Lemma macd_argument_checks_witness :
  calculate_macd [PyInt 1; PyStr "b"] (PyInt 12) (PyInt 26) (PyInt 9)
  = Raise TypeError
  /\ calculate_macd rising_prices (PyInt 26) (PyInt 12) (PyInt 9)
     = Raise ValueError.
Proof.
  split.
  - apply (proj1 (macd_argument_checks [PyInt 1; PyStr "b"] 12 26 9)).
    reflexivity.
  - apply (proj2 (macd_argument_checks rising_prices 26 12 9));
      [reflexivity|]. right. right. right. lia.
Defined.

(** * The average true range *)

Section AtrFacts.

Lemma all_finite_map (l : list num) :
  Forall (fun x => exists q, x = Fin q) l -> l = map Fin (map to_Q l).
Proof.
  induction 1 as [|x l [q ->] _ IH]; cbn [map to_Q]; [reflexivity|].
  f_equal. exact IH.
Qed.

Lemma shift_length (s : list num) : length (shift s) = length s.
Proof.
  destruct s as [|x r]; [reflexivity|]. unfold shift.
  cbn [length]. rewrite removelast_firstn_len, length_firstn. cbn [length]. lia.
Qed.

Lemma shift_lookup_0 (s : list num) :
  s <> [] -> shift s !! 0%nat = Some NaN.
Proof. destruct s; [congruence|reflexivity]. Qed.

Lemma removelast_lookup {A : Type} (l : list A) (i : nat) :
  (S i < length l)%nat -> removelast l !! i = l !! i.
Proof.
  intros Hi. rewrite removelast_firstn_len. apply lookup_take_lt. lia.
Qed.

Lemma shift_lookup_S (s : list num) (i : nat) :
  (S i < length s)%nat -> shift s !! S i = s !! i.
Proof.
  intros Hi. destruct s as [|x r]; [cbn in Hi; lia|].
  unfold shift. cbn [lookup list_lookup]. apply removelast_lookup. exact Hi.
Qed.

Lemma true_range_length (hs ls cs : list num) :
  length hs = length ls -> length ls = length cs ->
  length (true_range hs ls cs) = length cs.
Proof.
  intros H1 H2. unfold true_range.
  rewrite !length_zip_with, !length_map, !length_zip_with, shift_length. lia.
Qed.

Lemma true_range_lookup (hs ls cs : list num) (i : nat) (h l p : num) :
  hs !! i = Some h -> ls !! i = Some l -> shift cs !! i = Some p ->
  true_range hs ls cs !! i
  = Some (row_max [(h - l)%num; Num.abs (h - p); Num.abs (l - p)]).
Proof.
  intros Hh Hl Hp. unfold true_range.
  assert (Hsub : forall (a b : list num) x y,
    a !! i = Some x -> b !! i = Some y ->
    zip_with Num.sub a b !! i = Some (x - y)%num).
  { intros a b x y Ha Hb. apply lookup_zip_with_Some. exists x, y. auto. }
  apply lookup_zip_with_Some.
  exists (h - l)%num, (Num.abs (h - p), Num.abs (l - p)).
  split; [reflexivity|]. split; [apply Hsub; assumption|].
  apply lookup_zip_with_Some. do 2 eexists. split; [reflexivity|].
  split; rewrite list_lookup_fmap;
    [rewrite (Hsub _ _ h p Hh Hp)|rewrite (Hsub _ _ l p Hl Hp)]; reflexivity.
Qed.

(** The largest of three finite numbers is finite and at least each. *)
Lemma row_max_three (a b c : Q) :
  exists m, row_max [Fin a; Fin b; Fin c] = Fin m
            /\ a <= m /\ b <= m /\ c <= m.
Proof.
  unfold row_max. cbn [List.filter Num.notna Num.isnan negb].
  destruct (largest_finite [a; b; c]) as (m & Hm & Hall); [discriminate|].
  exists m. split; [exact Hm|].
  inversion Hall as [|? ? Ha Hall']; subst.
  inversion Hall' as [|? ? Hb Hall'']; subst.
  inversion Hall'' as [|? ? Hc _]; subst. auto.
Qed.

Lemma true_range_finite (hs ls cs : list Q) :
  length hs = length ls -> length ls = length cs ->
  exists trs,
    true_range (map Fin hs) (map Fin ls) (map Fin cs) = map Fin trs
    /\ length trs = length cs
    /\ (forall h l, hs !! 0%nat = Some h -> ls !! 0%nat = Some l ->
        trs !! 0%nat = Some (h + - l))
    /\ (forall i t, trs !! S i = Some t -> 0 <= t)
    /\ (forall i t h l, trs !! i = Some t -> hs !! i = Some h ->
        ls !! i = Some l -> h - l <= t).
Proof.
  intros H1 H2.
  set (tr := true_range (map Fin hs) (map Fin ls) (map Fin cs)).
  assert (Hlen : length tr = length cs).
  { unfold tr. rewrite true_range_length by (rewrite !length_map; assumption).
    apply length_map. }
  assert (Hpoint : forall i x, tr !! i = Some x ->
    exists h l, hs !! i = Some h /\ ls !! i = Some l
      /\ ((i = 0%nat /\ x = Fin (h + - l))
          \/ (exists j q, i = S j /\ x = Fin q /\ 0 <= q /\ h - l <= q))).
  { intros i x Hx.
    assert (Hi : (i < length cs)%nat)
      by (rewrite <- Hlen; eapply lookup_lt_Some; eauto).
    destruct (lookup_lt_is_Some_2 hs i) as [h Hh]; [lia|].
    destruct (lookup_lt_is_Some_2 ls i) as [l Hl]; [lia|].
    exists h, l. split; [exact Hh|]. split; [exact Hl|].
    assert (Hh' : map Fin hs !! i = Some (Fin h))
      by (rewrite list_lookup_fmap, Hh; reflexivity).
    assert (Hl' : map Fin ls !! i = Some (Fin l))
      by (rewrite list_lookup_fmap, Hl; reflexivity).
    destruct i as [|j].
    - left. split; [reflexivity|].
      assert (Hp : shift (map Fin cs) !! 0%nat = Some NaN).
      { apply shift_lookup_0. destruct cs; [cbn in Hi; lia|discriminate]. }
      unfold tr in Hx.
      rewrite (true_range_lookup _ _ _ 0 _ _ _ Hh' Hl' Hp) in Hx.
      injection Hx as <-. reflexivity.
    - right.
      destruct (lookup_lt_is_Some_2 cs j) as [c Hc]; [lia|].
      assert (Hp : shift (map Fin cs) !! S j = Some (Fin c)).
      { rewrite shift_lookup_S by (rewrite length_map; lia).
        rewrite list_lookup_fmap, Hc. reflexivity. }
      unfold tr in Hx.
      rewrite (true_range_lookup _ _ _ (S j) _ _ _ Hh' Hl' Hp) in Hx.
      cbn [Num.sub Num.neg Num.add Num.abs] in Hx.
      destruct (row_max_three (h + - l) (Qabs (h + - c)) (Qabs (l + - c)))
        as (m & Hm & Ha & Hb & _).
      rewrite Hm in Hx. injection Hx as <-.
      exists j, m. split; [reflexivity|]. split; [reflexivity|].
      pose proof (Qabs_nonneg (h + - c)). split; lra. }
  assert (Hfin : Forall (fun x => exists q, x = Fin q) tr).
  { apply Forall_lookup. intros i x Hx.
    destruct (Hpoint i x Hx) as (h & l & _ & _ & [[_ ->]|(j & q & _ & -> & _)]);
      eauto. }
  exists (map to_Q tr). split; [apply all_finite_map; exact Hfin|].
  split; [rewrite length_map; exact Hlen|].
  split; [|split].
  - intros h l Hh Hl.
    assert (Hi : (0 < length tr)%nat)
      by (rewrite Hlen, <- H2, <- H1; eapply lookup_lt_Some; eauto).
    destruct (lookup_lt_is_Some_2 tr 0 Hi) as [x Hx].
    rewrite list_lookup_fmap, Hx.
    destruct (Hpoint 0%nat x Hx)
      as (h' & l' & Hh' & Hl' & [[_ ->]|(j & q & Hj & _)]); [|discriminate].
    assert (h' = h) by congruence. assert (l' = l) by congruence. subst.
    reflexivity.
  - intros i t Ht. rewrite list_lookup_fmap in Ht.
    destruct (tr !! S i) as [x|] eqn:Hx; [|discriminate].
    injection Ht as <-.
    destruct (Hpoint (S i) x Hx)
      as (h & l & _ & _ & [[Hz _]|(j & q & _ & -> & Hq & _)]); [discriminate|].
    exact Hq.
  - intros i t h l Ht Hh Hl. rewrite list_lookup_fmap in Ht.
    destruct (tr !! i) as [x|] eqn:Hx; [|discriminate].
    injection Ht as <-.
    destruct (Hpoint i x Hx)
      as (h' & l' & Hh' & Hl' & [[_ ->]|(j & q & _ & -> & _ & Hq)]);
      assert (h' = h) by congruence; assert (l' = l) by congruence; subst;
      cbn [to_Q]; lra.
Qed.

End AtrFacts.

Section AtrFacts2.

Lemma atr_factor (w : Z) :
  (0 < w)%Z ->
  (Fin 1 / Num.of_Z w)%num = Fin (1 / inject_Z w)
  /\ 0 <= 1 / inject_Z w /\ 1 / inject_Z w <= 1.
Proof.
  intros Hw. pose proof (inject_Z_ge1 w Hw). unfold Num.of_Z. cbn [Num.div].
  destruct (Qeq_bool (inject_Z w) 0) eqn:E; qprops; [lra|].
  split; [reflexivity|]. split.
  - apply Qle_shift_div_l; lra.
  - apply Qle_shift_div_r; lra.
Qed.

Lemma Forall_from_head_tail (P : Q -> Prop) (l : list Q) :
  (forall x, l !! 0%nat = Some x -> P x) ->
  (forall i x, l !! S i = Some x -> P x) ->
  Forall P l.
Proof.
  intros H0 HS. apply Forall_lookup. intros [|i] x Hx; eauto.
Qed.

End AtrFacts2.

(** The average true range has a value at every position and starts at the
    first period's high minus low; it is never negative provided that first
    high is not below the first low (every later true range is at least an
    absolute value). *)
Theorem atr_starts_at_first_range_and_is_nonnegative
    (high low close : list pyobj) (hs ls cs : list Q) (window : Z) :
  finite_numbers high hs -> finite_numbers low ls -> finite_numbers close cs ->
  length high = length low -> length low = length close ->
  (0 < window)%Z ->
  exists atr,
    calculate_average_true_range high low close (PyInt window)
    = Ok (map Fin atr)
    /\ length atr = length close
    /\ (forall h l, hs !! 0%nat = Some h -> ls !! 0%nat = Some l ->
        atr !! 0%nat = Some (h + - l))
    /\ ((forall h l, hs !! 0%nat = Some h -> ls !! 0%nat = Some l -> l <= h) ->
        Forall (fun a => 0 <= a) atr).
Proof.
  intros Hh Hl Hc Lhl Llc Hw. unfold calculate_average_true_range.
  cbn [forallb].
  rewrite (finite_numbers_valid _ _ Hh), (finite_numbers_valid _ _ Hl),
    (finite_numbers_valid _ _ Hc).
  cbn [andb negb].
  rewrite (proj2 (Nat.eqb_eq _ _) Lhl), (proj2 (Nat.eqb_eq _ _) Llc).
  cbn [negb orb positive_int].
  destruct (window <=? 0)%Z eqn:E; [apply Z.leb_le in E; lia|].
  rewrite (finite_numbers_Series _ _ Hh), (finite_numbers_Series _ _ Hl),
    (finite_numbers_Series _ _ Hc).
  pose proof (finite_numbers_length _ _ Hh) as Lh.
  pose proof (finite_numbers_length _ _ Hl) as Ll.
  pose proof (finite_numbers_length _ _ Hc) as Lc.
  destruct (true_range_finite hs ls cs) as (trs & -> & Ltr & H0 & Hpos & _);
    [lia|lia|].
  destruct (atr_factor window Hw) as (-> & Ha & Ha').
  rewrite ewm_mean_finite.
  eexists. split; [reflexivity|].
  split; [rewrite ewmQ_length; lia|]. split.
  - intros h l Hh0 Hl0. rewrite ewmQ_head. apply H0; assumption.
  - intros Hfirst. apply ewmQ_lower; [assumption|assumption|].
    apply Forall_from_head_tail.
    + intros x Hx.
      assert (Hi : (0 < length trs)%nat) by (eapply lookup_lt_Some; eauto).
      destruct (lookup_lt_is_Some_2 hs 0) as [h Hh0]; [lia|].
      destruct (lookup_lt_is_Some_2 ls 0) as [l Hl0]; [lia|].
      rewrite (H0 h l Hh0 Hl0) in Hx. injection Hx as <-.
      pose proof (Hfirst h l Hh0 Hl0). lra.
    + apply Hpos.
Qed.

Lemma atr_starts_at_first_range_and_is_nonnegative_witness :
  exists atr,
    calculate_average_true_range
      (map PyInt [12; 11; 15]%Z) (map PyInt [10; 12; 9]%Z)
      (map PyInt [11; 11; 14]%Z) (PyInt 14)
    = Ok (map Fin atr)
    /\ (exists a, atr !! 0%nat = Some a /\ a == 2)
    /\ Forall (fun a => 0 <= a) atr.
Proof.
  destruct (atr_starts_at_first_range_and_is_nonnegative
              (map PyInt [12; 11; 15]%Z) (map PyInt [10; 12; 9]%Z)
              (map PyInt [11; 11; 14]%Z)
              [12; 11; 15] [10; 12; 9] [11; 11; 14] 14)
    as (atr & Hcalc & _ & Hhead & Hpos);
    try (repeat constructor); try reflexivity.
  exists atr. split; [exact Hcalc|]. split.
  - eexists. split; [apply Hhead; reflexivity|]. vm_compute. reflexivity.
  - apply Hpos. intros h l Hh Hl. cbn in Hh, Hl.
    injection Hh as <-. injection Hl as <-. vm_compute. discriminate.
Defined.

(** * The RSI of a one-way series *)

Section RsiTrend.

Lemma avg_values (qs : list Q) (w i : nat) :
  (0 < w)%nat -> (w <= i)%nat -> (i < length qs)%nat ->
  exists g l,
    avg_gain (map Fin qs) w !! i = Some (Fin g)
    /\ avg_loss (map Fin qs) w !! i = Some (Fin l)
    /\ g == trailing_mean (map gain_part (deltas qs)) w (i - 1)
    /\ l == trailing_mean (map loss_part (deltas qs)) w (i - 1).
Proof.
  intros Hw Hi Hlen. destruct qs as [|q qs]; [cbn in Hlen; lia|].
  unfold avg_gain, avg_loss. rewrite diff_finite, gains_finite, losses_finite.
  cbn [length] in Hlen.
  unfold rolling_mean.
  rewrite !rolling_shift
    by (rewrite ?length_map, ?deltas_length; lia).
  destruct (rolling_mean_finite (map gain_part (deltas (q :: qs))) w (i - 1))
    as (g & Hg & Hge); [lia|lia|rewrite length_map, deltas_length; lia|].
  destruct (rolling_mean_finite (map loss_part (deltas (q :: qs))) w (i - 1))
    as (l & Hl & Hle); [lia|lia|rewrite length_map, deltas_length; lia|].
  unfold rolling_mean in Hg, Hl.
  exists g, l. auto.
Qed.

Lemma Qsum_pos (l : list Q) :
  l <> [] -> Forall (fun x => 0 < x) l -> 0 < Qsum l.
Proof.
  intros Hne Hl. destruct Hl as [|x l Hx Hl]; [congruence|].
  rewrite Qsum_cons.
  assert (0 <= Qsum l).
  { apply Qsum_nonneg. eapply Forall_impl; [exact Hl|]. cbn. intros; lra. }
  lra.
Qed.

Lemma trailing_mean_pos (l : list Q) (w i : nat) :
  (0 < w)%nat -> (w <= i + 1)%nat -> (i < length l)%nat ->
  Forall (fun x => 0 < x) l -> 0 < trailing_mean l w i.
Proof.
  intros Hw Hi Hlen Hl. unfold trailing_mean.
  apply Qlt_shift_div_l.
  - unfold Qlt. simpl. lia.
  - rewrite Qmult_0_l. apply Qsum_pos.
    + destruct w; [lia|discriminate].
    + apply Forall_forall. intros x Hx.
      apply list_elem_of_In, in_map_iff in Hx as (k & <- & Hk).
      apply in_seq in Hk.
      destruct (nth_lookup_or_length l (i + 1 - w + k) 0) as [Hn|Hn]; [|lia].
      eapply Forall_lookup_1 in Hn; [|exact Hl]. exact Hn.
Qed.

Lemma deltas_lookup (qs : list Q) (i : nat) (d : Q) :
  deltas qs !! i = Some d ->
  exists a b, qs !! i = Some a /\ qs !! S i = Some b /\ d = b + - a.
Proof.
  unfold deltas. intros Hd.
  apply lookup_zip_with_Some in Hd as (b & a & -> & Hb & Ha).
  exists a, b. split; [exact Ha|]. split; [|reflexivity].
  destruct qs as [|q r]; [discriminate|]. exact Hb.
Qed.

Lemma deltas_sign (P : Q -> Prop) (qs : list Q) :
  (forall i a b, qs !! i = Some a -> qs !! S i = Some b -> P (b + - a)) ->
  Forall P (deltas qs).
Proof.
  intros H. apply Forall_lookup. intros i d Hd.
  destruct (deltas_lookup qs i d Hd) as (a & b & Ha & Hb & ->). eauto.
Qed.

Lemma deltas_length' (qs : list Q) :
  length (deltas qs) = (length qs - 1)%nat.
Proof.
  destruct qs as [|q qs]; [reflexivity|]. rewrite deltas_length. cbn. lia.
Qed.

Lemma rsi_point_no_gain (g l : Q) :
  g == 0 -> 0 < l -> exists v, rsi_point (Fin g) (Fin l) = Fin v /\ v == 0.
Proof.
  intros Hg Hl. unfold rsi_point, Num.gtb. cbn [Num.eqb Num.ltb Num.div].
  destruct (Qeq_bool l 0) eqn:El; qprops; [lra|].
  rewrite !andb_false_r, andb_false_l. cbn [negb].
  cbn [Num.add Num.sub Num.neg Num.div].
  assert (Hq : g / l == 0) by (rewrite Hg; field; lra).
  destruct (Qeq_bool (1 + g / l) 0) eqn:E1; qprops; [lra|].
  cbn [Num.add Num.neg]. eexists. split; [reflexivity|].
  rewrite Hq. field.
Qed.

End RsiTrend.

(** On a series that rises at every step the RSI is 100 at every defined
    position, and on one that falls at every step it is 0. *)
Theorem rsi_of_one_way_series
    (data : list pyobj) (qs : list Q) (window : Z) :
  finite_numbers data qs -> (0 < window)%Z ->
  (window <= Z.of_nat (length data))%Z ->
  exists out,
    calculate_rsi data (PyInt window) = Ok out
    /\ (increasing qs ->
        forall i, (window <= Z.of_nat i)%Z -> (i < length data)%nat ->
                  out !! i = Some (Fin 100))
    /\ (decreasing qs ->
        forall i, (window <= Z.of_nat i)%Z -> (i < length data)%nat ->
                  exists v, out !! i = Some (Fin v) /\ v == 0).
Proof.
  intros Hdata Hw Hlong.
  rewrite (calculate_rsi_unfold data window
             (finite_numbers_valid data qs Hdata) Hw).
  pose proof (finite_numbers_length data qs Hdata) as Hlen.
  rewrite (finite_numbers_Series data qs Hdata).
  destruct (Z.of_nat (length data) <? window)%Z eqn:E;
    [apply Z.ltb_lt in E; lia|].
  eexists. split; [reflexivity|].
  set (w := Z.to_nat window).
  assert (Hpoint : forall i, (window <= Z.of_nat i)%Z -> (i < length data)%nat ->
    exists g l,
      rsi_of (avg_gain (map Fin qs) w) (avg_loss (map Fin qs) w) !! i
      = Some (rsi_point (Fin g) (Fin l))
      /\ g == trailing_mean (map gain_part (deltas qs)) w (i - 1)
      /\ l == trailing_mean (map loss_part (deltas qs)) w (i - 1)).
  { intros i Hi Hi'.
    destruct (avg_values qs w i) as (g & l & Hg & Hl & Hge & Hle);
      [lia|lia|lia|].
    exists g, l. split; [apply rsi_of_lookup; assumption|]. auto. }
  split.
  - intros Hup i Hi Hi'.
    destruct (Hpoint i Hi Hi') as (g & l & -> & Hg & Hl).
    rewrite rsi_point_no_loss; [reflexivity| |].
    + rewrite Hl. apply trailing_mean_zero; [lia|].
      apply Forall_map. apply deltas_sign. intros j a b Ha Hb.
      pose proof (Hup j a b Ha Hb). cbn. unfold loss_part. qsplit; lra.
    + rewrite Hg. apply trailing_mean_pos;
        [lia|lia|rewrite length_map, deltas_length'; lia|].
      apply Forall_map. apply deltas_sign. intros j a b Ha Hb.
      pose proof (Hup j a b Ha Hb). cbn. unfold gain_part. qsplit; lra.
  - intros Hdown i Hi Hi'.
    destruct (Hpoint i Hi Hi') as (g & l & -> & Hg & Hl).
    destruct (rsi_point_no_gain g l) as (v & -> & Hv).
    + rewrite Hg. apply trailing_mean_zero; [lia|].
      apply Forall_map. apply deltas_sign. intros j a b Ha Hb.
      pose proof (Hdown j a b Ha Hb). cbn. unfold gain_part. qsplit; lra.
    + rewrite Hl. apply trailing_mean_pos;
        [lia|lia|rewrite length_map, deltas_length'; lia|].
      apply Forall_map. apply deltas_sign. intros j a b Ha Hb.
      pose proof (Hdown j a b Ha Hb). cbn. unfold loss_part. qsplit; lra.
    + exists v. split; [reflexivity|exact Hv].
Qed.

Lemma rsi_of_one_way_series_witness :
  (exists out,
     calculate_rsi rising_prices (PyInt 2) = Ok out
     /\ out !! 2%nat = Some (Fin 100))
  /\ (exists out v,
        calculate_rsi (map PyInt [9; 5; 2]%Z) (PyInt 2) = Ok out
        /\ out !! 2%nat = Some (Fin v) /\ v == 0).
Proof.
  split.
  - destruct (rsi_of_one_way_series rising_prices [1; 2; 3] 2)
      as (out & Hcalc & Hup & _); [repeat constructor|lia|cbn; lia|].
    exists out. split; [exact Hcalc|]. apply Hup; [|cbn; lia|cbn; lia].
    intros [|[|[|i]]] a b Ha Hb; cbn in Ha, Hb; try discriminate;
      injection Ha as <-; injection Hb as <-; reflexivity.
  - destruct (rsi_of_one_way_series (map PyInt [9; 5; 2]%Z) [9; 5; 2] 2)
      as (out & Hcalc & _ & Hdown); [repeat constructor|lia|cbn; lia|].
    destruct (Hdown) with (i := 2%nat) as (v & Hv & Hz); [|cbn; lia|cbn; lia|].
    + intros [|[|[|i]]] a b Ha Hb; cbn in Ha, Hb; try discriminate;
        injection Ha as <-; injection Hb as <-; reflexivity.
    + exists out, v. auto.
Defined.

(** * The Bollinger bands around the middle band *)

Section BandFacts.

Lemma squares_finite (m : Q) (l : list Q) :
  map (fun x => ((x - Fin m) * (x - Fin m))%num) (map Fin l)
  = map Fin (map (fun q => (q + - m) * (q + - m)) l).
Proof. rewrite !map_map. reflexivity. Qed.

Lemma var_finite_or_nan (l : list Q) :
  var (map Fin l) = NaN \/ exists v, var (map Fin l) = Fin v.
Proof.
  unfold var. rewrite length_map.
  destruct (length l <=? 1)%nat eqn:E; [left; reflexivity|].
  apply Nat.leb_gt in E. right.
  rewrite mean_finite by (destruct l; [cbn in E; lia|discriminate]).
  rewrite squares_finite. unfold total, Num.of_Z.
  rewrite total_finite_from. cbn [Num.div].
  destruct (Qeq_bool _ 0) eqn:E0.
  - apply Qeq_bool_iff in E0. unfold Qeq in E0. simpl in E0. lia.
  - eexists. reflexivity.
Qed.

Lemma std_finite_or_nan (sqrtQ : Q -> Q) (l : list Q) :
  (forall q, 0 <= q -> 0 <= sqrtQ q) ->
  num_sqrt sqrtQ (var (map Fin l)) = NaN
  \/ exists s, num_sqrt sqrtQ (var (map Fin l)) = Fin s /\ 0 <= s.
Proof.
  intros Hs. destruct (var_finite_or_nan l) as [->|[v ->]]; [left; reflexivity|].
  cbn [num_sqrt]. destruct (Num.Qlt_bool v 0) eqn:E; qprops; [left; reflexivity|].
  right. eexists. split; [reflexivity|]. apply Hs. lra.
Qed.

Lemma rolling_std_finite_or_nan (sqrtQ : Q -> Q) (qs : list Q) (w i : nat) (s : num) :
  (forall q, 0 <= q -> 0 <= sqrtQ q) ->
  rolling_std sqrtQ w (map Fin qs) !! i = Some s ->
  s = NaN \/ exists q, s = Fin q /\ 0 <= q.
Proof.
  intros Hs Hi. unfold rolling_std in Hi.
  assert (Hlt : (i < length (map Fin qs))%nat).
  { apply lookup_lt_Some in Hi. rewrite rolling_length in Hi. exact Hi. }
  rewrite rolling_lookup in Hi by exact Hlt. cbn zeta in Hi.
  rewrite window_at_finite, filter_notna_finite in Hi.
  destruct (w <=? _)%nat; injection Hi as <-; [|left; reflexivity].
  apply std_finite_or_nan. exact Hs.
Qed.

Lemma multiplier_cases (k : num) :
  (k <=? Fin 0)%num = false ->
  k = NaN \/ k = PInf \/ exists q, k = Fin q /\ 0 < q.
Proof.
  destruct k as [q| | |]; cbn; intros H; try discriminate; auto.
  right. right. exists q. split; [reflexivity|]. qprops. lra.
Qed.

Lemma band_order (a s : Q) (k : num) :
  0 <= s -> (k <=? Fin 0)%num = false ->
  (Fin a + Fin s * k)%num <> NaN ->
  ((Fin a - Fin s * k <=? Fin a)%num = true
   /\ (Fin a <=? Fin a + Fin s * k)%num = true).
Proof.
  intros Hs Hk Hu.
  destruct (multiplier_cases k Hk) as [->|[->|(q & -> & Hq)]].
  - cbn in Hu. congruence.
  - cbn [Num.mul] in *. destruct (s ?= 0) eqn:E; cbn in *.
    + congruence.
    + apply Qlt_alt in E. lra.
    + auto.
  - cbn. assert (0 <= s * q) by (apply Qmult_le_0_compat; lra).
    split; apply Qle_bool_iff; lra.
Qed.

End BandFacts.

(** For valid arguments the bands are returned, and wherever the upper
    Bollinger band is defined the lower band is at or below the middle band
    and the middle band at or below the upper one (the multiplier may be any
    accepted number, an infinite one included). *)
Theorem bollinger_bands_enclose_middle
    (sqrtQ : Q -> Q) (data : list pyobj) (qs : list Q)
    (window : Z) (num_std_dev : pyobj) :
  (forall q, 0 <= q -> 0 <= sqrtQ q) ->
  finite_numbers data qs -> (0 < window)%Z ->
  is_number num_std_dev = true ->
  (num_of num_std_dev <=? Fin 0)%num = false ->
  exists upper middle lower,
    calculate_bollinger_bands sqrtQ data (PyInt window) num_std_dev
    = Ok (upper, middle, lower)
    /\ forall i u m l,
         upper !! i = Some u -> middle !! i = Some m -> lower !! i = Some l ->
         u <> NaN ->
         (l <=? m)%num = true /\ (m <=? u)%num = true.
Proof.
  intros Hs Hdata Hw Hnum Ek. unfold calculate_bollinger_bands.
  rewrite (finite_numbers_valid data qs Hdata). cbn [negb positive_int].
  destruct (window <=? 0)%Z eqn:E; [apply Z.leb_le in E; lia|].
  rewrite Hnum, Ek. cbn [negb orb].
  rewrite (finite_numbers_Series data qs Hdata).
  do 3 eexists. split; [reflexivity|].
  intros i u m l Hu Hm Hl Hdu.
  apply lookup_zip_with_Some in Hu as (m1 & wd1 & -> & Hm1 & Hwd1).
  apply lookup_zip_with_Some in Hl as (m2 & wd2 & -> & Hm2 & Hwd2).
  assert (m1 = m) by congruence. assert (m2 = m) by congruence.
  assert (wd2 = wd1) by congruence. subst m1 m2 wd2.
  rewrite list_lookup_fmap in Hwd1.
  destruct (rolling_std _ _ _ !! i) as [s|] eqn:Es; [|discriminate].
  injection Hwd1 as <-.
  assert (Hw' : (0 < Z.to_nat window)%nat) by lia.
  destruct (rolling_mean_finite_or_nan qs (Z.to_nat window) i m Hw' Hm)
    as [->|[a ->]]; [cbn in Hdu; congruence|].
  destruct (rolling_std_finite_or_nan sqrtQ qs (Z.to_nat window) i s Hs Es)
    as [->|(q & -> & Hq)]; [cbn in Hdu; congruence|].
  apply band_order; assumption.
Qed.

Lemma bollinger_bands_enclose_middle_witness :
  exists upper middle lower u m l,
    calculate_bollinger_bands sqrt_of_squares (map PyInt [1; 2; 3; 7]%Z)
      (PyInt 3) (PyInt 2)
    = Ok (upper, middle, lower)
    /\ upper !! 2%nat = Some u /\ middle !! 2%nat = Some m
    /\ lower !! 2%nat = Some l
    /\ (l <=? m)%num = true /\ (m <=? u)%num = true.
Proof.
  destruct (bollinger_bands_enclose_middle sqrt_of_squares
              (map PyInt [1; 2; 3; 7]%Z) [1; 2; 3; 7] 3 (PyInt 2))
    as (upper & middle & lower & Hc & Horder).
  - intros q _. unfold sqrt_of_squares, Qle. simpl.
    pose proof (Z.sqrt_nonneg (Qnum q)). lia.
  - repeat constructor.
  - lia.
  - reflexivity.
  - reflexivity.
  - exists upper, middle, lower.
    pose proof Hc as Hv. vm_compute in Hv. injection Hv as <- <- <-.
    do 3 eexists. split; [exact Hc|].
    split; [reflexivity|]. split; [reflexivity|]. split; [reflexivity|].
    apply (Horder 2%nat); try reflexivity. discriminate.
Defined.

(** With a window of one period the sample deviation of a single
    observation is undefined: the middle band repeats the data and the
    upper and lower bands are undefined at every position. *)
Theorem bollinger_window_of_one
    (sqrtQ : Q -> Q) (data : list pyobj) (qs : list Q) (num_std_dev : pyobj) :
  finite_numbers data qs ->
  is_number num_std_dev = true ->
  (num_of num_std_dev <=? Fin 0)%num = false ->
  exists upper middle lower,
    calculate_bollinger_bands sqrtQ data (PyInt 1) num_std_dev
    = Ok (upper, middle, lower)
    /\ forall i q, qs !! i = Some q ->
         upper !! i = Some NaN /\ lower !! i = Some NaN
         /\ exists m, middle !! i = Some (Fin m) /\ m == q.
Proof.
  intros Hdata Hnum Hpos. unfold calculate_bollinger_bands.
  rewrite (finite_numbers_valid data qs Hdata). cbn [negb positive_int].
  cbn [Z.leb Z.compare]. rewrite Hnum, Hpos. cbn [negb orb].
  do 3 eexists. split; [reflexivity|].
  rewrite (finite_numbers_Series data qs Hdata).
  intros i q Hq.
  assert (Hi : (i < length qs)%nat) by (eapply lookup_lt_Some; eauto).
  change (Z.to_nat 1) with 1%nat.
  destruct (rolling_mean_finite qs 1 i) as (m & Hm & Hmq); [lia|lia|exact Hi|].
  assert (Hstd : rolling_std sqrtQ 1 (map Fin qs) !! i = Some NaN).
  { unfold rolling_std. rewrite rolling_lookup by (rewrite length_map; exact Hi).
    cbn zeta. rewrite window_at_finite, filter_notna_finite.
    destruct (1 <=? _)%nat; [|reflexivity].
    unfold var. rewrite !length_map, length_skipn, length_firstn.
    destruct (_ <=? 1)%nat eqn:E; [reflexivity|].
    apply Nat.leb_gt in E. lia. }
  rewrite !lookup_zip_with, list_lookup_fmap, Hm, Hstd. cbn.
  split; [reflexivity|]. split; [reflexivity|].
  exists m. split; [reflexivity|].
  rewrite Hmq. unfold trailing_mean. cbn.
  replace (i + 1 - 1 + 0)%nat with i by lia.
  rewrite (nth_lookup_Some _ _ _ _ Hq). field.
Qed.

Lemma bollinger_window_of_one_witness :
  exists upper middle lower,
    calculate_bollinger_bands sqrt_of_squares price_example (PyInt 1) (PyInt 2)
    = Ok (upper, middle, lower)
    /\ upper !! 3%nat = Some NaN /\ lower !! 3%nat = Some NaN
    /\ exists m, middle !! 3%nat = Some (Fin m) /\ m == 103.
Proof.
  destruct (bollinger_window_of_one sqrt_of_squares price_example
              [100; 102; 105; 103; 106] (PyInt 2))
    as (upper & middle & lower & Hcalc & Hat).
  - repeat constructor.
  - reflexivity.
  - reflexivity.
  - exists upper, middle, lower. split; [exact Hcalc|].
    apply (Hat 3%nat 103). reflexivity.
Defined.

(** * The smoothed line of the stochastic oscillator *)

Section SmoothingFacts.

(** The observations of a list whose entries are undefined or finite. *)
Lemma observations_finite (l : list num) :
  Forall (fun x => x = NaN \/ exists q, x = Fin q) l ->
  exists qs, List.filter Num.notna l = map Fin qs.
Proof.
  induction 1 as [|x l [->|(q & ->)] _ (qs & IH)].
  - exists []. reflexivity.
  - exists qs. exact IH.
  - exists (q :: qs). cbn. rewrite IH. reflexivity.
Qed.

Lemma window_at_Forall (P : num -> Prop) (s : list num) (w i : nat) :
  (forall j x, (j <= i)%nat -> s !! j = Some x -> P x) ->
  Forall P (window_at s w i).
Proof.
  intros H. unfold window_at. apply Forall_lookup. intros j x Hx.
  rewrite lookup_drop in Hx.
  destruct (decide (i + 1 - w + j < i + 1)%nat) as [Hlt|Hge].
  - rewrite lookup_take_lt in Hx by exact Hlt. eapply H; [|exact Hx]. lia.
  - rewrite lookup_take_ge in Hx by lia. discriminate.
Qed.

Lemma window_at_current (s : list num) (w i : nat) (x : num) :
  (0 < w)%nat -> s !! i = Some x -> In x (window_at s w i).
Proof.
  intros Hw Hx. unfold window_at. apply list_elem_of_In.
  apply (list_elem_of_lookup_2 _ (i - (i + 1 - w))).
  rewrite lookup_drop, lookup_take_lt by lia.
  replace (i + 1 - w + (i - (i + 1 - w)))%nat with i by lia. exact Hx.
Qed.

Lemma filter_all_nan (l : list num) :
  Forall (fun x => x = NaN) l -> List.filter Num.notna l = [].
Proof. induction 1 as [|x l -> _ IH]; [reflexivity|exact IH]. Qed.

(** A window of one position holds the current entry only. *)
Lemma window_at_one (s : list num) (i : nat) (x : num) :
  s !! i = Some x -> window_at s 1 i = [x].
Proof.
  intros Hx. unfold window_at.
  replace (i + 1 - 1)%nat with i by lia.
  apply list_eq. intros [|j].
  - rewrite lookup_drop, Nat.add_0_r, lookup_take_lt by lia. exact Hx.
  - rewrite lookup_drop, lookup_take_ge by lia. reflexivity.
Qed.

Lemma percent_k_point_finite (c ll hh : Q) :
  exists q, percent_k_point (Fin c) (Fin ll) (Fin hh) = Fin q.
Proof.
  unfold percent_k_point, Num.neqb.
  cbn [Num.sub Num.neg Num.add Num.eqb Num.mul].
  destruct (Qeq_bool (hh + - ll) 0) eqn:E; cbn [negb]; [eauto|].
  cbn [Num.div]. rewrite E. eauto.
Qed.

End SmoothingFacts.

(** The smoothing of the stochastic oscillator adds no warm-up of its own:
    for finite prices, %K and %D are both undefined at the first window-1
    positions and both have a value at every later position, whatever the
    smoothing length; and with a smoothing length of 1, %D repeats %K. *)
Theorem stochastic_percent_d_warmup
    (high low close : list pyobj) (hs ls cs : list Q) (window k_smoothing : Z) :
  finite_numbers high hs -> finite_numbers low ls -> finite_numbers close cs ->
  length high = length low -> length low = length close ->
  (0 < window)%Z -> (0 < k_smoothing)%Z ->
  exists percent_k percent_d,
    calculate_stochastic_oscillator high low close
      (PyInt window) (PyInt k_smoothing)
    = Ok (percent_k, percent_d)
    /\ length percent_k = length close
    /\ length percent_d = length close
    /\ (forall i, (i < length close)%nat -> (Z.of_nat i < window - 1)%Z ->
          percent_k !! i = Some NaN /\ percent_d !! i = Some NaN)
    /\ (forall i, (i < length close)%nat -> (window - 1 <= Z.of_nat i)%Z ->
          (exists k, percent_k !! i = Some (Fin k))
          /\ exists d, percent_d !! i = Some (Fin d))
    /\ (k_smoothing = 1%Z ->
        forall i k d, percent_k !! i = Some k -> percent_d !! i = Some d ->
                      Num.same d k).
Proof.
  intros Hhigh Hlow Hclose Hhl Hlc Hw Hk.
  rewrite (stochastic_unfold high low close window k_smoothing)
    by eauto using finite_numbers_valid.
  do 2 eexists. split; [reflexivity|].
  pose proof (finite_numbers_length _ _ Hhigh) as Lh.
  pose proof (finite_numbers_length _ _ Hlow) as Ll.
  pose proof (finite_numbers_length _ _ Hclose) as Lc.
  rewrite (finite_numbers_Series _ _ Hhigh), (finite_numbers_Series _ _ Hlow),
    (finite_numbers_Series _ _ Hclose).
  set (w := Z.to_nat window). set (k := Z.to_nat k_smoothing).
  set (pk := percent_k_of (map Fin cs) (rolling_min w (map Fin ls))
               (rolling_max w (map Fin hs))).
  assert (Hlen : length pk = length close).
  { unfold pk. rewrite percent_k_of_length; unfold rolling_min, rolling_max;
      rewrite ?rolling_length, ?length_map; lia. }
  assert (Hearly : forall j, (j < length close)%nat -> (j + 1 < w)%nat ->
                             pk !! j = Some NaN).
  { intros j Hjl Hj.
    destruct (lookup_lt_is_Some_2 cs j ltac:(lia)) as [c Hc].
    assert (Hcs : map Fin cs !! j = Some (Fin c))
      by (rewrite list_lookup_fmap, Hc; reflexivity).
    assert (Hmin : rolling_min w (map Fin ls) !! j = Some NaN)
      by (apply rolling_warmup; rewrite ?length_map; lia).
    assert (Hmax : rolling_max w (map Fin hs) !! j = Some NaN)
      by (apply rolling_warmup; rewrite ?length_map; lia).
    unfold pk. rewrite (percent_k_of_lookup _ _ _ j _ _ _ Hcs Hmin Hmax).
    reflexivity. }
  assert (Hlate : forall j, (j < length close)%nat -> (w <= j + 1)%nat ->
                            exists q, pk !! j = Some (Fin q)).
  { intros j Hjl Hj.
    destruct (lookup_lt_is_Some_2 cs j ltac:(lia)) as [c Hc].
    destruct (lookup_lt_is_Some_2 ls j ltac:(lia)) as [lo Hlo].
    destruct (lookup_lt_is_Some_2 hs j ltac:(lia)) as [hi Hhi].
    assert (Hcs : map Fin cs !! j = Some (Fin c))
      by (rewrite list_lookup_fmap, Hc; reflexivity).
    destruct (rolling_min_finite ls w j lo) as (ll & Hll & _);
      [lia|assumption|assumption|].
    destruct (rolling_max_finite hs w j hi) as (hh & Hhh & _);
      [lia|assumption|assumption|].
    destruct (percent_k_point_finite c ll hh) as [q Hq].
    exists q. unfold pk.
    rewrite (percent_k_of_lookup _ _ _ j _ _ _ Hcs Hll Hhh), Hq.
    reflexivity. }
  split; [exact Hlen|].
  split; [rewrite rolling_length; exact Hlen|].
  split; [|split].
  - intros i Hi Hearly_i. split; [apply Hearly; lia|].
    rewrite rolling_lookup by lia. cbn zeta.
    rewrite filter_all_nan; [reflexivity|].
    apply window_at_Forall. intros j x Hj Hx.
    rewrite Hearly in Hx by lia. congruence.
  - intros i Hi Hlate_i. split; [apply Hlate; lia|].
    rewrite rolling_lookup by lia. cbn zeta.
    destruct (Hlate i Hi ltac:(lia)) as [q Hq].
    destruct (observations_finite (window_at pk k i)) as (obs & Hobs).
    { apply window_at_Forall. intros j y Hj Hy.
      destruct (le_lt_dec w (j + 1)) as [Hfull|Hshort].
      - right. destruct (Hlate j ltac:(lia) Hfull) as [q' Hq'].
        exists q'. congruence.
      - left. rewrite Hearly in Hy by lia. congruence. }
    assert (Hne : obs <> []).
    { intros ->.
      pose proof (window_at_current pk k i (Fin q) ltac:(lia) Hq) as Hin.
      assert (Hin' : In (Fin q) (List.filter Num.notna (window_at pk k i)))
        by (apply filter_In; split; [exact Hin|reflexivity]).
      rewrite Hobs in Hin'. exact Hin'. }
    rewrite Hobs, length_map.
    destruct (1 <=? length obs)%nat eqn:E.
    + rewrite mean_finite by exact Hne. eauto.
    + apply Nat.leb_gt in E. destruct obs; [congruence|cbn in E; lia].
  - intros Hone i kv d Hkv Hd.
    assert (Hi : (i < length pk)%nat) by (eapply lookup_lt_Some; eauto).
    rewrite rolling_lookup in Hd by exact Hi. cbn zeta in Hd.
    unfold k in Hd. rewrite Hone in Hd. change (Z.to_nat 1) with 1%nat in Hd.
    rewrite (window_at_one pk i kv Hkv) in Hd.
    destruct kv as [q| | |]; cbn in Hd; injection Hd as <-; cbn;
      try exact I.
    field.
Qed.

Lemma stochastic_percent_d_warmup_witness :
  exists percent_k percent_d,
    calculate_stochastic_oscillator
      (map PyInt [10; 12; 11]%Z) (map PyInt [8; 9; 7]%Z)
      (map PyInt [9; 12; 8]%Z) (PyInt 2) (PyInt 3)
    = Ok (percent_k, percent_d)
    /\ percent_d !! 0%nat = Some NaN
    /\ exists d, percent_d !! 1%nat = Some (Fin d).
Proof.
  destruct (stochastic_percent_d_warmup
              (map PyInt [10; 12; 11]%Z) (map PyInt [8; 9; 7]%Z)
              (map PyInt [9; 12; 8]%Z) [10; 12; 11] [8; 9; 7] [9; 12; 8] 2 3)
    as (pk & pd & Hcalc & _ & _ & Hearly & Hlate & _).
  - repeat constructor.
  - repeat constructor.
  - repeat constructor.
  - reflexivity.
  - reflexivity.
  - lia.
  - lia.
  - exists pk, pd. split; [exact Hcalc|]. split.
    + apply Hearly; cbn; lia.
    + apply Hlate; cbn; lia.
Defined.

(** * The on-balance volume step by step, and the argument checks *)

Section ObvRecurrence.

Variables close volume : list pyobj.

Lemma obv_step_update (obv : list num) (i : nat) :
  obv_step close volume obv i
  = <[i := obv_update close volume (default NaN (obv !! (i - 1)%nat)) i]> obv.
Proof.
  unfold obv_step, obv_update.
  destruct (_ >? _)%num; [reflexivity|]. destruct (_ <? _)%num; reflexivity.
Qed.

Lemma obv_step_rec (a : nat) (obv : list num) :
  (1 <= a < length obv)%nat -> obv_rec close volume a obv ->
  obv_rec close volume (S a) (obv_step close volume obv a).
Proof.
  intros Ha Hrec i Hi. rewrite obv_step_update.
  destruct (decide (i = a)) as [->|Hne].
  - destruct (lookup_lt_is_Some_2 obv (a - 1)) as [prev Hprev]; [lia|].
    exists prev. rewrite list_lookup_insert_ne by lia.
    split; [exact Hprev|].
    rewrite list_lookup_insert_eq by lia. rewrite Hprev. reflexivity.
  - destruct (Hrec i ltac:(lia)) as (prev & Hprev & Hcur).
    exists prev. rewrite !list_lookup_insert_ne by lia. auto.
Qed.

Lemma obv_loop_rec (c a : nat) (obv : list num) :
  (1 <= a)%nat -> (a + c <= length obv)%nat ->
  obv_rec close volume a obv ->
  obv_rec close volume (a + c) (fold_left (obv_step close volume) (seq a c) obv)
  /\ length (fold_left (obv_step close volume) (seq a c) obv) = length obv.
Proof.
  revert a obv. induction c as [|c IH]; intros a obv Ha Hlen Hrec.
  - rewrite Nat.add_0_r. auto.
  - cbn [seq fold_left].
    assert (Hl : length (obv_step close volume obv a) = length obv)
      by (rewrite obv_step_update; apply length_insert).
    destruct (IH (S a) (obv_step close volume obv a)) as [H1 H2].
    + lia.
    + lia.
    + apply obv_step_rec; [lia|exact Hrec].
    + replace (a + S c)%nat with (S a + c)%nat by lia.
      split; [exact H1|]. lia.
Qed.

End ObvRecurrence.

(** For equal-length lists of numbers on-balance volume is returned, as long
    as the closes, and it is a running total that starts from the value
    before: at every position after the first it is the previous value plus
    the period's volume when the close rose, minus it when the close fell,
    and the previous value itself when the close did not move. *)
Theorem obv_follows_price_direction (close volume : list pyobj) :
  all_numbers close = true -> all_numbers volume = true ->
  length close = length volume ->
  exists obv,
    calculate_on_balance_volume close volume = Ok obv
    /\ length obv = length close
    /\ forall i, (1 <= i < length close)%nat ->
         exists prev,
           obv !! (i - 1)%nat = Some prev
           /\ obv !! i = Some (obv_update close volume prev i).
Proof.
  intros Hc Hv Hlen. unfold calculate_on_balance_volume.
  rewrite Hc, Hv. cbn [negb].
  rewrite (proj2 (Nat.eqb_eq _ _) Hlen). cbn [negb].
  eexists. split; [reflexivity|].
  destruct (length close) as [|n] eqn:En.
  - cbn. split; [reflexivity|]. intros i Hi. lia.
  - destruct (obv_loop_rec close volume (S n - 1) 1
                (replicate (S n) (Fin 0))) as [Hrec Hl].
    + lia.
    + rewrite length_replicate. lia.
    + intros i Hi. lia.
    + rewrite length_replicate in Hl. split; [exact Hl|].
      intros i Hi. apply Hrec. lia.
Qed.

Lemma obv_follows_price_direction_witness :
  exists obv,
    calculate_on_balance_volume close_example volume_example = Ok obv
    /\ obv !! 2%nat = Some (Fin 5000)
    /\ obv !! 3%nat = Some (Fin (5000 + - 4000)).
Proof.
  destruct (obv_follows_price_direction close_example volume_example)
    as (obv & Hc & _ & Hrec); [reflexivity|reflexivity|reflexivity|].
  exists obv. split; [exact Hc|].
  destruct (Hrec 3%nat) as (prev & Hprev & Hcur); [cbn; lia|].
  vm_compute in Hc. injection Hc as <-.
  split; [reflexivity|].
  cbn in Hprev. injection Hprev as <-. exact Hcur.
Defined.

(** The argument checks shared by the single-series indicators: a list
    holding anything but numbers is a TypeError whatever the window, and on
    a list of numbers a window that is not a positive integer (zero, a
    negative integer, a float, a string, None) is a ValueError. *)
Theorem single_series_argument_checks
    (sqrtQ : Q -> Q) (data : list pyobj) (window num_std_dev : pyobj) :
  (all_numbers data = false ->
     calculate_moving_average data window = Raise TypeError
     /\ calculate_exponential_moving_average data window = Raise TypeError
     /\ calculate_rsi data window = Raise TypeError
     /\ calculate_bollinger_bands sqrtQ data window num_std_dev
        = Raise TypeError)
  /\ (all_numbers data = true ->
      (forall w, window = PyInt w -> (w <= 0)%Z) ->
      calculate_moving_average data window = Raise ValueError
      /\ calculate_exponential_moving_average data window = Raise ValueError
      /\ calculate_rsi data window = Raise ValueError
      /\ calculate_bollinger_bands sqrtQ data window num_std_dev
         = Raise ValueError).
Proof.
  unfold calculate_moving_average, calculate_exponential_moving_average,
    calculate_rsi, calculate_bollinger_bands.
  split.
  - intros ->. cbn. auto.
  - intros -> Hw. cbn [negb].
    assert (E : positive_int window = None).
    { destruct window as [w| | |]; try reflexivity. cbn.
      destruct (w <=? 0)%Z eqn:E; [reflexivity|].
      apply Z.leb_gt in E. specialize (Hw w eq_refl). lia. }
    rewrite E. auto.
Qed.

Lemma single_series_argument_checks_witness :
  calculate_exponential_moving_average [PyInt 1; PyStr "b"; PyInt 3] (PyInt 5)
  = Raise TypeError
  /\ calculate_exponential_moving_average rising_prices (PyInt (-1))
     = Raise ValueError
  /\ calculate_moving_average rising_prices (PyInt 0) = Raise ValueError.
Proof.
  destruct (single_series_argument_checks sqrt_of_squares
              [PyInt 1; PyStr "b"; PyInt 3] (PyInt 5) (PyInt 2))
    as [Htype _].
  destruct (single_series_argument_checks sqrt_of_squares
              rising_prices (PyInt (-1)) (PyInt 2)) as [_ Hneg].
  destruct (single_series_argument_checks sqrt_of_squares
              rising_prices (PyInt 0) (PyInt 2)) as [_ Hzero].
  split; [apply Htype; reflexivity|].
  split.
  - apply Hneg; [reflexivity|]. intros w H. injection H as <-. lia.
  - apply Hzero; [reflexivity|]. intros w H. injection H as <-. lia.
Defined.

(** The three-list and two-list indicators reject lists of numbers of
    different lengths with a ValueError, before they look at the window. *)
Theorem mismatched_lengths_are_rejected
    (high low close : list pyobj) (window k_smoothing : pyobj) :
  all_numbers high = true -> all_numbers low = true ->
  all_numbers close = true ->
  (length high <> length low \/ length low <> length close) ->
  calculate_stochastic_oscillator high low close window k_smoothing
  = Raise ValueError
  /\ calculate_average_true_range high low close window = Raise ValueError
  /\ (length low <> length close ->
      calculate_on_balance_volume low close = Raise ValueError).
Proof.
  intros Hh Hl Hc Hne.
  unfold calculate_stochastic_oscillator, calculate_average_true_range,
    calculate_on_balance_volume.
  cbn [forallb]. rewrite Hh, Hl, Hc. cbn [andb negb].
  assert (E : negb (length high =? length low)%nat
              || negb (length low =? length close)%nat = true).
  { destruct Hne as [H|H]; apply Nat.eqb_neq in H; rewrite H;
      cbn; auto using orb_true_r. }
  rewrite E. split; [reflexivity|]. split; [reflexivity|].
  intros H. apply Nat.eqb_neq in H. rewrite H. reflexivity.
Qed.

Lemma mismatched_lengths_are_rejected_witness :
  calculate_stochastic_oscillator
    (map PyInt [3; 4]%Z) (map PyInt [1; 2]%Z) (map PyInt [2]%Z)
    (PyInt 14) (PyInt 3) = Raise ValueError
  /\ calculate_average_true_range
       (map PyInt [3; 4]%Z) (map PyInt [1; 2]%Z) (map PyInt [2]%Z) (PyInt 14)
     = Raise ValueError.
Proof.
  destruct (mismatched_lengths_are_rejected
              (map PyInt [3; 4]%Z) (map PyInt [1; 2]%Z) (map PyInt [2]%Z)
              (PyInt 14) (PyInt 3)) as (H1 & H2 & _).
  - reflexivity.
  - reflexivity.
  - reflexivity.
  - right. cbn. lia.
  - split; assumption.
Defined.

(** * The recommendation and its confidence *)

Section SignalFacts.

Lemma rsi_score_finite (r : Q) :
  exists s, _rsi_score_normalized (Fin r) = Fin s
    /\ ((r <= 25 /\ s == 0.9)
        \/ (25 < r <= 30 /\ s == 0.75)
        \/ (75 <= r /\ s == 0.15)
        \/ (70 <= r < 75 /\ s == 0.25)
        \/ (30 < r < 70 /\ s == 0.75 - (r - 30) * (1 # 80))).
Proof.
  unfold _rsi_score_normalized, Num.geb. cbn [Num.leb].
  destruct (Qle_bool r 25) eqn:E1; qprops.
  { eexists. split; [reflexivity|]. left. split; [lra|reflexivity]. }
  destruct (Qle_bool r 30) eqn:E2; qprops.
  { eexists. split; [reflexivity|]. right. left. split; [lra|reflexivity]. }
  destruct (Qle_bool 75 r) eqn:E3; qprops.
  { eexists. split; [reflexivity|]. right. right. left.
    split; [lra|reflexivity]. }
  destruct (Qle_bool 70 r) eqn:E4; qprops.
  { eexists. split; [reflexivity|]. do 3 right. left.
    split; [lra|reflexivity]. }
  cbn. eexists. split; [reflexivity|]. do 4 right. split; [lra|].
  field.
Qed.

Lemma signal_of_generate (self : ScoreProvider) (c : Q)
    (t p : option num) :
  signal_of (generate_trading_signal self (Fin c) t p)
  = Some (let '(buy, sell) := thresholds (lower (risk_tolerance (config self))) in
          if Qle_bool buy c then BUY
          else if Qle_bool c sell then SELL else HOLD).
Proof.
  unfold generate_trading_signal, thresholds.
  destruct (String.eqb _ "conservative");
    [|destruct (String.eqb _ "aggressive")];
    unfold Num.geb; cbn [Num.leb];
    (destruct (Qle_bool _ c); [reflexivity|]);
    (destruct (Qle_bool c _); reflexivity).
Qed.

Lemma thresholds_ordered (risk : string) :
  snd (thresholds risk) < fst (thresholds risk).
Proof.
  unfold thresholds.
  destruct (String.eqb risk "conservative");
    [|destruct (String.eqb risk "aggressive")]; reflexivity.
Qed.

Lemma confidence_adjusted (b : bool) (x : Q) :
  0 <= x <= 1 ->
  Num.within 0 1
    (if b then Num.py_min (Fin x * Fin 1.2)%num (Fin 1)
     else (Fin x * Fin 0.8)%num).
Proof.
  intros Hx. destruct b.
  - unfold Num.py_min. cbn [Num.mul Num.ltb].
    destruct (Num.Qlt_bool 1 (x * 1.2)) eqn:E; qprops;
      eexists; (split; [reflexivity|]); lra.
  - cbn [Num.mul]. eexists. split; [reflexivity|]. lra.
Qed.

End SignalFacts.

(** The RSI component of the technical score never rises with the RSI: a
    higher RSI (more overbought) never scores higher, and every score lies
    between 0.15 and 0.9. *)
Theorem rsi_score_is_nonincreasing (a b : Q) :
  a <= b ->
  exists x y,
    _rsi_score_normalized (Fin a) = Fin x
    /\ _rsi_score_normalized (Fin b) = Fin y
    /\ y <= x /\ 0.15 <= y /\ x <= 0.9.
Proof.
  intros Hab.
  destruct (rsi_score_finite a) as (x & -> & Hx).
  destruct (rsi_score_finite b) as (y & -> & Hy).
  exists x, y. split; [reflexivity|]. split; [reflexivity|].
  destruct Hx as [[? Hx]|[[? Hx]|[[? Hx]|[[? Hx]|[? Hx]]]]];
    destruct Hy as [[? Hy]|[[? Hy]|[[? Hy]|[[? Hy]|[? Hy]]]]];
    rewrite Hx, Hy; repeat split; lra.
Qed.

Lemma rsi_score_is_nonincreasing_witness :
  exists x y,
    _rsi_score_normalized (Fin 28) = Fin x
    /\ _rsi_score_normalized (Fin 50) = Fin y
    /\ y <= x /\ 0.15 <= y /\ x <= 0.9.
Proof. apply (rsi_score_is_nonincreasing 28 50). lra. Defined.

Lemma base_confidence (c : Q) :
  0 <= c <= 1 ->
  exists x, (Num.abs (Fin c - Fin 0.5) * Fin 2)%num = Fin x /\ 0 <= x <= 1.
Proof.
  intros Hc. unfold Num.sub, Num.neg, Num.add, Num.abs, Num.mul.
  eexists. split; [reflexivity|].
  set (d := Qabs _).
  assert (0 <= d) by apply Qabs_nonneg.
  assert (d <= 0.5) by (apply Qabs_Qle_condition; lra).
  lra.
Qed.

(** The confidence is the base confidence when no technical score is given,
    and otherwise the base confidence boosted or damped. *)
Lemma confidence_of_generate (self : ScoreProvider) (c : num)
    (t p : option num) :
  exists agrees : bool,
    confidence_of (generate_trading_signal self c t p)
    = Some (let base := (Num.abs (c - Fin 0.5) * Fin 2)%num in
            match t with
            | Some _ =>
                if agrees then Num.py_min (base * Fin 1.2)%num (Fin 1)
                else (base * Fin 0.8)%num
            | None => base
            end).
Proof.
  unfold generate_trading_signal.
  destruct (if String.eqb _ "conservative" then _ else _) as [buy sell].
  destruct (c >=? buy)%num; [|destruct (c <=? sell)%num];
    destruct t as [t|]; cbn [confidence_of];
    first [exists true; reflexivity
          |match goal with
           | |- context [if ?b then _ else _] => exists b; reflexivity
           end].
Qed.

(** For a composite score in [0,1] the confidence of the trading signal is a
    number in [0,1], whatever the technical score (missing or undefined
    included), the price and the risk tolerance. *)
Theorem signal_confidence_is_a_fraction
    (self : ScoreProvider) (c : Q) (t p : option num) :
  0 <= c <= 1 ->
  exists v,
    confidence_of (generate_trading_signal self (Fin c) t p) = Some v
    /\ Num.within 0 1 v.
Proof.
  intros Hc.
  destruct (confidence_of_generate self (Fin c) t p) as [agrees ->].
  destruct (base_confidence c Hc) as (x & Hbase & Hx).
  eexists. split; [reflexivity|]. cbv zeta. rewrite Hbase.
  destruct t as [t|].
  - apply confidence_adjusted. exact Hx.
  - exists x. split; [reflexivity|lra].
Qed.

Lemma signal_confidence_is_a_fraction_witness :
  exists v,
    confidence_of
      (generate_trading_signal (demo_provider (Some "aggressive"))
         (Fin 0.9) (Some NaN) None) = Some v
    /\ Num.within 0 1 v.
Proof.
  apply (signal_confidence_is_a_fraction
           (demo_provider (Some "aggressive")) 0.9 (Some NaN) None). lra.
Defined.

(** The recommendation follows the composite score: for one configuration a
    higher composite score never gives a more bearish recommendation (SELL
    below HOLD below BUY), whatever the technical scores and prices passed
    along. *)
Theorem trading_signal_is_monotone
    (self : ScoreProvider) (c1 c2 : Q) (t1 t2 p1 p2 : option num) :
  c1 <= c2 ->
  exists s1 s2,
    signal_of (generate_trading_signal self (Fin c1) t1 p1) = Some s1
    /\ signal_of (generate_trading_signal self (Fin c2) t2 p2) = Some s2
    /\ (signal_rank s1 <= signal_rank s2)%nat.
Proof.
  intros Hc. rewrite !signal_of_generate.
  pose proof (thresholds_ordered (lower (risk_tolerance (config self)))) as Hord.
  destruct (thresholds _) as [buy sell]. cbn [fst snd] in Hord.
  do 2 eexists. split; [reflexivity|]. split; [reflexivity|].
  destruct (Qle_bool buy c1) eqn:E1, (Qle_bool c1 sell) eqn:E2,
    (Qle_bool buy c2) eqn:E3, (Qle_bool c2 sell) eqn:E4; qprops;
    cbn [signal_rank]; try lia; exfalso; lra.
Qed.

Lemma trading_signal_is_monotone_witness :
  exists s1 s2,
    signal_of (generate_trading_signal (demo_provider None)
                 (Fin 0.3) None None) = Some s1
    /\ signal_of (generate_trading_signal (demo_provider None)
                    (Fin 0.7) (Some (Fin 0.2)) None) = Some s2
    /\ (signal_rank s1 <= signal_rank s2)%nat.
Proof.
  apply (trading_signal_is_monotone (demo_provider None) 0.3 0.7). lra.
Defined.

(** * The scores at the edges, and the scoring steps of a run *)

Section ScoringFacts.

Lemma weight_RSI : weight_of "RSI" = Fin 0.4.
Proof. reflexivity. Qed.
Lemma weight_Price_vs_SMA : weight_of "Price_vs_SMA" = Fin 0.4.
Proof. reflexivity. Qed.
Lemma weight_MACD : weight_of "MACD" = Fin 0.2.
Proof. reflexivity. Qed.

Lemma rsi_score_nan : _rsi_score_normalized NaN = NaN.
Proof. reflexivity. Qed.

Lemma add_nan_l (x : num) : (NaN + x)%num = NaN.
Proof. destruct x; reflexivity. Qed.

Lemma mul_nan_r (x : num) : (x * NaN)%num = NaN.
Proof. destruct x; reflexivity. Qed.

Lemma risk_multiplier_default (risk : string) :
  risk <> "conservative" -> risk <> "aggressive" ->
  default (Fin 1) (risk_multipliers !! risk) = Fin 1.
Proof.
  intros H1 H3. unfold risk_multipliers.
  destruct (decide (risk = "moderate")) as [->|H2]; [reflexivity|].
  rewrite !lookup_insert_ne, lookup_singleton_ne by congruence. reflexivity.
Qed.

Lemma eqb_false (a b : string) : a <> b -> String.eqb a b = false.
Proof. intros H. apply String.eqb_neq. exact H. Qed.

End ScoringFacts.

(** While the RSI of the latest row is still undefined (NaN, as during the
    indicator's warm-up) the technical score is 1.0, the most bullish value,
    whatever the other columns hold: the undefined value passes through the
    weighted average and [min(1.0, nan)] keeps 1.0. *)
Theorem technical_score_with_undefined_rsi
    (self : ScoreProvider) (df : DataFrame) (row : gmap string num) :
  empty df = false -> iloc df (-1) = Ok row -> get row "RSI" = Some NaN ->
  technical_score self (Some df) = Ok (Fin 1).
Proof.
  intros He Hrow Hrsi. unfold technical_score.
  rewrite He, Hrow. cbn [bind]. rewrite Hrsi, rsi_score_nan.
  destruct (get row "Close"), (get row "SMA_20"),
    (get row "MACD"), (get row "MACD_Signal"); cbn [app map fst snd];
    rewrite ?weight_RSI, ?weight_Price_vs_SMA, ?weight_MACD;
    unfold Num.py_sum; cbn [fold_left];
    rewrite mul_nan_r; cbn [Num.add]; rewrite ?add_nan_l; reflexivity.
Qed.

Lemma technical_score_with_undefined_rsi_witness :
  technical_score (demo_provider None) (Some warming_up) = Ok (Fin 1).
Proof.
  refine (technical_score_with_undefined_rsi (demo_provider None) warming_up
            _ _ _ _).
  - reflexivity.
  - reflexivity.
  - reflexivity.
Defined.

(** Only the first ten search results reach the sentiment analysis: two
    result lists that agree on their first ten entries get the same
    sentiment score. *)
Theorem sentiment_reads_first_ten_results
    (self : ScoreProvider) (results1 results2 : list (gmap string string)) :
  take 10 results1 = take 10 results2 ->
  sentiment_score self results1 = sentiment_score self results2.
Proof.
  intros H. unfold sentiment_score.
  destruct results1 as [|r1 l1], results2 as [|r2 l2];
    [reflexivity|discriminate|discriminate|].
  unfold _gpt_sentiment_analysis. rewrite H. reflexivity.
Qed.

Lemma sentiment_reads_first_ten_results_witness :
  sentiment_score {| config := config (demo_provider None);
                     runtime := bullish_reply |}
    (replicate 10 headline ++ [∅])
  = sentiment_score {| config := config (demo_provider None);
                       runtime := bullish_reply |}
      (replicate 10 headline).
Proof.
  apply sentiment_reads_first_ten_results. reflexivity.
Defined.

(** Without a usable language model the sentiment is neutral: when the API
    key is unset or empty, the client library is missing, the request fails
    or the reply is not a number, [sentiment_score] returns 0.5 for every
    list of search results. *)
Theorem sentiment_is_neutral_without_a_model
    (self : ScoreProvider) (results : list (gmap string string)) :
  getenv_api_key (runtime self) = None
  \/ getenv_api_key (runtime self) = Some EmptyString
  \/ openai_installed (runtime self) = false
  \/ (forall prompt, exists e, chat_completion (runtime self) prompt = Raise e)
  \/ (forall text, exists e, float_of_text (runtime self) text = Raise e) ->
  sentiment_score self results = Ok (Fin 0.5).
Proof.
  intros H. unfold sentiment_score.
  destruct results as [|r rs]; [reflexivity|].
  unfold _gpt_sentiment_analysis.
  destruct (getenv_api_key (runtime self)) as [key|] eqn:Ek; [|reflexivity].
  destruct (truthy key) eqn:Et; cbn [negb]; [|reflexivity].
  destruct (openai_installed (runtime self)) eqn:Eo; cbn [negb]; [|reflexivity].
  destruct (flat_map _ _); [reflexivity|].
  destruct H as [H|[H|[H|[H|H]]]].
  - discriminate.
  - injection H as ->. discriminate.
  - discriminate.
  - destruct (H (prompt_of self
                   (join (nl ++ nl ++ "---" ++ nl ++ nl)%string (s :: l))))
      as [e ->]. reflexivity.
  - destruct (chat_completion _ _) as [text|e]; [|reflexivity].
    cbn [bind]. destruct (H text) as [e ->]. reflexivity.
Qed.

Lemma sentiment_is_neutral_without_a_model_witness :
  sentiment_score (demo_provider None) [headline] = Ok (Fin 0.5).
Proof.
  apply sentiment_is_neutral_without_a_model. left. reflexivity.
Defined.

(** A risk tolerance that is neither "conservative" nor "aggressive" (in any
    letter case) is treated as "moderate": the scores are the same, and so
    are the recommendation and its confidence. *)
Theorem unrecognised_risk_tolerance_is_moderate
    (self : ScoreProvider) (df : option DataFrame)
    (results : list (gmap string string)) (c : num) (t p : option num) :
  lower (risk_tolerance (config self)) <> "conservative" ->
  lower (risk_tolerance (config self)) <> "aggressive" ->
  calculate_all_scores self df results
  = calculate_all_scores (with_risk self (Some "moderate")) df results
  /\ signal_of (generate_trading_signal self c t p)
     = signal_of (generate_trading_signal
                    (with_risk self (Some "moderate")) c t p)
  /\ confidence_of (generate_trading_signal self c t p)
     = confidence_of (generate_trading_signal
                        (with_risk self (Some "moderate")) c t p).
Proof.
  intros H1 H2. split.
  - unfold calculate_all_scores.
    rewrite (risk_multiplier_default _ H1 H2).
    change (default (Fin 1) (risk_multipliers !!
              lower (risk_tolerance (config (with_risk self (Some "moderate"))))))
      with (Fin 1).
    reflexivity.
  - unfold generate_trading_signal.
    rewrite (eqb_false _ _ H1), (eqb_false _ _ H2).
    change (lower (risk_tolerance (config (with_risk self (Some "moderate")))))
      with "moderate".
    change (String.eqb "moderate" "conservative") with false.
    change (String.eqb "moderate" "aggressive") with false.
    cbv iota.
    destruct (c >=? Fin 0.55)%num; [|destruct (c <=? Fin 0.45)%num];
      destruct t; split; reflexivity.
Qed.

Lemma unrecognised_risk_tolerance_is_moderate_witness :
  signal_of (generate_trading_signal (demo_provider (Some "Balanced"))
               (Fin 0.52) None None)
  = signal_of (generate_trading_signal (demo_provider (Some "moderate"))
                 (Fin 0.52) None None).
Proof.
  refine (proj1 (proj2 (unrecognised_risk_tolerance_is_moderate
                          (demo_provider (Some "Balanced")) None []
                          (Fin 0.52) None None _ _))).
  - vm_compute. discriminate.
  - vm_compute. discriminate.
Defined.

(** The scoring steps of a research run never raise: for every market frame
    (absent, empty or partly undefined), every list of search results and
    every behaviour of the language model, the four scores are numbers in
    [0,1] and the recommendation built from them has a confidence in
    [0,1]. *)
Theorem scoring_steps_never_raise
    (self : ScoreProvider) (market_df : option DataFrame)
    (raw_results : list (gmap string string)) :
  exists scores action confidence reasoning,
    execute_scoring_steps self market_df raw_results
    = Ok (scores, (action, confidence, reasoning))
    /\ calculate_all_scores self market_df raw_results = Ok scores
    /\ Num.within 0 1 (technical scores)
    /\ Num.within 0 1 (momentum scores)
    /\ Num.within 0 1 (sentiment scores)
    /\ Num.within 0 1 (composite scores)
    /\ Num.within 0 1 confidence.
Proof.
  unfold execute_scoring_steps, calculate_all_scores.
  destruct (technical_score_unit self market_df) as (t & -> & Ht).
  destruct (momentum_score_unit self market_df) as (m & -> & Hm).
  destruct (sentiment_score_unit self raw_results) as (s & -> & Hs).
  cbn [bind].
  destruct (composite_score_unit self t m s
              (default (Fin 1)
                 (risk_multipliers !! lower (risk_tolerance (config self)))))
    as (c & -> & Hc).
  cbn [bind composite technical].
  assert (Hp : exists p, current_price market_df = Ok p).
  { unfold current_price. destruct market_df as [df|]; [|eauto].
    destruct (empty df) eqn:He; cbn [negb]; [eauto|].
    destruct (iloc_last df He) as [row ->]. cbn [bind]. eauto. }
  destruct Hp as [p ->]. cbn [bind].
  destruct Hc as (cq & -> & Hcq).
  destruct (confidence_of_generate self (Fin cq) (Some t) p) as [agrees Hv].
  destruct (base_confidence cq Hcq) as (x & Hbase & Hx).
  cbv zeta in Hv. rewrite Hbase in Hv.
  pose proof (confidence_adjusted agrees x Hx) as Hin.
  destruct (generate_trading_signal self (Fin cq) (Some t) p)
    as [[[action confidence] reasoning]|e] eqn:Eg; [|discriminate].
  cbn [confidence_of] in Hv. injection Hv as ->. cbn [bind].
  eexists {| technical := t; momentum := m; sentiment := s;
             composite := Fin cq |}, action, _, reasoning.
  cbn [technical momentum sentiment composite].
  repeat (split; [first [reflexivity|assumption|eexists; eauto]|]).
  exact Hin.
Qed.

(** * The indicator columns of the market frame *)

Section IndicatorColumns.

Lemma tolist_finite (qs : list Q) :
  finite_numbers (tolist (map Fin qs)) qs.
Proof.
  unfold finite_numbers, tolist. induction qs as [|q qs IH]; cbn.
  - constructor.
  - constructor; [split; reflexivity|exact IH].
Qed.

Lemma tolist_length (col : list num) : length (tolist col) = length col.
Proof. apply length_map. Qed.

Lemma iloc_last_get (df : DataFrame) (name : string) (col : list num) :
  (1 <= nrows df)%nat -> columns df !! name = Some col ->
  exists row, iloc df (-1) = Ok row
              /\ get row name = col !! (nrows df - 1)%nat.
Proof.
  intros Hn Hc. rewrite iloc_last_row by exact Hn.
  eexists. split; [reflexivity|]. apply get_iloc_row. exact Hc.
Qed.

Lemma nrows_set_column (df : DataFrame) (name : string) (values : list num) :
  nrows (set_column df name values) = nrows df.
Proof. reflexivity. Qed.

End IndicatorColumns.

Section IndicatorFrame.

Variables (df : DataFrame) (closes : list Q) (high low : list num).
Hypothesis Hclose : columns df !! "Close" = Some (map Fin closes).
Hypothesis Hhigh : columns df !! "High" = Some high.
Hypothesis Hlow : columns df !! "Low" = Some low.
Hypothesis Hrows : length closes = nrows df.
Hypothesis Hlong : (20 <= nrows df)%nat.

Lemma compute_technical_indicators_columns :
  compute_technical_indicators df
  = set_column
      (set_column
         (set_column
            (set_column (with_averages df closes) "RSI"
               (rsi_of (avg_gain (map Fin closes) 14)
                       (avg_loss (map Fin closes) 14)))
            "MACD" (map Fin (macd_line_of 12 26 closes)))
         "MACD_Signal" (map Fin (signal_line_of 12 26 9 closes)))
      "MACD_Histogram" (map Fin (histogram_of 12 26 9 closes)).
Proof.
  unfold compute_technical_indicators. rewrite Hclose, Hhigh, Hlow.
  pose proof (tolist_finite closes) as Hfin.
  pose proof (finite_numbers_valid _ _ Hfin) as Hvalid.
  pose proof (finite_numbers_Series _ _ Hfin) as Hseries.
  unfold calculate_moving_average. rewrite Hvalid.
  cbn [negb positive_int Z.leb Z.compare bind]. rewrite Hseries.
  rewrite (calculate_rsi_unfold _ 14 Hvalid) by lia.
  rewrite tolist_length, length_map, Hrows.
  destruct (Z.of_nat (nrows df) <? 14)%Z eqn:E;
    [apply Z.ltb_lt in E; lia|].
  rewrite Hseries.
  rewrite (calculate_macd_finite _ closes 12 26 9 Hfin) by lia.
  change (Z.to_nat 20) with 20%nat. change (Z.to_nat 50) with 50%nat.
  change (Z.to_nat 14) with 14%nat.
  assert (L20 : (length (rolling_mean 20 (map Fin closes)) =? nrows df)%nat = true).
  { apply Nat.eqb_eq. unfold rolling_mean.
    rewrite rolling_length, length_map. exact Hrows. }
  assert (Lrsi : (length (rsi_of (avg_gain (map Fin closes) 14)
                                 (avg_loss (map Fin closes) 14))
                  =? nrows df)%nat = true).
  { apply Nat.eqb_eq. rewrite rsi_of_length;
      rewrite avg_gain_length, ?avg_loss_length, ?length_map; auto. }
  assert (Lmacd : (length (map Fin (macd_line_of 12 26 closes))
                   =? nrows df)%nat = true).
  { apply Nat.eqb_eq. rewrite length_map, macd_line_length. exact Hrows. }
  unfold with_averages.
  destruct (50 <=? nrows df)%nat eqn:E50; cbn [bind]; cbv zeta.
  - rewrite L20.
    destruct (rolling_mean 50 (map Fin closes)) as [|x r] eqn:E50l.
    { exfalso. apply Nat.leb_le in E50.
      assert (Hl : length (rolling_mean 50 (map Fin closes)) = nrows df)
        by (unfold rolling_mean; rewrite rolling_length, length_map; exact Hrows).
      rewrite E50l in Hl. cbn in Hl. lia. }
    assert (L50 : (length (x :: r) =? nrows df)%nat = true).
    { apply Nat.eqb_eq. rewrite <- E50l. unfold rolling_mean.
      rewrite rolling_length, length_map. exact Hrows. }
    rewrite !nrows_set_column, L50, !nrows_set_column, Lrsi,
      !nrows_set_column, Lmacd. reflexivity.
  - rewrite L20, !nrows_set_column, Lrsi, !nrows_set_column, Lmacd.
    reflexivity.
Qed.

End IndicatorFrame.

Section LatestRow.

Lemma set_column_lookup (df : DataFrame) (name : string) (values : list num) :
  columns (set_column df name values) !! name = Some values.
Proof. apply lookup_insert_eq. Qed.

Lemma set_column_lookup_ne (df : DataFrame) (name other : string)
    (values : list num) :
  name <> other ->
  columns (set_column df name values) !! other = columns df !! other.
Proof. intros H. apply lookup_insert_ne. exact H. Qed.

Lemma py_clamp_finite (x lo hi : Q) :
  exists y, Num.py_min (Num.py_max (Fin x) (Fin lo)) (Fin hi) = Fin y
            /\ y == Qmin (Qmax x lo) hi.
Proof.
  unfold Num.py_min, Num.py_max, Num.gtb. cbn [Num.ltb].
  destruct (Num.Qlt_bool x lo) eqn:E1; cbn [Num.ltb];
    [destruct (Num.Qlt_bool hi lo) eqn:E2|destruct (Num.Qlt_bool hi x) eqn:E2];
    qprops; eexists; (split; [reflexivity|]).
  - rewrite (Q.max_r x lo) by lra. rewrite Q.min_r by lra. reflexivity.
  - rewrite (Q.max_r x lo) by lra. rewrite Q.min_l by lra. reflexivity.
  - rewrite (Q.max_l x lo) by lra. rewrite Q.min_r by lra. reflexivity.
  - rewrite (Q.max_l x lo) by lra. rewrite Q.min_l by lra. reflexivity.
Qed.

End LatestRow.

(** The technical score of a latest row whose indicators are all defined is
    the weighted average of its three components, with weights 0.4 (RSI),
    0.4 (price against the 20-day average) and 0.2 (MACD against its signal
    line), clamped to [0,1]. *)
Theorem technical_score_is_weighted_average
    (self : ScoreProvider) (df : DataFrame) (row : gmap string num)
    (rsi price sma macd macd_signal : Q) :
  empty df = false -> iloc df (-1) = Ok row ->
  get row "RSI" = Some (Fin rsi) ->
  get row "Close" = Some (Fin price) ->
  get row "SMA_20" = Some (Fin sma) -> ~ sma == 0 ->
  get row "MACD" = Some (Fin macd) ->
  get row "MACD_Signal" = Some (Fin macd_signal) ->
  exists v r,
    technical_score self (Some df) = Ok v
    /\ _rsi_score_normalized (Fin rsi) = Fin r
    /\ Num.same v
         (Fin (clampQ (0.4 * r + 0.4 * price_sma_score price sma
                       + 0.2 * macd_score macd macd_signal))).
Proof.
  intros He Hrow Hrsi Hprice Hsma Hnz Hmacd Hsig.
  unfold technical_score. rewrite He, Hrow. cbn [bind].
  rewrite Hrsi, Hprice, Hsma, Hmacd, Hsig.
  destruct (rsi_score_finite rsi) as (r & Hr & _). rewrite Hr.
  cbn [app map fst snd].
  rewrite weight_RSI, weight_Price_vs_SMA, weight_MACD.
  cbn [Num.div]. apply Qeq_bool_false in Hnz. rewrite Hnz.
  destruct (py_clamp_finite (price / sma) 0.7 1.3) as (y & -> & Hy).
  unfold Num.gtb. cbn [Num.ltb Num.sub Num.neg Num.add Num.div].
  replace (Qeq_bool 0.6 0) with false by reflexivity.
  assert (Hm : (if Num.Qlt_bool macd_signal macd then Fin 1 else Fin 0.3)
               = Fin (macd_score macd macd_signal)).
  { unfold macd_score. destruct (Num.Qlt_bool macd_signal macd); reflexivity. }
  rewrite Hm. unfold Num.py_sum. cbn [fold_left Num.add Num.mul Num.ltb].
  replace (Num.Qlt_bool 0 (0 + 0.4 + 0.4 + 0.2)) with true by reflexivity.
  cbn [Num.div].
  replace (Qeq_bool (0 + 0.4 + 0.4 + 0.2) 0) with false by reflexivity.
  eexists. exists r. split; [reflexivity|]. split; [reflexivity|].
  apply clamp01_same. unfold price_sma_score. rewrite Hy. field.
Qed.

Lemma technical_score_is_weighted_average_witness :
  exists v r,
    technical_score (demo_provider None)
      (Some {| nrows := 1;
               columns := {[ "RSI" := [Fin 50]; "Close" := [Fin 110];
                             "SMA_20" := [Fin 100]; "MACD" := [Fin 2];
                             "MACD_Signal" := [Fin 1] ]} |}) = Ok v
    /\ _rsi_score_normalized (Fin 50) = Fin r
    /\ Num.same v
         (Fin (clampQ (0.4 * r + 0.4 * price_sma_score 110 100
                       + 0.2 * macd_score 2 1))).
Proof.
  eapply technical_score_is_weighted_average.
  - reflexivity.
  - reflexivity.
  - reflexivity.
  - reflexivity.
  - reflexivity.
  - vm_compute. discriminate.
  - reflexivity.
  - reflexivity.
Defined.

(** On a frame of at least twenty rows with defined closes,
    [compute_technical_indicators] leaves the frame's length and closes as
    they are and adds the indicator columns so that the latest row has a
    defined 20-day average (the mean of the last twenty closes), an RSI in
    [0,100] and defined MACD and signal values: nothing the technical score
    reads from that row is missing or undefined. *)
Theorem indicators_defined_on_latest_row
    (df : DataFrame) (closes : list Q) (high low : list num) :
  columns df !! "Close" = Some (map Fin closes) ->
  columns df !! "High" = Some high ->
  columns df !! "Low" = Some low ->
  length closes = nrows df -> (20 <= nrows df)%nat ->
  exists row price sma rsi macd macd_signal,
    nrows (compute_technical_indicators df) = nrows df
    /\ empty (compute_technical_indicators df) = false
    /\ iloc (compute_technical_indicators df) (-1) = Ok row
    /\ closes !! (nrows df - 1)%nat = Some price
    /\ get row "Close" = Some (Fin price)
    /\ get row "SMA_20" = Some (Fin sma)
    /\ sma == trailing_mean closes 20 (nrows df - 1)
    /\ get row "RSI" = Some (Fin rsi) /\ 0 <= rsi <= 100
    /\ get row "MACD" = Some (Fin macd)
    /\ get row "MACD_Signal" = Some (Fin macd_signal).
Proof.
  intros Hclose Hhigh Hlow Hrows Hlong.
  rewrite (compute_technical_indicators_columns df closes high low)
    by assumption.
  set (df' := set_column _ "MACD_Histogram" _).
  assert (Hn : nrows df' = nrows df).
  { unfold df', with_averages. destruct (50 <=? nrows df)%nat; reflexivity. }
  assert (Hlast : (nrows df - 1 < length closes)%nat) by lia.
  destruct (lookup_lt_is_Some_2 closes _ Hlast) as [price Hprice].
  assert (Cclose : columns df' !! "Close" = Some (map Fin closes)).
  { unfold df'. rewrite !set_column_lookup_ne by discriminate.
    unfold with_averages. destruct (50 <=? nrows df)%nat;
      rewrite !set_column_lookup_ne by discriminate; exact Hclose. }
  assert (Csma : columns df' !! "SMA_20"
                 = Some (rolling_mean 20 (map Fin closes))).
  { unfold df'. rewrite !set_column_lookup_ne by discriminate.
    unfold with_averages. destruct (50 <=? nrows df)%nat;
      rewrite ?set_column_lookup_ne by discriminate;
      apply set_column_lookup. }
  assert (Crsi : columns df' !! "RSI"
                 = Some (rsi_of (avg_gain (map Fin closes) 14)
                                (avg_loss (map Fin closes) 14))).
  { unfold df'. rewrite !set_column_lookup_ne by discriminate.
    apply set_column_lookup. }
  assert (Cmacd : columns df' !! "MACD"
                  = Some (map Fin (macd_line_of 12 26 closes))).
  { unfold df'. rewrite !set_column_lookup_ne by discriminate.
    apply set_column_lookup. }
  assert (Csig : columns df' !! "MACD_Signal"
                 = Some (map Fin (signal_line_of 12 26 9 closes))).
  { unfold df'. rewrite !set_column_lookup_ne by discriminate.
    apply set_column_lookup. }
  destruct (rolling_mean_finite closes 20 (nrows df - 1))
    as (sma & Hsma & Hsma'); [lia|lia|lia|].
  destruct (rsi_lookup_finite closes 14 (nrows df - 1))
    as (g & l & _ & _ & Hrsi & Hg & Hl & _); [lia|lia|lia|].
  destruct (rsi_point_within g l Hg Hl) as (rsi & Hrsi' & Hrange).
  rewrite Hrsi' in Hrsi.
  destruct (lookup_lt_is_Some_2 (macd_line_of 12 26 closes) (nrows df - 1))
    as [macd Hmacd]; [rewrite macd_line_length; lia|].
  destruct (lookup_lt_is_Some_2 (signal_line_of 12 26 9 closes) (nrows df - 1))
    as [sig Hsig];
    [unfold signal_line_of; rewrite ewmQ_length, macd_line_length; lia|].
  eexists _, price, sma, rsi, macd, sig.
  split; [exact Hn|]. split.
  { unfold empty. rewrite Hn.
    destruct (nrows df =? 0)%nat eqn:E; [apply Nat.eqb_eq in E; lia|].
    cbn [orb]. apply bool_decide_eq_false. intros Hempty.
    rewrite Hempty in Cclose. rewrite lookup_empty in Cclose. discriminate. }
  split; [apply iloc_last_row; lia|].
  split; [exact Hprice|].
  rewrite !(get_iloc_row df' _ _ _ Cclose), !(get_iloc_row df' _ _ _ Csma),
    !(get_iloc_row df' _ _ _ Crsi), !(get_iloc_row df' _ _ _ Cmacd),
    !(get_iloc_row df' _ _ _ Csig), Hn.
  rewrite !list_lookup_fmap, Hprice, Hsma, Hrsi, Hmacd, Hsig.
  destruct Hrange as [Hr0 Hr100].
  repeat split; first [reflexivity|assumption].
Qed.

Lemma indicators_defined_on_latest_row_witness :
  exists row rsi,
    iloc (compute_technical_indicators thirty_days) (-1) = Ok row
    /\ get row "RSI" = Some (Fin rsi) /\ 0 <= rsi <= 100.
Proof.
  destruct (indicators_defined_on_latest_row thirty_days thirty_closes
              (map Fin thirty_closes) (map Fin thirty_closes))
    as (row & price & sma & rsi & macd & sig & _ & _ & Hrow & _ & _ & _ & _
        & Hrsi & Hrange & _).
  - reflexivity.
  - reflexivity.
  - reflexivity.
  - reflexivity.
  - cbn. lia.
  - exists row, rsi. auto.
Defined.

(** * The trading profile *)

Section ProfileFacts.

Lemma provide_defaults_fields (config : Config.Settings) :
  Config.ticker (Config.provide_defaults config) = Config.ticker config
  /\ Config.trading_profile (Config.provide_defaults config)
     = Config.trading_profile config
  /\ Config.max_results (Config.provide_defaults config)
     = Config.max_results config
  /\ Config._profile_applied (Config.provide_defaults config)
     = Config._profile_applied config
  /\ Config.lookback_days (Config.provide_defaults config)
     = Some (default 21%Z (Config.lookback_days config))
  /\ Config._risk_tolerance (Config.provide_defaults config)
     = Some (default (Config.VStr "moderate") (Config._risk_tolerance config)).
Proof.
  unfold Config.provide_defaults.
  destruct config as [tk tp [d|] mr ft [r|] ap]; cbn; repeat split.
Qed.

(** Nothing is left to provide once both fields are set. *)
Lemma provide_defaults_set (config : Config.Settings) (days : Z)
    (risk : Config.value) :
  Config.lookback_days config = Some days ->
  Config._risk_tolerance config = Some risk ->
  Config.provide_defaults config = config.
Proof.
  unfold Config.provide_defaults. intros -> ->. reflexivity.
Qed.

Lemma provide_defaults_idem (config : Config.Settings) :
  Config.provide_defaults (Config.provide_defaults config)
  = Config.provide_defaults config.
Proof.
  destruct (provide_defaults_fields config) as (_ & _ & _ & _ & Hd & Hr).
  eapply provide_defaults_set; eassumption.
Qed.

Variables (files : Config.Files) (profile : gmap string Config.value).

(** The first update either keeps the look-back the user set, or takes the
    profile's, or raises and changes nothing. *)
Lemma take_lookback_days_ending (config : Config.Settings) :
  (exists days,
     Config.lookback_days config = Some days
     /\ Config.take_lookback_days files profile config = (config, None))
  \/ (exists days,
        Config.lookback_days config = None
        /\ Config.int_ files
             (default (Config.VInt 21) (profile !! "lookback_days"))
           = Config.Returns days
        /\ Config.take_lookback_days files profile config
           = (Config.set_lookback_days config days, None))
  \/ (exists e,
        Config.lookback_days config = None
        /\ Config.int_ files
             (default (Config.VInt 21) (profile !! "lookback_days"))
           = Config.Raises e
        /\ Config.take_lookback_days files profile config = (config, Some e)).
Proof.
  unfold Config.take_lookback_days.
  destruct (Config.lookback_days config) as [d|]; [left; eauto|].
  destruct (Config.int_ files _) as [days|e]; [right; left|right; right];
    eauto.
Qed.

Lemma take_max_results_ending (config : Config.Settings) :
  (~ (Config.max_results config = 0%Z \/ Config.max_results config = 8%Z)
   /\ Config.take_max_results files profile config = (config, None))
  \/ (exists n,
        (Config.max_results config = 0%Z \/ Config.max_results config = 8%Z)
        /\ Config.int_ files
             (default (Config.VInt (Config.max_results config))
                      (profile !! "max_results"))
           = Config.Returns n
        /\ Config.take_max_results files profile config
           = (Config.set_max_results config n, None))
  \/ (exists e,
        (Config.max_results config = 0%Z \/ Config.max_results config = 8%Z)
        /\ Config.int_ files
             (default (Config.VInt (Config.max_results config))
                      (profile !! "max_results"))
           = Config.Raises e
        /\ Config.take_max_results files profile config = (config, Some e)).
Proof.
  unfold Config.take_max_results.
  destruct ((Config.max_results config =? 0)%Z
            || (Config.max_results config =? 8)%Z) eqn:E.
  - assert (Hm : Config.max_results config = 0%Z
                 \/ Config.max_results config = 8%Z).
    { apply orb_true_iff in E as [E|E]; apply Z.eqb_eq in E; auto. }
    destruct (Config.int_ files _) as [n|e]; [right; left|right; right];
      eauto.
  - left. split; [|reflexivity].
    apply orb_false_iff in E as [E0 E8]. apply Z.eqb_neq in E0, E8.
    intros [?|?]; contradiction.
Qed.

(** How the updates from a mapping end. *)
Lemma apply_profile_ending (config : Config.Settings) :
  exists config' ending,
    Config.apply_profile files profile config = (config', ending)
    /\ Config.ticker config' = Config.ticker config
    /\ Config.trading_profile config' = Config.trading_profile config
    /\ (forall days, Config.lookback_days config = Some days ->
          Config.lookback_days config' = Some days)
    /\ (ending = None <-> conversions_succeed files profile config)
    /\ (ending = None ->
        Config._profile_applied config' = true
        /\ (exists days, Config.lookback_days config' = Some days)
        /\ (forall days,
              Config.lookback_days config = None ->
              Config.int_ files
                (default (Config.VInt 21) (profile !! "lookback_days"))
              = Config.Returns days ->
              Config.lookback_days config' = Some days)
        /\ Config._risk_tolerance config'
           = Some (default (Config.VStr "moderate")
                           (profile !! "risk_tolerance")))
    /\ (ending <> None ->
        Config._profile_applied config' = Config._profile_applied config
        /\ Config._risk_tolerance config' = Config._risk_tolerance config).
Proof.
  unfold Config.apply_profile, conversions_succeed.
  destruct (take_lookback_days_ending config)
    as [(d & Hd & ->)|[(d & Hd & Hint & ->)|(e & Hd & Hint & ->)]];
    cbn [Config.and_then].
  - (* the user's look-back *)
    destruct (take_max_results_ending config)
      as [(Hm & ->)|[(n & Hm & Hn & ->)|(e & Hm & Hn & ->)]];
      cbn [Config.and_then Config.take_risk_tolerance];
      do 2 eexists; (split; [reflexivity|]); cbn;
      (split; [reflexivity|]); (split; [reflexivity|]);
      (split; [intros days Hq; exact Hq|]).
    + split; [split; [intros _|reflexivity]|split; [|congruence]].
      * split; [congruence|tauto].
      * intros _. rewrite Hd. repeat split; eauto. congruence.
    + split; [split; [intros _|reflexivity]|split; [|congruence]].
      * split; [congruence|eauto].
      * intros _. rewrite Hd. repeat split; eauto. congruence.
    + split; [split; [discriminate|]|split; [discriminate|auto]].
      intros [_ Hx]. destruct (Hx Hm) as [n Hn']. congruence.
  - (* the profile's look-back *)
    destruct (take_max_results_ending (Config.set_lookback_days config d))
      as [(Hm & ->)|[(n & Hm & Hn & ->)|(e & Hm & Hn & ->)]];
      cbn [Config.max_results Config.set_lookback_days] in Hm;
      try (cbn [Config.max_results Config.set_lookback_days] in Hn);
      cbn [Config.and_then Config.take_risk_tolerance];
      do 2 eexists; (split; [reflexivity|]); cbn;
      (split; [reflexivity|]); (split; [reflexivity|]);
      (split; [intros days Hq; congruence|]).
    + split; [split; [intros _|reflexivity]|split; [|congruence]].
      * split; [eauto|tauto].
      * intros _. repeat split; eauto. congruence.
    + split; [split; [intros _|reflexivity]|split; [|congruence]].
      * split; eauto.
      * intros _. repeat split; eauto. congruence.
    + split; [split; [discriminate|]|split; [discriminate|auto]].
      intros [_ Hx]. destruct (Hx Hm) as [n Hn']. congruence.
  - (* no look-back to be had *)
    do 2 eexists. split; [reflexivity|].
    split; [reflexivity|]. split; [reflexivity|].
    split; [intros days Hq; exact Hq|].
    split; [split; [discriminate|]|split; [discriminate|auto]].
    intros [Hx _]. destruct (Hx Hd) as [days Hdays]. congruence.
Qed.

End ProfileFacts.

(** Once [apply_profile_if_needed] has returned, calling it again changes
    nothing and needs nothing from the file system: the second call returns
    and leaves the same configuration, whatever the state of the profile
    file. *)
Theorem profile_is_applied_once
    (files files' : Config.Files) (config config' : Config.Settings) :
  Config.apply_profile_if_needed files config = (config', None) ->
  Config.apply_profile_if_needed files' config' = (config', None).
Proof.
  unfold Config.apply_profile_if_needed.
  destruct (Config.truthy_opt (Config.trading_profile config)
            && negb (Config._profile_applied config)) eqn:E.
  - destruct (negb (Config.profiles_path_exists files)); [discriminate|].
    destruct (negb (Config.yaml_installed files)); [discriminate|].
    destruct (Config.load_profiles files) as [[profiles|[[|]|]]|e];
      try discriminate.
    destruct (profiles !! _) as [[profile|]|]; try discriminate.
    destruct (apply_profile_ending files profile config)
      as (c1 & ending & -> & _ & _ & _ & _ & Hok & _).
    destruct ending as [e|]; [discriminate|].
    destruct (Hok eq_refl) as (Happlied & (days & Hdays) & _ & Hrisk).
    cbn [Config.and_then]. intros H. injection H as <-.
    rewrite (provide_defaults_set c1 _ _ Hdays Hrisk).
    rewrite Happlied, andb_false_r. cbn [Config.and_then].
    rewrite (provide_defaults_set c1 _ _ Hdays Hrisk). reflexivity.
  - cbn [Config.and_then]. intros H. injection H as <-.
    destruct (provide_defaults_fields config) as (_ & -> & _ & -> & _).
    rewrite E. cbn [Config.and_then].
    rewrite provide_defaults_idem. reflexivity.
Qed.

Lemma profile_is_applied_once_witness :
  exists config',
    Config.apply_profile_if_needed profile_files weekly_config
    = (config', None)
    /\ Config.apply_profile_if_needed no_files config' = (config', None).
Proof.
  eexists. split; [reflexivity|].
  apply (profile_is_applied_once profile_files no_files weekly_config).
  reflexivity.
Defined.

(** What [apply_profile_if_needed] leaves behind.  When no profile is named
    or the profile was applied before, it returns with the look-back and the
    risk tolerance filled in by their defaults where unset.  When the named
    profile is a mapping read from the file, it returns exactly when the
    conversions it needs succeed (a look-back that is null in the file makes
    [int] raise); whether it returns or raises, the ticker, the profile name
    and a look-back the user set are kept.  After a return the profile is
    marked applied and the risk tolerance is the profile's value as it
    stands, "moderate" only when the key is absent: the score provider can
    read it when it is a string, and not otherwise.  After an exception the
    profile is not marked applied and the risk tolerance is untouched. *)
Theorem profile_fills_the_configuration
    (files : Config.Files) (config : Config.Settings) :
  (Config.truthy_opt (Config.trading_profile config) = false
   \/ Config._profile_applied config = true ->
   exists config',
     Config.apply_profile_if_needed files config = (config', None)
     /\ Config.ticker config' = Config.ticker config
     /\ Config.trading_profile config' = Config.trading_profile config
     /\ Config.max_results config' = Config.max_results config
     /\ Config.lookback_days config'
        = Some (default 21%Z (Config.lookback_days config))
     /\ Config._risk_tolerance config'
        = Some (default (Config.VStr "moderate")
                        (Config._risk_tolerance config)))
  /\ forall name profiles profile,
       Config.trading_profile config = Some name -> name <> EmptyString ->
       Config._profile_applied config = false ->
       Config.profiles_path_exists files = true ->
       Config.yaml_installed files = true ->
       Config.load_profiles files
       = Config.Returns (Config.ProfileMap profiles) ->
       profiles !! name = Some (Config.Mapping profile) ->
       exists config' ending,
         Config.apply_profile_if_needed files config = (config', ending)
         /\ Config.ticker config' = Config.ticker config
         /\ Config.trading_profile config' = Config.trading_profile config
         /\ (forall days, Config.lookback_days config = Some days ->
               Config.lookback_days config' = Some days)
         /\ (ending = None <-> conversions_succeed files profile config)
         /\ (ending = None ->
             Config._profile_applied config' = true
             /\ (exists days, Config.lookback_days config' = Some days)
             /\ (forall days,
                   Config.lookback_days config = None ->
                   Config.int_ files
                     (default (Config.VInt 21) (profile !! "lookback_days"))
                   = Config.Returns days ->
                   Config.lookback_days config' = Some days)
             /\ Config._risk_tolerance config'
                = Some (default (Config.VStr "moderate")
                                (profile !! "risk_tolerance"))
             /\ (forall risk,
                   default (Config.VStr "moderate")
                           (profile !! "risk_tolerance")
                   = Config.VStr risk ->
                   exists seen,
                     Config.score_config config' = Some seen
                     /\ risk_tolerance seen = risk)
             /\ ((forall risk,
                    default (Config.VStr "moderate")
                            (profile !! "risk_tolerance")
                    <> Config.VStr risk) ->
                 Config.score_config config' = None))
         /\ (ending <> None ->
             Config._profile_applied config' = false
             /\ Config._risk_tolerance config'
                = Config._risk_tolerance config).
Proof.
  split.
  - intros Hcase. unfold Config.apply_profile_if_needed.
    assert (E : Config.truthy_opt (Config.trading_profile config)
                && negb (Config._profile_applied config) = false).
    { destruct Hcase as [->| ->]; [reflexivity|apply andb_false_r]. }
    rewrite E. cbn [Config.and_then].
    destruct (provide_defaults_fields config) as (H1 & H2 & H3 & _ & H5 & H6).
    eexists. split; [reflexivity|]. auto.
  - intros name profiles profile Hname Hne Happlied Hex Hy Hload Hp.
    unfold Config.apply_profile_if_needed.
    rewrite Hname, Happlied, Hex, Hy, Hload.
    cbn [Config.truthy_opt negb from_option id].
    destruct name as [|ch name]; [congruence|]. cbn [truthy andb].
    rewrite Hp.
    destruct (apply_profile_ending files profile config)
      as (c1 & ending & -> & Htk & Htp & Hkeep & Hiff & Hok & Hfail).
    destruct ending as [e|]; cbn [Config.and_then].
    + (* an exception: the state is the one the updates left *)
      exists c1, (Some e). split; [reflexivity|].
      split; [exact Htk|]. split; [congruence|]. split; [exact Hkeep|].
      split; [exact Hiff|]. split; [discriminate|].
      intros _. destruct Hfail as [Ha Hr]; [discriminate|].
      split; congruence.
    + destruct (Hok eq_refl) as (Ha & (days & Hdays) & Hfrom & Hrisk).
      rewrite (provide_defaults_set c1 _ _ Hdays Hrisk).
      exists c1, None. split; [reflexivity|].
      split; [exact Htk|]. split; [congruence|]. split; [exact Hkeep|].
      split; [exact Hiff|]. split; [|congruence].
      intros _. split; [exact Ha|]. split; [eauto|]. split; [exact Hfrom|].
      split; [exact Hrisk|].
      unfold Config.score_config. rewrite Hrisk. split.
      * intros risk ->. eexists. split; reflexivity.
      * intros Hnot.
        destruct (default (Config.VStr "moderate") (profile !! "risk_tolerance"))
          as [|z|risk|o]; try reflexivity.
        exfalso. apply (Hnot risk). reflexivity.
Qed.

Lemma profile_fills_the_configuration_witness :
  (exists config' seen,
     Config.apply_profile_if_needed profile_files weekly_config
     = (config', None)
     /\ Config.lookback_days config' = Some 7%Z
     /\ Config.score_config config' = Some seen
     /\ risk_tolerance seen = "Aggressive")
  /\ (exists config' e,
        Config.apply_profile_if_needed (files_with null_profile) weekly_config
        = (config', Some e)
        /\ Config._profile_applied config' = false).
Proof.
  split.
  - destruct (proj2 (profile_fills_the_configuration profile_files
                       weekly_config)
                "weekly_1" {[ "weekly_1" := Config.Mapping weekly_profile ]}
                weekly_profile)
      as (config' & ending & Hrun & _ & _ & _ & _ & Hok & _).
    + reflexivity.
    + discriminate.
    + reflexivity.
    + reflexivity.
    + reflexivity.
    + reflexivity.
    + reflexivity.
    + pose proof Hrun as Hv. vm_compute in Hv. injection Hv as <- <-.
      destruct (Hok eq_refl) as (_ & _ & _ & _ & Hseen & _).
      destruct (Hseen "Aggressive" eq_refl) as (seen & Hs & Hr).
      eexists _, seen. split; [exact Hrun|]. split; [reflexivity|].
      split; [exact Hs|exact Hr].
  - destruct (proj2 (profile_fills_the_configuration (files_with null_profile)
                       weekly_config)
                "weekly_1" {[ "weekly_1" := Config.Mapping null_profile ]}
                null_profile)
      as (config' & ending & Hrun & _ & _ & _ & _ & _ & Hfail).
    + reflexivity.
    + discriminate.
    + reflexivity.
    + reflexivity.
    + reflexivity.
    + reflexivity.
    + reflexivity.
    + pose proof Hrun as Hv. vm_compute in Hv. injection Hv as <- <-.
      eexists _, _. split; [exact Hrun|]. apply Hfail. discriminate.
Defined.

(** A named profile that has not been applied yet cannot be applied when
    the profile file is missing, PyYAML is not installed or the file has no
    profile of that name: the call raises AgentError and leaves the
    configuration as it was. *)
Theorem unusable_profile_is_an_agent_error
    (files : Config.Files) (config : Config.Settings) (name : string) :
  Config.trading_profile config = Some name -> name <> EmptyString ->
  Config._profile_applied config = false ->
  Config.profiles_path_exists files = false
  \/ Config.yaml_installed files = false
  \/ (exists profiles,
        Config.load_profiles files
        = Config.Returns (Config.ProfileMap profiles)
        /\ profiles !! name = None)
  \/ Config.load_profiles files
     = Config.Returns (Config.NotAMap (Some false)) ->
  Config.apply_profile_if_needed files config
  = (config, Some Config.AgentError).
Proof.
  intros Hname Hne Happlied Hcase. unfold Config.apply_profile_if_needed.
  rewrite Hname, Happlied. cbn [Config.truthy_opt negb from_option id].
  destruct name as [|c name]; [congruence|]. cbn [truthy andb].
  destruct Hcase as [->|[H|[(profiles & Hload & Hp)|Hload]]]; [reflexivity| | |].
  - rewrite H. destruct (Config.profiles_path_exists files); reflexivity.
  - rewrite Hload, Hp.
    destruct (Config.profiles_path_exists files),
      (Config.yaml_installed files); reflexivity.
  - rewrite Hload.
    destruct (Config.profiles_path_exists files),
      (Config.yaml_installed files); reflexivity.
Qed.

Lemma unusable_profile_is_an_agent_error_witness :
  Config.apply_profile_if_needed no_files weekly_config
  = (weekly_config, Some Config.AgentError).
Proof.
  apply (unusable_profile_is_an_agent_error no_files weekly_config "weekly_1").
  - reflexivity.
  - discriminate.
  - reflexivity.
  - left. reflexivity.
Defined.

(** * The search queries *)

Ltac distinct_texts Hd :=
  repeat (apply NoDup_cons_2;
          [let Hin := fresh "Hin" in
           intros Hin;
           repeat (apply elem_of_cons in Hin as [Hin|Hin];
                   [apply Hd in Hin; cbn in Hin; discriminate|]);
           apply elem_of_nil in Hin; exact Hin|]);
  apply NoDup_nil_2.

Section QueryFacts.

Lemma string_app_inv_head (s a b : string) :
  (s ++ a)%string = (s ++ b)%string -> a = b.
Proof.
  induction s as [|c s IH]; cbn; intros H; [exact H|].
  injection H as H. apply IH. exact H.
Qed.

Lemma dedup_loop_distinct (queries : list (string * string))
    (seen : gset string) (dedup : list (string * string)) :
  NoDup (map snd queries) ->
  (forall q, q ∈ map snd queries -> q ∉ seen) ->
  Search.dedup_loop queries seen dedup = dedup ++ queries.
Proof.
  revert seen dedup.
  induction queries as [|[cat q] rest IH]; intros seen dedup Hnd Hseen.
  - cbn. rewrite app_nil_r. reflexivity.
  - cbn [Search.dedup_loop]. cbn [map snd] in Hnd, Hseen.
    apply NoDup_cons in Hnd as [Hq Hnd].
    rewrite bool_decide_eq_false_2 by (apply Hseen; left).
    rewrite IH.
    + rewrite <- app_assoc. reflexivity.
    + exact Hnd.
    + intros q' Hq' Hin. apply elem_of_union in Hin as [Hin|Hin].
      * apply elem_of_singleton in Hin. subst q'. contradiction.
      * apply (Hseen q'); [right; exact Hq'|exact Hin].
Qed.

Lemma dedup_loop_NoDup (queries : list (string * string))
    (seen : gset string) (dedup : list (string * string)) :
  NoDup (map snd dedup) ->
  (forall q, q ∈ map snd dedup -> q ∈ seen) ->
  NoDup (map snd (Search.dedup_loop queries seen dedup)).
Proof.
  revert seen dedup.
  induction queries as [|[cat q] rest IH]; intros seen dedup Hnd Hseen.
  - exact Hnd.
  - cbn [Search.dedup_loop]. destruct (bool_decide (q ∈ seen)) eqn:E.
    + apply IH; assumption.
    + apply bool_decide_eq_false in E. apply IH.
      * rewrite map_app. cbn [map snd]. apply NoDup_app.
        split; [exact Hnd|]. split; [|apply NoDup_singleton].
        intros x Hx Hx'. apply list_elem_of_singleton in Hx'. subst x.
        apply E, Hseen, Hx.
      * intros q' Hq'. rewrite map_app in Hq'. cbn [map snd] in Hq'.
        apply elem_of_app in Hq' as [Hq'|Hq'].
        -- apply elem_of_union_r, Hseen, Hq'.
        -- apply list_elem_of_singleton in Hq'. subst q'.
           apply elem_of_union_l, elem_of_singleton. reflexivity.
Qed.

End QueryFacts.

(** [build_queries] returns four queries, or seven when financial terms are
    included, in the listed order of categories and with pairwise distinct
    texts: for every ticker and look-back the de-duplication removes
    nothing. *)
Theorem build_queries_are_distinct (config : Config.Settings) :
  length (Search.build_queries config)
  = (if Config.include_financial_terms config then 7 else 4)%nat
  /\ map fst (Search.build_queries config)
     = ["news"; "catalysts"; "sentiment"; "macro"]
       ++ (if Config.include_financial_terms config
           then ["fundamentals"; "fundamentals"; "risk"] else [])
  /\ NoDup (map snd (Search.build_queries config)).
Proof.
  unfold Search.build_queries.
  set (base := upper (Config.ticker config)).
  set (horizon := Search.date_range_label config).
  assert (Hnd : forall qs : list (string * string),
            NoDup (map snd qs) -> Search.dedup_loop qs ∅ [] = qs).
  { intros qs H. rewrite dedup_loop_distinct; [reflexivity|exact H|].
    intros q _. apply not_elem_of_empty. }
  assert (Hd : forall a b : string,
            (base ++ a ++ horizon)%string = (base ++ b ++ horizon)%string ->
            (a ++ horizon)%string = (b ++ horizon)%string).
  { intros a b H. apply string_app_inv_head in H. exact H. }
  destruct (Config.include_financial_terms config).
  - rewrite Hnd.
    + split; [reflexivity|]. split; [reflexivity|].
      cbn [map snd app]. distinct_texts Hd.
    + cbn [map snd app]. distinct_texts Hd.
  - rewrite Hnd.
    + split; [reflexivity|]. split; [reflexivity|].
      cbn [map snd app]. distinct_texts Hd.
    + cbn [map snd app]. distinct_texts Hd.
Qed.

(** * The gathering of search results *)

Section SearchFacts.

Variables (max_results : Z) (queries : list (string * string)).

Lemma proper_urls_app (results : list Search.Source) (r : Search.Source) :
  proper_urls (results ++ [r])
  = proper_urls results
    ++ (if Config.truthy_opt (Search.url r) then [Search.url r] else []).
Proof.
  unfold proper_urls. rewrite map_app, List.filter_app. cbn.
  destruct (Config.truthy_opt (Search.url r)); reflexivity.
Qed.

Lemma gather_keeps (category q : string) (items : Search.feed) :
  (category, q) ∈ queries ->
  forall results seen_urls results' seen_urls',
    gathered max_results queries results seen_urls ->
    Search.gather max_results category q items results seen_urls
    = Config.Returns (results', seen_urls') ->
    gathered max_results queries results' seen_urls'.
Proof.
  intros Hq. induction items as [|item rest IH|];
    intros results seen results' seen' Hinv Hrun; cbn [Search.gather] in Hrun.
  - injection Hrun as <- <-. exact Hinv.
  - destruct (max_results <=? Z.of_nat (length results))%Z eqn:Efull.
    { injection Hrun as <- <-. exact Hinv. }
    apply Z.leb_gt in Efull.
    set (url := Search.get_or item "href" "url") in *.
    destruct (Config.truthy_opt url && bool_decide (url ∈ seen)) eqn:Edup.
    { apply (IH _ _ _ _ Hinv Hrun). }
    apply (IH _ _ _ _) in Hrun; [exact Hrun|].
    destruct Hinv as (Hlen & Hnd & Hseen & Hfrom).
    split; [|split; [|split]].
    + rewrite length_app. cbn [length]. lia.
    + rewrite proper_urls_app. cbn [Search.url].
      destruct (Config.truthy_opt url) eqn:Et;
        [|rewrite app_nil_r; exact Hnd].
      apply NoDup_app. split; [exact Hnd|]. split; [|apply NoDup_singleton].
      intros u Hu Hu'. apply list_elem_of_singleton in Hu'. subst u.
      cbn [andb] in Edup. apply bool_decide_eq_false in Edup.
      apply Edup, Hseen, Hu.
    + intros u Hu. rewrite proper_urls_app in Hu. cbn [Search.url] in Hu.
      apply elem_of_app in Hu as [Hu|Hu].
      * apply elem_of_union_r, Hseen, Hu.
      * destruct (Config.truthy_opt url); [|apply elem_of_nil in Hu; contradiction].
        apply list_elem_of_singleton in Hu. subst u.
        apply elem_of_union_l, elem_of_singleton. reflexivity.
    + intros r Hr. apply elem_of_app in Hr as [Hr|Hr]; [apply Hfrom, Hr|].
      apply list_elem_of_singleton in Hr. subst r. exact Hq.
  - discriminate.
Qed.

Lemma search_loop_keeps (timelimit : string) (ddgs : Search.Client)
    (remaining : list (string * string)) :
  (forall c, c ∈ remaining -> c ∈ queries) ->
  forall n results seen_urls results',
    gathered max_results queries results seen_urls ->
    Search.search_loop max_results timelimit ddgs n remaining results seen_urls
    = Config.Returns results' ->
    exists seen_urls', gathered max_results queries results' seen_urls'.
Proof.
  induction remaining as [|[category q] rest IH];
    intros Hsub n results seen results' Hinv Hrun;
    cbn [Search.search_loop] in Hrun.
  - injection Hrun as <-. eauto.
  - destruct (Search.gather _ _ _ _ _ _) as [[results1 seen1]|e] eqn:Eg;
      [|discriminate].
    assert (Hinv1 : gathered max_results queries results1 seen1).
    { eapply gather_keeps; [|exact Hinv|exact Eg]. apply Hsub. left. }
    destruct (max_results <=? Z.of_nat (length results1))%Z.
    + injection Hrun as <-. eauto.
    + eapply IH; [|exact Hinv1|exact Hrun].
      intros c Hc. apply Hsub. right. exact Hc.
Qed.

Lemma gather_returns (category q : string) (items : Search.feed) :
  completes items = true ->
  forall results seen_urls,
    exists state,
      Search.gather max_results category q items results seen_urls
      = Config.Returns state.
Proof.
  induction items as [|item rest IH|]; cbn [completes Search.gather];
    intros Hok results seen.
  - eauto.
  - destruct (max_results <=? Z.of_nat (length results))%Z; [eauto|].
    destruct (_ && _); apply IH; exact Hok.
  - discriminate.
Qed.

Lemma search_loop_returns (timelimit : string) (ddgs : Search.Client)
    (remaining : list (string * string)) :
  (forall n q t, completes (ddgs n q t) = true) ->
  forall n results seen_urls,
    exists results',
      Search.search_loop max_results timelimit ddgs n remaining results seen_urls
      = Config.Returns results'.
Proof.
  intros Hok. induction remaining as [|[category q] rest IH];
    intros n results seen; cbn [Search.search_loop].
  - eauto.
  - destruct (gather_returns category q (ddgs n q timelimit) (Hok n q timelimit)
                results seen) as [[results1 seen1] ->].
    destruct (max_results <=? Z.of_nat (length results1))%Z; [eauto|].
    apply IH.
Qed.

End SearchFacts.

(** [search] needs the ddgs client (without it the call raises AgentError)
    and returns whenever no request fails; and whatever the client yields,
    the sources it returns are no more than [max_results] (none when that
    bound is not positive), no two of them have the same non-empty URL, and
    each carries the category and text of one of the queries asked. *)
Theorem search_results_are_bounded_and_distinct
    (config : Config.Settings) (queries : list (string * string)) :
  Search.search config None queries = Config.Raises Config.AgentError
  /\ (forall ddgs,
        (forall n q t, completes (ddgs n q t) = true) ->
        exists results,
          Search.search config (Some (Config.Returns ddgs)) queries
          = Config.Returns results)
  /\ forall backend results,
       Search.search config backend queries = Config.Returns results ->
       (Z.of_nat (length results) <= Z.max 0 (Config.max_results config))%Z
       /\ NoDup (proper_urls results)
       /\ (forall r, r ∈ results ->
             (Search.category r, Search.query r) ∈ queries).
Proof.
  split; [reflexivity|]. split.
  { intros ddgs Hok. unfold Search.search. apply search_loop_returns, Hok. }
  intros backend results Hrun. unfold Search.search in Hrun.
  destruct backend as [[ddgs|e]|]; try discriminate.
  destruct (search_loop_keeps (Config.max_results config) queries
              (Search.timelimit_token config) ddgs queries
              (fun c Hc => Hc) 0 [] ∅ results) as (seen & H1 & H2 & _ & H4).
  - split; [cbn; lia|]. split; [apply NoDup_nil_2|].
    split; intros x Hx; apply elem_of_nil in Hx; contradiction.
  - exact Hrun.
  - auto.
Qed.

Lemma search_results_are_bounded_and_distinct_witness :
  exists results,
    Search.search weekly_config (Some (Config.Returns two_items))
      (Search.build_queries weekly_config) = Config.Returns results
    /\ (Z.of_nat (length results) <= 8)%Z
    /\ NoDup (proper_urls results).
Proof.
  destruct (search_results_are_bounded_and_distinct weekly_config
              (Search.build_queries weekly_config)) as (_ & Hreturns & Hkeeps).
  destruct (Hreturns two_items) as (results & Hrun); [reflexivity|].
  exists results. split; [exact Hrun|].
  destruct (Hkeeps _ _ Hrun) as (Hlen & Hnd & _).
  split; [exact Hlen|exact Hnd].
Defined.

(** * More unit tests of the indicator library, replayed on the model *)

Section MoreUnitTests.

Example test_calculate_exponential_moving_average :
  exists out,
    calculate_exponential_moving_average (map PyInt sample_data) (PyInt 5)
    = Ok out
    /\ length out = 15%nat
    /\ (exists q, out !! 0%nat = Some (Fin q) /\ q == 100)
    /\ last_approx out 118.85 0.01.
Proof.
  eexists. split; [vm_compute; reflexivity|]. split; [reflexivity|].
  split; eexists; (split; [reflexivity|]); vm_compute;
    first [reflexivity | discriminate].
Qed.

Example test_calculate_macd :
  exists macd_line signal_line histogram,
    calculate_macd (map PyInt sample_data) (PyInt 12) (PyInt 26) (PyInt 9)
    = Ok (macd_line, signal_line, histogram)
    /\ length macd_line = 15%nat
    /\ last_approx macd_line 5.14 0.01
    /\ last_approx signal_line 3.69 0.01
    /\ last_approx histogram 1.45 0.01.
Proof.
  do 3 eexists. split; [vm_compute; reflexivity|]. split; [reflexivity|].
  repeat split; eexists; (split; [reflexivity|]); vm_compute; discriminate.
Qed.

Example test_calculate_average_true_range :
  exists atr,
    calculate_average_true_range
      (map (fun x => PyInt (x + 2)) sample_data)
      (map (fun x => PyInt (x - 2)) sample_data)
      (map PyInt sample_data) (PyInt 14)
    = Ok atr
    /\ length atr = 15%nat
    /\ last_approx atr 4.23 0.01.
Proof.
  eexists. split; [vm_compute; reflexivity|]. split; [reflexivity|].
  eexists. split; [reflexivity|]. vm_compute. discriminate.
Qed.

End MoreUnitTests.
